(** * scratch-fuse/fuse: the compiler and decompiler command-line drivers

    A shallow embedding of [src/bin/compiler.js] and [src/bin/decompiler.js]
    (and of the earlier variants of the same two drivers), with the
    properties of the cross-target scope handling, of the content-addressed
    asset store, of the manifest assembly and of the decompiler mirror.

    Layout: data structures and the embedded functions come first, the
    lemmas and theorems follow. *)

From Stdlib Require Import List String Ascii ZArith Bool Arith Lia.
Import ListNotations.
Local Open Scope string_scope.
Local Open Scope list_scope.

(* ===================================================================== *)
(** ** JavaScript [Map]: an association list in insertion order *)
(* ===================================================================== *)

(** A JS [Map] iterates in insertion order and [set] on an existing key
    replaces the value in place.  The order is observable (the manifest is
    built by iterating the variable tables), so the tables are kept as
    association lists without duplicate keys rather than as finite maps. *)
Module JsMap.

Definition t (V : Type) : Type := list (string * V).

Definition empty {V : Type} : t V := [].

Fixpoint get {V : Type} (m : t V) (k : string) : option V :=
  match m with
  | [] => None
  | (k', v) :: r => if String.eqb k' k then Some v else get r k
  end.

Definition has {V : Type} (m : t V) (k : string) : bool :=
  match get m k with Some _ => true | None => false end.

Fixpoint set {V : Type} (m : t V) (k : string) (v : V) : t V :=
  match m with
  | [] => [(k, v)]
  | (k', v') :: r =>
      if String.eqb k' k then (k', v) :: r else (k', v') :: set r k v
  end.

Definition entries {V : Type} (m : t V) : list (string * V) := m.

Definition keys {V : Type} (m : t V) : list string := map fst m.

Definition values {V : Type} (m : t V) : list V := map snd m.

Definition size {V : Type} (m : t V) : nat := List.length m.

(** [new Map(iterable)]: the pairs are [set] one after the other. *)
Definition of_entries {V : Type} (l : list (string * V)) : t V :=
  fold_left (fun m kv => set m (fst kv) (snd kv)) l empty.

End JsMap.

(* ===================================================================== *)
(** ** MD5 (RFC 1321), as computed by node-forge's [forge.md.md5] *)
(* ===================================================================== *)

Module MD5.

Local Open Scope Z_scope.

Definition two32 : Z := 4294967296.

Definition add32 (a b : Z) : Z := (a + b) mod two32.

Definition rotl32 (x c : Z) : Z :=
  Z.lor (Z.shiftl x c mod two32) (Z.shiftr x (32 - c)).

Definition not32 (x : Z) : Z := Z.lxor x 4294967295.

Definition K : list Z :=
  [ 0xd76aa478; 0xe8c7b756; 0x242070db; 0xc1bdceee; 0xf57c0faf; 0x4787c62a;
    0xa8304613; 0xfd469501; 0x698098d8; 0x8b44f7af; 0xffff5bb1; 0x895cd7be;
    0x6b901122; 0xfd987193; 0xa679438e; 0x49b40821; 0xf61e2562; 0xc040b340;
    0x265e5a51; 0xe9b6c7aa; 0xd62f105d; 0x02441453; 0xd8a1e681; 0xe7d3fbc8;
    0x21e1cde6; 0xc33707d6; 0xf4d50d87; 0x455a14ed; 0xa9e3e905; 0xfcefa3f8;
    0x676f02d9; 0x8d2a4c8a; 0xfffa3942; 0x8771f681; 0x6d9d6122; 0xfde5380c;
    0xa4beea44; 0x4bdecfa9; 0xf6bb4b60; 0xbebfbc70; 0x289b7ec6; 0xeaa127fa;
    0xd4ef3085; 0x04881d05; 0xd9d4d039; 0xe6db99e5; 0x1fa27cf8; 0xc4ac5665;
    0xf4292244; 0x432aff97; 0xab9423a7; 0xfc93a039; 0x655b59c3; 0x8f0ccc92;
    0xffeff47d; 0x85845dd1; 0x6fa87e4f; 0xfe2ce6e0; 0xa3014314; 0x4e0811a1;
    0xf7537e82; 0xbd3af235; 0x2ad7d2bb; 0xeb86d391 ].

Definition S : list Z :=
  [ 7; 12; 17; 22; 7; 12; 17; 22; 7; 12; 17; 22; 7; 12; 17; 22;
    5; 9; 14; 20; 5; 9; 14; 20; 5; 9; 14; 20; 5; 9; 14; 20;
    4; 11; 16; 23; 4; 11; 16; 23; 4; 11; 16; 23; 4; 11; 16; 23;
    6; 10; 15; 21; 6; 10; 15; 21; 6; 10; 15; 21; 6; 10; 15; 21 ].

Definition bytes_of_string (s : string) : list Z :=
  map (fun c => Z.of_nat (nat_of_ascii c)) (list_ascii_of_string s).

(** Little-endian bytes of [x], [n] of them. *)
Fixpoint le_bytes (n : nat) (x : Z) : list Z :=
  match n with
  | O => []
  | Datatypes.S n' => (x mod 256) :: le_bytes n' (x / 256)
  end.

Fixpoint le_word (bs : list Z) : Z :=
  match bs with
  | [] => 0
  | b :: r => b + 256 * le_word r
  end.

(** The message followed by 0x80, zero bytes up to 56 modulo 64, and the
    bit length on eight bytes. *)
Definition pad (msg : list Z) : list Z :=
  let len := Z.of_nat (List.length msg) in
  let zeros := Z.to_nat ((55 - len) mod 64) in
  msg ++ [128] ++ repeat 0 zeros ++ le_bytes 8 ((8 * len) mod 18446744073709551616).

Fixpoint words (n : nat) (bs : list Z) : list Z :=
  match n with
  | O => []
  | Datatypes.S n' => le_word (firstn 4 bs) :: words n' (skipn 4 bs)
  end.

Definition round (M : list Z) (st : Z * Z * Z * Z) (i : nat) : Z * Z * Z * Z :=
  let '(a, b, c, d) := st in
  let zi := Z.of_nat i in
  let '(f, g) :=
    if (i <? 16)%nat then
      (Z.lor (Z.land b c) (Z.land (not32 b) d), zi)
    else if (i <? 32)%nat then
      (Z.lor (Z.land d b) (Z.land (not32 d) c), (5 * zi + 1) mod 16)
    else if (i <? 48)%nat then
      (Z.lxor (Z.lxor b c) d, (3 * zi + 5) mod 16)
    else
      (Z.lxor c (Z.lor b (not32 d)), (7 * zi) mod 16) in
  let f' := add32 (add32 (add32 f a) (nth i K 0)) (nth (Z.to_nat g) M 0) in
  (d, add32 b (rotl32 f' (nth i S 0)), b, c).

Definition chunk (st : Z * Z * Z * Z) (bs : list Z) : Z * Z * Z * Z :=
  let M := words 16 bs in
  let '(a0, b0, c0, d0) := st in
  let '(a, b, c, d) := fold_left (round M) (seq 0 64) st in
  (add32 a0 a, add32 b0 b, add32 c0 c, add32 d0 d).

Fixpoint chunks (n : nat) (st : Z * Z * Z * Z) (bs : list Z) : Z * Z * Z * Z :=
  match n with
  | O => st
  | Datatypes.S n' => chunks n' (chunk st (firstn 64 bs)) (skipn 64 bs)
  end.

Definition hex_digit (d : Z) : ascii :=
  nth (Z.to_nat d)
      (list_ascii_of_string "0123456789abcdef") "0"%char.

Definition hex_byte (b : Z) : string :=
  String (hex_digit (b / 16)) (String (hex_digit (b mod 16)) EmptyString).

Definition digest (msg : list Z) : list Z :=
  let p := pad msg in
  let '(a, b, c, d) :=
    chunks (List.length p / 64) (0x67452301, 0xefcdab89, 0x98badcfe, 0x10325476) p in
  le_bytes 4 a ++ le_bytes 4 b ++ le_bytes 4 c ++ le_bytes 4 d.

(** [md.update(data); md.digest().toHex()] on a binary string. *)
Definition hex (data : string) : string :=
  String.concat "" (map hex_byte (digest (bytes_of_string data))).

End MD5.

(* ===================================================================== *)
(** ** Node's [path] module (POSIX flavour) *)
(* ===================================================================== *)

Module Path.

(** [path.isAbsolute(p)]: the path starts with a slash. *)
Definition isAbsolute (p : string) : bool :=
  match p with
  | String c _ => Ascii.eqb c "/"%char
  | EmptyString => false
  end.

(** The scanning state of [path.extname]: the loop runs from the last
    character to the first and stops at the separator that precedes the last
    path component. *)
Record ExtScan : Type := mkExtScan {
  startDot : option nat;
  startPart : nat;
  endPos : option nat;
  matchedSlash : bool;
  preDotState : Z;
  stopped : bool
}.

Definition extInit : ExtScan := mkExtScan None 0 None true 0%Z false.

Definition extStep (st : ExtScan) (ic : nat * ascii) : ExtScan :=
  let '(i, code) := ic in
  if stopped st then st
  else if Ascii.eqb code "/"%char then
    if negb (matchedSlash st)
    then mkExtScan (startDot st) (i + 1) (endPos st) (matchedSlash st)
                   (preDotState st) true
    else st
  else
    let st1 :=
      match endPos st with
      | None => mkExtScan (startDot st) (startPart st) (Some (i + 1)) false
                          (preDotState st) false
      | Some _ => st
      end in
    if Ascii.eqb code "."%char then
      match startDot st1 with
      | None => mkExtScan (Some i) (startPart st1) (endPos st1)
                          (matchedSlash st1) (preDotState st1) false
      | Some _ => mkExtScan (startDot st1) (startPart st1) (endPos st1)
                            (matchedSlash st1) 1%Z false
      end
    else
      match startDot st1 with
      | Some _ => mkExtScan (startDot st1) (startPart st1) (endPos st1)
                            (matchedSlash st1) (-1)%Z false
      | None => st1
      end.

Definition indexed (p : string) : list (nat * ascii) :=
  combine (seq 0 (String.length p)) (list_ascii_of_string p).

(** [path.extname(p)]: from the last dot of the last path component to its
    end, or the empty string. *)
Definition extname (p : string) : string :=
  let st := fold_left extStep (rev (indexed p)) extInit in
  match startDot st, endPos st with
  | Some sd, Some e =>
      if (preDotState st =? 0)%Z
         || ((preDotState st =? 1)%Z && (sd =? e - 1)%nat
             && (sd =? startPart st + 1)%nat)
      then ""
      else substring sd (e - sd) p
  | _, _ => ""
  end.

(** [s.slice(1)]. *)
Definition slice1 (s : string) : string :=
  match s with
  | String _ r => r
  | EmptyString => EmptyString
  end.

End Path.

(* ===================================================================== *)
(** ** Values, variables and outcomes *)
(* ===================================================================== *)

(** JavaScript values that reach the variable tables.  Numbers are kept as
    integers; no property below depends on fractional values. *)
Inductive JsPrim : Type :=
| PNum (n : Z)
| PStr (s : string)
| PBool (b : bool).

Inductive JsValue : Type :=
| JUndefined
| JNull
| JPrim (p : JsPrim)
| JArr (items : list JsPrim).

(** [v ?? d]. *)
Definition nullish_or (v d : JsValue) : JsValue :=
  match v with
  | JUndefined | JNull => d
  | _ => v
  end.

(** [Array.isArray(v) ? v : []]. *)
Definition array_or_empty (v : JsValue) : JsValue :=
  match v with
  | JArr _ => v
  | _ => JArr []
  end.

(** [o ?? d] on an optional field. *)
Definition opt_or {A : Type} (o : option A) (d : A) : A :=
  match o with
  | Some a => a
  | None => d
  end.

(** The [Variable] objects of @scratch-fuse/compiler ([Variable] is a
    reserved word here). *)
Record FuseVariable : Type := mkVariable {
  v_type : string;            (* 'scalar' or 'list' *)
  v_name : string;
  v_isGlobal : bool;
  v_exportName : option string
}.

(** [variable.isGlobal = true]. *)
Definition markGlobal (v : FuseVariable) : FuseVariable :=
  mkVariable (v_type v) (v_name v) true (v_exportName v).

(** A variable table: name to [[variable, defaultValue]]. *)
Definition VarTable : Type := JsMap.t (FuseVariable * JsValue).

Definition Error : Type := string.

(** A call either returns or throws. *)
Inductive Outcome (A : Type) : Type :=
| Ok (a : A)
| Throw (e : Error).

Arguments Ok {A} a.
Arguments Throw {A} e.

Inductive LogLine : Type :=
| Log (s : string)       (* console.log *)
| LogError (s : string). (* console.error *)

(* ===================================================================== *)
(** ** A state-and-exception monad for the drivers *)
(* ===================================================================== *)

(** A computation over a world [W] returns or throws, and leaves a world
    behind in both cases. *)
Definition St (W A : Type) : Type := W -> Outcome A * W.

Definition ret {W A : Type} (a : A) : St W A := fun w => (Ok a, w).

Definition bind {W A B : Type} (m : St W A) (f : A -> St W B) : St W B :=
  fun w =>
    match m w with
    | (Ok a, w') => f a w'
    | (Throw e, w') => (Throw e, w')
    end.

Definition throw {W A : Type} (e : Error) : St W A :=
  fun w => (Throw e, w).

(** [try { m } catch (e) { handler e }]. *)
Definition try_catch {W A : Type} (m : St W A) (handler : Error -> St W A)
  : St W A :=
  fun w =>
    match m w with
    | (Ok a, w') => (Ok a, w')
    | (Throw e, w') => handler e w'
    end.

Definition lift {W A : Type} (o : Outcome A) : St W A := fun w => (o, w).

Declare Scope js_scope.
Delimit Scope js_scope with js.
Notation "x <- m ;; k" := (bind m (fun x => k))
  (at level 61, m at next level, right associativity) : js_scope.
Notation "m ;;; k" := (bind m (fun _ => k))
  (at level 61, right associativity) : js_scope.
Local Open Scope js_scope.

Fixpoint mapM {W A B : Type} (f : A -> St W B) (l : list A) : St W (list B) :=
  match l with
  | [] => ret []
  | a :: r => b <- f a ;; bs <- mapM f r ;; ret (b :: bs)
  end.

(** A [for ... of] loop that threads an accumulator. *)
Fixpoint foldM {W A S : Type} (f : S -> A -> St W S) (l : list A) (s : S)
  : St W S :=
  match l with
  | [] => ret s
  | a :: r => s' <- f s a ;; foldM f r s'
  end.

(* ===================================================================== *)
(** ** The compiler driver: collaborators and state *)
(* ===================================================================== *)

(** Data of the external packages (@scratch-fuse/core, compiler, serializer,
    builtins) that the driver only passes along. *)
Class Types : Type := {
  Program : Type;      (* the AST returned by [parser.parse()] *)
  ModuleDefs : Type;   (* [Map<string, ModuleInfo>]: builtins and type files *)
  IRFunction : Type;   (* a compiled function *)
  IRScript : Type;     (* a compiled script *)
  Workspace : Type;    (* serialized blocks *)
  emptyWorkspace : Workspace   (* [{}] *)
}.

(** The root module built by [compileScript].  Its [parent] is [null] and
    its [functions] and [externs] are empty Maps at every call. *)
Record ModuleInfo {T : Types} : Type := mkModule {
  m_name : string;
  m_variables : VarTable;
  m_children : ModuleDefs;
  m_filename : string
}.

(** What [context.compile(program)] resolves to. *)
Record CompileResult {T : Types} : Type := mkResult {
  r_variables : VarTable;
  r_functions : list IRFunction;
  r_scripts : list IRScript
}.

(** The collaborators, as functions.  A call that can throw returns an
    [Outcome].  Files that the compiler reads through the import resolver
    are its own business and are not recorded.  Values are passed by value:
    the [Variable] objects that the tables share with the results of the
    compiler are not tracked as aliases; the properties below are about the
    keys of the tables and the fields that the drivers set themselves. *)
Class Externals {T : Types} : Type := {
  inputDir : string;
  path_join : string -> string -> string;
  readFileSync : string -> Outcome string;
  parse : string -> Outcome Program;
  compile : ModuleInfo -> Program -> Outcome CompileResult;
  structuredClone : ModuleDefs -> ModuleDefs;
  serializeFunction : IRFunction -> Outcome Workspace;
  serializeScript : IRScript -> Outcome Workspace;
  mergeWorkspaces : list Workspace -> Outcome Workspace;
  uid_at : nat -> string;  (* the n-th identifier [uid()] returns *)
  (* the [TypeError] ([ERR_INVALID_ARG_TYPE]) that [path.isAbsolute] of
     Node throws for an argument that is not a string; its message depends
     on the version of Node *)
  pathTypeError : Error
}.

(** What a run does to its surroundings: console output, the files read,
    the modules handed to the compiler, the archive under construction and
    the number of identifiers drawn so far. *)
Record World {T : Types} : Type := mkWorld {
  console : list LogLine;
  fsReads : list string;
  compilerCalls : list ModuleInfo;
  zipFiles : JsMap.t string;
  uidCount : nat
}.

Arguments mkModule {T} _ _ _ _.
Arguments mkResult {T} _ _ _.
Arguments mkWorld {T} _ _ _ _ _.

Definition M {T : Types} (A : Type) : Type := St World A.

Definition console_log {T : Types} (s : string) : M unit :=
  fun w => (Ok tt, mkWorld (console w ++ [Log s]) (fsReads w) (compilerCalls w)
                           (zipFiles w) (uidCount w)).

Definition console_error {T : Types} (s : string) : M unit :=
  fun w => (Ok tt, mkWorld (console w ++ [LogError s]) (fsReads w)
                           (compilerCalls w) (zipFiles w) (uidCount w)).

(** [fs.readFileSync(path)]; the read is recorded whether or not it
    succeeds. *)
Definition fs_read {T : Types} {E : Externals} (path : string) : M string :=
  fun w => (readFileSync path,
            mkWorld (console w) (fsReads w ++ [path]) (compilerCalls w)
                    (zipFiles w) (uidCount w)).

(** [await context.compile(program)] on a context made for [module]. *)
Definition call_compile {T : Types} {E : Externals} (module : ModuleInfo)
    (program : Program) : M CompileResult :=
  fun w => (compile module program,
            mkWorld (console w) (fsReads w) (compilerCalls w ++ [module])
                    (zipFiles w) (uidCount w)).

(** [zip.file(name, data)]: add or replace the entry [name]. *)
Definition zip_file {T : Types} (name data : string) : M unit :=
  fun w => (Ok tt, mkWorld (console w) (fsReads w) (compilerCalls w)
                           (JsMap.set (zipFiles w) name data) (uidCount w)).

(** [uid()]. *)
Definition uid {T : Types} {E : Externals} : M string :=
  fun w => (Ok (uid_at (uidCount w)),
            mkWorld (console w) (fsReads w) (compilerCalls w) (zipFiles w)
                    (S (uidCount w))).

(* ===================================================================== *)
(** ** The project description *)
(* ===================================================================== *)

(** A costume, backdrop or sound block of the project file.  The schema
    requires none of the fields. *)
Record AssetDecl : Type := mkAssetDecl {
  a_path : option string;
  a_name : option string;
  a_x : option Z;
  a_y : option Z
}.

Record StageConfig : Type := mkStageConfig {
  s_currentBackdrop : option Z;
  s_tempo : option Z;
  s_volume : option Z;
  s_backdrops : option (list AssetDecl);
  s_sounds : option (list AssetDecl);
  s_entry : option string
}.

Record TargetConfig : Type := mkTargetConfig {
  t_name : string;
  t_currentCostume : option Z;
  t_rotationStyle : option string;
  t_layerOrder : option Z;
  t_visible : option bool;
  t_x : option Z;
  t_y : option Z;
  t_size : option Z;
  t_direction : option Z;
  t_draggable : option bool;
  t_tempo : option Z;
  t_volume : option Z;
  t_costumes : option (list AssetDecl);
  t_sounds : option (list AssetDecl);
  t_entry : option string
}.

(* ===================================================================== *)
(** ** [compileScript] and the compile loop ([src/bin/compiler.js]) *)
(* ===================================================================== *)

Section CompileScript.
Context {T : Types} {E : Externals}.

(** [path.isAbsolute(p) ? p : path.join(inputDir, p)]. *)
Definition fullPathOf (p : string) : string :=
  if Path.isAbsolute p then p else path_join inputDir p.

(** [v => [v[0], [v[1][0], v[1][1]]]]. *)
Definition copyEntry (v : string * (FuseVariable * JsValue))
  : string * (FuseVariable * JsValue) :=
  (fst v, (fst (snd v), snd (snd v))).

(** The scope handed to the compiler: the entries of [stageVariables] (when
    there is such a table) followed by those of [variables]. *)
Definition combinedVariables (stageVariables : option VarTable)
    (variables : VarTable) : VarTable :=
  JsMap.of_entries
    (match stageVariables with
     | Some sv => map copyEntry (JsMap.entries sv)
     | None => []
     end ++ map copyEntry (JsMap.entries variables)).

(** The loop of the stage branch ([!stageVariables]): every variable found
    is marked global and stored under its name. *)
Definition collectStage (found : list (FuseVariable * JsValue))
    (variables : VarTable) : VarTable :=
  fold_left
    (fun vars vd => JsMap.set vars (v_name (fst vd)) (markGlobal (fst vd), snd vd))
    found variables.

(** The loop of the sprite branch: a variable found goes to
    [stageVariables] when it is global and to [variables] otherwise. *)
Definition collectSprite (found : list (FuseVariable * JsValue))
    (stageVariables variables : VarTable) : VarTable * VarTable :=
  fold_left
    (fun st vd =>
       if v_isGlobal (fst vd)
       then (JsMap.set (fst st) (v_name (fst vd)) (fst vd, snd vd), snd st)
       else (fst st, JsMap.set (snd st) (v_name (fst vd)) (fst vd, snd vd)))
    found (stageVariables, variables).

(** [if (!stageVariables) { ... } else { ... }]: the contents of the two
    tables once the variables found have been stored. *)
Definition tablesAfter (found : list (FuseVariable * JsValue))
    (stageVariables : option VarTable) (variables : VarTable)
  : option VarTable * VarTable :=
  match stageVariables with
  | None => (None, collectStage found variables)
  | Some sv =>
      let st := collectSprite found sv variables in
      (Some (fst st), snd st)
  end.

(** [compileScript(entry, baseModuleDefinition, stageVariables, variables)].
    The two tables are mutated by the source; the model returns their
    contents at the end of the call next to the workspace.
    [stageVariables] is [None] for the stage ([null] in the source).  An
    exception leaves [compileScript] after the console line of the [catch]
    block and nothing in the main function catches it: the run ends there,
    so no tables are returned in that case. *)
Definition compileScript (entry : option string) (baseModuleDefinition : ModuleDefs)
    (stageVariables : option VarTable) (variables : VarTable)
  : M (Workspace * (option VarTable * VarTable)) :=
  match entry with
  | None => ret (emptyWorkspace, (stageVariables, variables))
  | Some entry =>
    if String.eqb entry "" then ret (emptyWorkspace, (stageVariables, variables))
    else
      let fullPath := fullPathOf entry in
      try_catch
        (sourceCode <- fs_read fullPath ;;
         program <- lift (parse sourceCode) ;;
         let combined := combinedVariables stageVariables variables in
         let module :=
           mkModule "" combined (structuredClone baseModuleDefinition) fullPath in
         result <- call_compile module program ;;
         let found := JsMap.values (r_variables result) in
         let tables := tablesAfter found stageVariables variables in
         fs <- mapM (fun f => lift (serializeFunction f)) (r_functions result) ;;
         ss <- mapM (fun s => lift (serializeScript s)) (r_scripts result) ;;
         workspace <- lift (mergeWorkspaces (fs ++ ss)) ;;
         ret (workspace, tables))
        (fun error =>
           console_error (String.append "Error compiling script file: " fullPath) ;;;
           throw error)
  end.

(** An element of the [targets] array of the main function. *)
Record CompiledTarget : Type := mkCompiled {
  c_target : TargetConfig;
  c_workspace : Workspace;
  c_variables : VarTable
}.

(** The stage is compiled first, with [null] for [stageVariables] and the
    (empty) global table as [variables]. *)
Definition compileStage (stage : StageConfig) (base : ModuleDefs)
  : M (Workspace * VarTable) :=
  console_log "Compiling stage..." ;;;
  r <- compileScript (s_entry stage) base None JsMap.empty ;;
  ret (fst r, snd (snd r)).

(** One turn of [for (const target of inputJson.targets)]; the state is the
    global table and the [targets] array built so far. *)
Definition compileSprite (base : ModuleDefs)
    (st : VarTable * list CompiledTarget) (target : TargetConfig)
  : M (VarTable * list CompiledTarget) :=
  console_log (String.append "Compiling sprite: " (t_name target)) ;;;
  r <- compileScript (t_entry target) base (Some (fst st)) JsMap.empty ;;
  ret (opt_or (fst (snd r)) (fst st),
       snd st ++ [mkCompiled target (fst r) (snd (snd r))]).

Definition compileSprites (base : ModuleDefs) (targets : list TargetConfig)
    (stageVariables : VarTable) (done : list CompiledTarget)
  : M (VarTable * list CompiledTarget) :=
  foldM (compileSprite base) targets (stageVariables, done).

End CompileScript.

(* ===================================================================== *)
(** ** The asset store and the manifest ([src/bin/compiler.js]) *)
(* ===================================================================== *)

Definition dq : string := String (ascii_of_nat 34) EmptyString.

(** The text of the [EMPTY_SVG] constant. *)
Definition EMPTY_SVG : string :=
  String.concat dq
    [ "<svg version="; "1.1"; " xmlns="; "http://www.w3.org/2000/svg";
      " xmlns:xlink="; "http://www.w3.org/1999/xlink"; " width="; "1";
      " height="; "1"; "><rect width="; "1"; " height="; "1"; " fill=";
      "transparent"; "/></svg>" ].

(** [md5Bytes(data)]. *)
Definition md5Bytes (data : string) : string := MD5.hex data.

Arguments md5Bytes : simpl never.

(** The hash is only ever evaluated by [vm_compute]. *)
#[global] Opaque MD5.hex.

(** What [createEmptyAsset] and [processAsset] return. *)
Record AssetInfo : Type := mkAssetInfo {
  assetId : string;
  md5ext : string;
  dataFormat : string
}.

Record CostumeEntry : Type := mkCostume {
  co_assetId : string;
  co_name : option string;
  co_md5ext : string;
  co_dataFormat : string;
  co_rotationCenterX : Z;
  co_rotationCenterY : Z
}.

Record SoundEntry : Type := mkSound {
  so_assetId : string;
  so_name : option string;
  so_md5ext : string;
  so_dataFormat : string;
  so_format : string;
  so_rate : Z;
  so_sampleCount : Z
}.

(** The fields that only a sprite target has. *)
Record SpriteFields : Type := mkSpriteFields {
  sp_visible : bool;
  sp_x : Z;
  sp_y : Z;
  sp_size : Z;
  sp_direction : Z;
  sp_draggable : bool;
  sp_rotationStyle : string
}.

(** A target of [project.json].  [variables] and [lists] are objects keyed
    by the generated identifier, each entry being [[displayName, value]].
    The constant fields ([broadcasts], [comments], the video and
    text-to-speech settings) are left out. *)
Record ManifestTarget {T : Types} : Type := mkTarget {
  mt_isStage : bool;
  mt_name : string;
  mt_variables : JsMap.t (string * JsValue);
  mt_lists : JsMap.t (string * JsValue);
  mt_blocks : Workspace;
  mt_currentCostume : Z;
  mt_costumes : list CostumeEntry;
  mt_sounds : list SoundEntry;
  mt_volume : Z;
  mt_layerOrder : Z;
  mt_tempo : Z;
  mt_sprite : option SpriteFields
}.

Arguments mkTarget {T} _ _ _ _ _ _ _ _ _ _ _ _.

Section Manifest.
Context {T : Types} {E : Externals}.

(** [createEmptyAsset()]. *)
Definition createEmptyAsset : M AssetInfo :=
  let md5 := md5Bytes EMPTY_SVG in
  let md5ext := String.append md5 ".svg" in
  zip_file md5ext EMPTY_SVG ;;;
  ret (mkAssetInfo md5 md5ext "svg").

(** [processAsset(assetPath, type)].  A missing [path] field makes
    [path.isAbsolute] throw. *)
Definition processAsset (assetPath : option string) (type : string) : M AssetInfo :=
  match assetPath with
  | None => throw pathTypeError
  | Some assetPath =>
      let fullPath := fullPathOf assetPath in
      assetData <- fs_read fullPath ;;
      let md5 := md5Bytes assetData in
      let ext := Path.slice1 (Path.extname assetPath) in
      let md5ext := String.append md5 (String.append "." ext) in
      zip_file md5ext assetData ;;;
      ret (mkAssetInfo md5 md5ext ext)
  end.

(** [variable.exportName ?? variable.name]. *)
Definition displayName (variable : FuseVariable) : string :=
  opt_or (v_exportName variable) (v_name variable).

(** One turn of the loops that fill [variables] and [lists] of a target;
    the state is the pair of the two objects. *)
Definition rekey (objs : JsMap.t (string * JsValue) * JsMap.t (string * JsValue))
    (vd : FuseVariable * JsValue)
  : M (JsMap.t (string * JsValue) * JsMap.t (string * JsValue)) :=
  let '(variable, defaultValue) := vd in
  scratchId <- uid ;;
  if String.eqb (v_type variable) "list"
  then ret (fst objs,
            JsMap.set (snd objs) scratchId
                      (displayName variable, array_or_empty defaultValue))
  else ret (JsMap.set (fst objs) scratchId
                      (displayName variable,
                       nullish_or defaultValue (JPrim (PNum 0))),
            snd objs).

Definition rekeyAll (table : VarTable)
  : M (JsMap.t (string * JsValue) * JsMap.t (string * JsValue)) :=
  foldM rekey (JsMap.values table) (JsMap.empty, JsMap.empty).

(** The entry pushed for a declared costume or backdrop. *)
Definition costumeOf (type : string) (decl : AssetDecl) : M CostumeEntry :=
  assetInfo <- processAsset (a_path decl) type ;;
  ret (mkCostume (assetId assetInfo) (a_name decl) (md5ext assetInfo)
                 (dataFormat assetInfo) (opt_or (a_x decl) 0%Z)
                 (opt_or (a_y decl) 0%Z)).

(** The default entry of a target without costumes. *)
Definition emptyCostume : M CostumeEntry :=
  emptyAsset <- createEmptyAsset ;;
  ret (mkCostume (assetId emptyAsset) (Some "empty") (md5ext emptyAsset)
                 (dataFormat emptyAsset) 0%Z 0%Z).

(** [decls && decls.length > 0]. *)
Definition nonEmpty (decls : option (list AssetDecl)) : bool :=
  match decls with
  | Some (_ :: _) => true
  | _ => false
  end.

(** [if (decls && decls.length > 0) { for ... } else { default }]. *)
Definition buildCostumes (type : string) (decls : option (list AssetDecl))
  : M (list CostumeEntry) :=
  if nonEmpty decls
  then mapM (costumeOf type) (opt_or decls [])
  else c <- emptyCostume ;; ret [c].

Definition soundOf (decl : AssetDecl) : M SoundEntry :=
  assetInfo <- processAsset (a_path decl) "sound" ;;
  ret (mkSound (assetId assetInfo) (a_name decl) (md5ext assetInfo)
               (dataFormat assetInfo) (dataFormat assetInfo) 48000%Z 1%Z).

Definition buildSounds (decls : option (list AssetDecl)) : M (list SoundEntry) :=
  if nonEmpty decls then mapM soundOf (opt_or decls []) else ret [].

(** The stage target: variables, then backdrops, then sounds. *)
Definition buildStageTarget (stage : StageConfig) (stageWorkspace : Workspace)
    (stageVariables : VarTable) : M ManifestTarget :=
  objs <- rekeyAll stageVariables ;;
  costumes <- buildCostumes "backdrop" (s_backdrops stage) ;;
  sounds <- buildSounds (s_sounds stage) ;;
  ret (mkTarget true "Stage" (fst objs) (snd objs) stageWorkspace
                (opt_or (s_currentBackdrop stage) 0%Z) costumes sounds
                (opt_or (s_volume stage) 100%Z) 0%Z
                (opt_or (s_tempo stage) 60%Z) None).

(** The target of the sprite at index [i] of the [targets] array. *)
Definition buildSpriteTarget (i : nat) (c : CompiledTarget) : M ManifestTarget :=
  let target := c_target c in
  objs <- rekeyAll (c_variables c) ;;
  costumes <- buildCostumes "costume" (t_costumes target) ;;
  sounds <- buildSounds (t_sounds target) ;;
  ret (mkTarget false (t_name target) (fst objs) (snd objs) (c_workspace c)
                (opt_or (t_currentCostume target) 0%Z) costumes sounds
                (opt_or (t_volume target) 100%Z)
                (opt_or (t_layerOrder target) (Z.of_nat i + 1)%Z)
                (opt_or (t_tempo target) 60%Z)
                (Some (mkSpriteFields
                         (opt_or (t_visible target) true)
                         (opt_or (t_x target) 0%Z)
                         (opt_or (t_y target) 0%Z)
                         (opt_or (t_size target) 100%Z)
                         (opt_or (t_direction target) 90%Z)
                         (opt_or (t_draggable target) false)
                         (opt_or (t_rotationStyle target) "all around")))).

(** [for (let i = 0; i < targets.length; i++)], from index [i]. *)
Fixpoint buildSpriteTargets (i : nat) (cs : list CompiledTarget)
  : M (list ManifestTarget) :=
  match cs with
  | [] => ret []
  | c :: r =>
      t <- buildSpriteTarget i c ;;
      ts <- buildSpriteTargets (S i) r ;;
      ret (t :: ts)
  end.

End Manifest.

(* ===================================================================== *)
(** ** The main function of the compiler *)
(* ===================================================================== *)

(** The validated project file. *)
Record Project : Type := mkProject {
  p_types : option (list string);
  p_extensions : option (list string);
  p_stage : StageConfig;
  p_targets : list TargetConfig
}.

(** [projectJson]; [monitors] and [meta] are constants. *)
Record ProjectJson {T : Types} : Type := mkProjectJson {
  pj_targets : list ManifestTarget;
  pj_extensions : list string
}.

Arguments mkProjectJson {T} _ _.

Section Main.
Context {T : Types} {E : Externals}.

(** [mergeModules(new Map(Builtins.Sb3Modules), await processTypes(types))],
    or the builtins alone: the module definitions every target is compiled
    against. *)
Variable baseModules : option (list string) -> M ModuleDefs.

Variable JSON_stringify : ProjectJson -> string.

(** The compile phase: the stage, then the sprites in declared order. *)
Definition compileAll (stage : StageConfig) (targets : list TargetConfig)
    (base : ModuleDefs) : M (Workspace * (VarTable * list CompiledTarget)) :=
  r <- compileStage stage base ;;
  st <- compileSprites base targets (snd r) [] ;;
  ret (fst r, st).

(** The manifest phase.  The stage is built from the global table as it is
    after every sprite has been compiled. *)
Definition buildManifest (inputJson : Project)
    (compiled : Workspace * (VarTable * list CompiledTarget)) : M ProjectJson :=
  stageTarget <-
    buildStageTarget (p_stage inputJson) (fst compiled) (fst (snd compiled)) ;;
  spriteTargets <- buildSpriteTargets 0 (snd (snd compiled)) ;;
  ret (mkProjectJson (stageTarget :: spriteTargets)
                     (opt_or (p_extensions inputJson) [])).

(** The body of the async main function.  The world left behind holds the
    archive that [zip.generateAsync] serializes to the output file. *)
Definition main (inputJson : Project) : M ProjectJson :=
  baseModuleDefinition <- baseModules (p_types inputJson) ;;
  compiled <-
    compileAll (p_stage inputJson) (p_targets inputJson) baseModuleDefinition ;;
  projectJson <- buildManifest inputJson compiled ;;
  zip_file "project.json" (JSON_stringify projectJson) ;;;
  ret projectJson.

End Main.

(* ===================================================================== *)
(** ** The decompiler driver: collaborators and state *)
(* ===================================================================== *)

(** Data of the external packages that the decompiler only passes along. *)
Class DTypes : Type := {
  Block : Type;            (* a serialized block of [target.blocks] *)
  DScript : Type;          (* a deserialized script *)
  DFunction : Type;        (* a deserialized function *)
  proccode : DFunction -> string;
  DModules : Type;         (* [new Map(Builtins.Sb3Modules)] *)
  ExternValue : Type;      (* the value of a generated extern *)
  DNode : Type;            (* an AST node made by the decompiler *)
  DState : Type            (* the name manager and the decompiler objects *)
}.

Record ExternDeclaration {T : DTypes} : Type := mkExternDecl {
  ed_name : string;
  ed_value : ExternValue
}.

Arguments mkExternDecl {T} _ _.

(** The nodes of an emitted program: the module declarations are built by
    the driver, the others come from the decompiler. *)
Inductive Node {T : DTypes} : Type :=
| ModuleDeclaration (name : string) (body : list ExternDeclaration)
| Decompiled (n : DNode).

(** A costume or sound of a target of [project.json]. *)
Record Sb3Asset : Type := mkSb3Asset {
  sa_md5ext : string;
  sa_name : string;
  sa_rotationCenterX : option Z;
  sa_rotationCenterY : option Z
}.

(** A target of the [project.json] being decompiled. *)
Record Sb3Target {T : DTypes} : Type := mkSb3Target {
  st_isStage : bool;
  st_name : string;
  st_variables : option (JsMap.t (string * JsValue));
  st_lists : option (JsMap.t (string * JsValue));
  st_blocks : option (JsMap.t Block);
  st_costumes : option (list Sb3Asset);   (* [None]: no [costumes] field *)
  st_sounds : option (list Sb3Asset);     (* [None]: no [sounds] field *)
  st_currentCostume : option Z;
  st_tempo : option Z;
  st_volume : option Z;
  st_rotationStyle : option string;
  st_layerOrder : option Z;
  st_visible : option bool;
  st_x : option Z;
  st_y : option Z;
  st_size : option Z;
  st_direction : option Z;
  st_draggable : option bool
}.

Arguments mkSb3Target {T} _ _ _ _ _ _ _ _ _ _ _ _ _ _ _ _ _ _.

(** An asset block of the regenerated [project.yaml]. *)
Record AssetConfig : Type := mkAssetConfig {
  ac_name : string;
  ac_path : string;
  ac_x : option Z;     (* costumes and backdrops only *)
  ac_y : option Z
}.

Record TargetOut : Type := mkTargetOut {
  to_name : string;
  to_currentCostume : Z;
  to_rotationStyle : string;
  to_layerOrder : Z;
  to_visible : bool;
  to_x : Z;
  to_y : Z;
  to_size : Z;
  to_direction : Z;
  to_draggable : bool;
  to_volume : Z;
  to_costumes : list AssetConfig;
  to_sounds : list AssetConfig;
  to_entry : option string
}.

Record StageOut : Type := mkStageOut {
  sg_backdrops : list AssetConfig;
  sg_sounds : list AssetConfig;
  sg_currentBackdrop : Z;
  sg_tempo : Z;
  sg_volume : Z;
  sg_entry : option string
}.

Record ProjectConfig : Type := mkProjectConfig {
  pc_extensions : list string;
  pc_stage : StageOut;
  pc_targets : list TargetOut
}.

(** An entry of a zip archive as [zip.file(name)] sees it. *)
Record ZipObject : Type := mkZipObject {
  zo_dir : bool;
  zo_data : string
}.

(** The collaborators of the decompiler.  The decompiler object and the
    shared [VariableNameManager] are stateful: their methods take and return
    the state, also when they throw. *)
Class DExternals {T : DTypes} : Type := {
  d_path_join : string -> string -> string;
  writeFileSync : string -> string -> Outcome unit;
  (* the argument is [None] when [target.blocks] is undefined *)
  deserializeAllScripts : option (JsMap.t Block) -> Outcome (list DScript);
  deserializeAllFunctions : option (JsMap.t Block) -> Outcome (list DFunction);
  createDecompiler :
    DModules -> list FuseVariable -> list DFunction -> DState ->
    Outcome unit * DState;
  decompileVariable : FuseVariable -> JsValue -> DState -> Outcome DNode * DState;
  decompileFunction : DFunction -> DState -> Outcome DNode * DState;
  decompileScript : DScript -> DState -> Outcome (list DNode) * DState;
  (* [decompiler.generatedModule.children], each with its [externs] *)
  generatedModules : DState -> JsMap.t (JsMap.t ExternValue);
  toSource : list Node -> Outcome string;
  yaml_stringify : ProjectConfig -> string;
  (* the [TypeError] that the engine throws when [length] is read of
     [undefined]; its message depends on the version of the engine *)
  lengthOfUndefined : Error
}.

(** Console lines of the decompiler.  The warnings and errors keep their
    arguments; the source prints them inside a fixed sentence. *)
Inductive DLog : Type :=
| Info (line : string)                     (* a progress line *)
| InfoFound (scripts functions : nat)      (* Found n scripts and m functions *)
| WarnFunction (proccode : string) (stack : Error)
                                 (* Warning: Could not decompile function *)
| WarnScript (stack : Error)     (* Warning: Could not decompile script *)
| WarnConflict (name : string)   (* Warning: Variable name conflict *)
| ErrorStage (stack : Error)     (* Error decompiling stage *)
| ErrorTarget (stack : Error)    (* Error decompiling target *)
| ErrorLine (stack : Error).     (* console.error(error.stack) *)

Definition isWarningOrError (l : DLog) : bool :=
  match l with
  | Info _ | InfoFound _ _ => false
  | _ => true
  end.

(** What a decompiler run does to its surroundings. *)
Record DWorld {T : DTypes} : Type := mkDWorld {
  d_console : list DLog;
  d_writes : list (string * string);     (* files written: path, content *)
  assetMapping : JsMap.t string;
  d_state : DState
}.

Arguments mkDWorld {T} _ _ _ _.

Definition DM {T : DTypes} (A : Type) : Type := St DWorld A.

Definition d_log {T : DTypes} (l : DLog) : DM unit :=
  fun w => (Ok tt, mkDWorld (d_console w ++ [l]) (d_writes w) (assetMapping w)
                            (d_state w)).

(** [fs.writeFileSync(path, data)]; recorded when it succeeds. *)
Definition fs_write {T : DTypes} {E : DExternals} (path data : string) : DM unit :=
  fun w =>
    match writeFileSync path data with
    | Ok _ => (Ok tt, mkDWorld (d_console w) (d_writes w ++ [(path, data)])
                               (assetMapping w) (d_state w))
    | Throw e => (Throw e, w)
    end.

Definition assetMapping_set {T : DTypes} (k v : string) : DM unit :=
  fun w => (Ok tt, mkDWorld (d_console w) (d_writes w)
                            (JsMap.set (assetMapping w) k v) (d_state w)).

(** A method of the stateful collaborators. *)
Definition call {T : DTypes} {A : Type} (f : DState -> Outcome A * DState) : DM A :=
  fun w =>
    let '(r, s) := f (d_state w) in
    (r, mkDWorld (d_console w) (d_writes w) (assetMapping w) s).

(* ===================================================================== *)
(** ** The decompiler ([src/bin/decompiler.js]) *)
(* ===================================================================== *)

(** [x || d] on an optional number: [undefined] and [0] give [d]. *)
Definition num_or (o : option Z) (d : Z) : Z :=
  match o with
  | Some n => if (n =? 0)%Z then d else n
  | None => d
  end.

(** [s || d] on an optional string: [undefined] and [''] give [d]. *)
Definition str_or (o : option string) (d : string) : string :=
  match o with
  | Some s => if String.eqb s "" then d else s
  | None => d
  end.

(** The declarations rebuilt from a [variables] or [lists] object: one
    variable of the given type per entry, in the order of the object. *)
Definition declarationsOf (type : string) (isGlobal : bool)
    (obj : option (JsMap.t (string * JsValue))) : list (FuseVariable * JsValue) :=
  map (fun nv => (mkVariable type (fst nv) isGlobal None, snd nv))
      (JsMap.values (opt_or obj JsMap.empty)).

(** [target.costumes.length] and [target.sounds.length], read without a
    guard at the head of each extraction loop: the array, or the
    [TypeError] of the engine when the target has no such field.  (A field
    that holds something else than an array is not modelled.) *)
Definition arrayOf {T : DTypes} {E : DExternals} {A : Type}
    (o : option (list A)) : DM (list A) :=
  match o with
  | Some l => ret l
  | None => throw lengthOfUndefined
  end.

Section Decompiler.
Context {T : DTypes} {E : DExternals}.

(** The archive being read and the output directories. *)
Variable zip : JsMap.t ZipObject.
Variables outputDir assetsDir scriptsDir : string.

(** [zip.file(name)]: the entry, unless it is missing or a folder. *)
Definition zip_get (name : string) : option ZipObject :=
  match JsMap.get zip name with
  | Some o => if zo_dir o then None else Some o
  | None => None
  end.

(** [extractAsset(md5ext, newName)]. *)
Definition extractAsset (md5ext newName : string) : DM (option string) :=
  match zip_get md5ext with
  | Some file =>
      let assetPath := d_path_join assetsDir md5ext in
      fs_write assetPath (zo_data file) ;;;
      assetMapping_set md5ext md5ext ;;;
      ret (Some md5ext)
  | None => ret None
  end.

(** [if (fileName)]. *)
Definition truthy (fileName : option string) : bool :=
  match fileName with
  | Some s => negb (String.eqb s "")
  | None => false
  end.

(** One turn of a costume (or backdrop) extraction loop. *)
Definition extractCostume (newNamePrefix : string) (acc : list AssetConfig)
    (costume : Sb3Asset) : DM (list AssetConfig) :=
  fileName <-
    extractAsset (sa_md5ext costume)
                 (String.append newNamePrefix (sa_name costume)) ;;
  if truthy fileName
  then ret (acc ++ [mkAssetConfig (sa_name costume)
                      (String.append "assets/" (opt_or fileName ""))
                      (Some (num_or (sa_rotationCenterX costume) 0%Z))
                      (Some (num_or (sa_rotationCenterY costume) 0%Z))])
  else ret acc.

(** One turn of a sound extraction loop. *)
Definition extractSound (newNamePrefix : string) (acc : list AssetConfig)
    (sound : Sb3Asset) : DM (list AssetConfig) :=
  fileName <-
    extractAsset (sa_md5ext sound)
                 (String.append newNamePrefix (sa_name sound)) ;;
  if truthy fileName
  then ret (acc ++ [mkAssetConfig (sa_name sound)
                      (String.append "assets/" (opt_or fileName ""))
                      None None])
  else ret acc.

Definition extractCostumes (prefix : string) (costumes : list Sb3Asset)
  : DM (list AssetConfig) :=
  foldM (extractCostume prefix) costumes [].

Definition extractSounds (prefix : string) (sounds : list Sb3Asset)
  : DM (list AssetConfig) :=
  foldM (extractSound prefix) sounds [].

(** The variable declarations come first and are not guarded. *)
Definition decompileVariables (decls : list (FuseVariable * JsValue))
    (astNodes : list Node) : DM (list Node) :=
  foldM (fun astNodes vd =>
           varDecl <- call (decompileVariable (fst vd) (snd vd)) ;;
           ret (astNodes ++ [Decompiled varDecl]))
        decls astNodes.

(** [for (const func of functions) { try { ... } catch { warn } }]. *)
Definition decompileFunctions (functions : list DFunction)
    (astNodes : list Node) : DM (list Node) :=
  foldM (fun astNodes func =>
           try_catch
             (funcDecl <- call (decompileFunction func) ;;
              ret (astNodes ++ [Decompiled funcDecl]))
             (fun error =>
                d_log (WarnFunction (proccode func) error) ;;;
                ret astNodes))
        functions astNodes.

(** [for (const script of scripts) { try { ... } catch { warn } }]. *)
Definition decompileScripts (scripts : list DScript)
    (astNodes : list Node) : DM (list Node) :=
  foldM (fun astNodes script =>
           try_catch
             (scriptAst <- call (decompileScript script) ;;
              ret (astNodes ++ map Decompiled scriptAst))
             (fun error => d_log (WarnScript error) ;;; ret astNodes))
        scripts astNodes.

(** The module declarations for [decompiler.generatedModule.children]. *)
Definition moduleNodesOf (children : JsMap.t (JsMap.t ExternValue)) : list Node :=
  map (fun mb =>
         ModuleDeclaration (fst mb)
           (map (fun kv => mkExternDecl (fst kv) (snd kv))
                (JsMap.entries (snd mb))))
      (JsMap.entries children).

Definition generatedModuleNodes : DM (list Node) :=
  fun w => (Ok (moduleNodesOf (generatedModules (d_state w))), w).

(** The nodes of the stage, before printing: the global declarations, the
    functions and the scripts, and the generated module declarations. *)
Definition stageNodes (stageTarget : Sb3Target) (modules : DModules)
    (globalVariableDeclarations : list (FuseVariable * JsValue))
  : DM (list Node * list Node) :=
  let workspace := opt_or (st_blocks stageTarget) JsMap.empty in
  scripts <- lift (deserializeAllScripts (Some workspace)) ;;
  functions <- lift (deserializeAllFunctions (Some workspace)) ;;
  d_log (InfoFound (List.length scripts) (List.length functions)) ;;;
  call (createDecompiler modules (map fst globalVariableDeclarations)
                         functions) ;;;
  astNodes <- decompileVariables globalVariableDeclarations [] ;;
  astNodes <- decompileFunctions functions astNodes ;;
  astNodes <- decompileScripts scripts astNodes ;;
  moduleNodes <- generatedModuleNodes ;;
  ret (moduleNodes, astNodes).

(** [decompileStage(stageTarget, modules, globalVariableDeclarations,
    variableManager)]; [None] is [null]. *)
Definition decompileStage (stageTarget : Sb3Target) (modules : DModules)
    (globalVariableDeclarations : list (FuseVariable * JsValue))
  : DM (option string) :=
  try_catch
    (nodes <- stageNodes stageTarget modules globalVariableDeclarations ;;
     sourceCode <- lift (toSource (fst nodes ++ snd nodes)) ;;
     ret (Some sourceCode))
    (fun error =>
       d_log (ErrorStage error) ;;; d_log (ErrorLine error) ;;; ret None).

(** The local declarations of a sprite: its scalars, then its lists.  The
    name-conflict test of the earlier driver is commented out here. *)
Definition localDeclarations (target : Sb3Target) : list (FuseVariable * JsValue) :=
  declarationsOf "scalar" false (st_variables target)
  ++ declarationsOf "list" false (st_lists target).

(** The nodes of a sprite, before printing: everything of
    [decompileTarget] up to the emptiness test. *)
Definition targetNodes (target : Sb3Target) (modules : DModules)
  : DM (list Node * list Node) :=
  let variableDeclarations := localDeclarations target in
  let localVars := map fst variableDeclarations in
  let workspace := st_blocks target in
  scripts <- lift (deserializeAllScripts workspace) ;;
  functions <- lift (deserializeAllFunctions workspace) ;;
  d_log (InfoFound (List.length scripts) (List.length functions)) ;;;
  call (createDecompiler modules localVars functions) ;;;
  astNodes <- decompileVariables variableDeclarations [] ;;
  astNodes <- decompileFunctions functions astNodes ;;
  astNodes <- decompileScripts scripts astNodes ;;
  moduleNodes <- generatedModuleNodes ;;
  ret (moduleNodes, astNodes).

(** [decompileTarget(target, modules, variableManager)]. *)
Definition decompileTarget (target : Sb3Target) (modules : DModules)
  : DM (option string) :=
  try_catch
    (nodes <- targetNodes target modules ;;
     match fst nodes, snd nodes with
     | [], [] => ret None
     | moduleNodes, astNodes =>
         sourceCode <- lift (toSource (moduleNodes ++ astNodes)) ;;
         ret (Some sourceCode)
     end)
    (fun error =>
       d_log (ErrorTarget error) ;;; d_log (ErrorLine error) ;;; ret None).

(** The class [a-zA-Z0-9_] of the regular expression below. *)
Definition isWordChar (c : ascii) : bool :=
  let n := nat_of_ascii c in
  (((48 <=? n) && (n <=? 57)) || ((65 <=? n) && (n <=? 90))
   || ((97 <=? n) && (n <=? 122)) || (n =? 95))%nat.

(** [name.replace(/[^a-zA-Z0-9_]/g, '_')].  The regular expression has no
    [u] flag, so the source replaces UTF-16 code units one by one.  A name
    is held here as the bytes of its UTF-8 text, so the bytes are grouped
    into code units first: a byte below 128 is one unit, an ASCII
    character; a lead byte of a two- or three-byte sequence (192 to 239)
    announces one unit outside ASCII; a lead byte of a four-byte sequence
    (240 and above) announces a character outside the basic plane, which is
    two units, a surrogate pair; a continuation byte (128 to 191) belongs
    to the unit or units announced by its lead byte.  [safeUnits] is what
    the replacement leaves of the code units that start at a byte. *)
Definition safeUnits (c : ascii) : string :=
  let n := nat_of_ascii c in
  if (n <? 128)%nat then String (if isWordChar c then c else "_"%char) EmptyString
  else if (n <? 192)%nat then EmptyString
  else if (n <? 240)%nat then "_"
  else "__".

Fixpoint safeNameOf (name : string) : string :=
  match name with
  | EmptyString => EmptyString
  | String c r => String.append (safeUnits c) (safeNameOf r)
  end.

(** [Object.keys(target.blocks).length > 0], for a defined [blocks]. *)
Definition hasBlocks (target : Sb3Target) : bool :=
  match st_blocks target with
  | Some (_ :: _) => true
  | _ => false
  end.

(** One turn of the loop over the sprite targets (step 5.4). *)
Definition processSprite (modules : DModules) (acc : list TargetOut)
    (target : Sb3Target) : DM (list TargetOut) :=
  d_log (Info "Processing sprite") ;;;
  costumeList <- arrayOf (st_costumes target) ;;
  costumes <-
    extractCostumes
      (String.append "costume_" (String.append (st_name target) "_"))
      costumeList ;;
  soundList <- arrayOf (st_sounds target) ;;
  sounds <-
    extractSounds
      (String.append "sound_" (String.append (st_name target) "_"))
      soundList ;;
  entry <-
    (if hasBlocks target then
       spriteSource <- decompileTarget target modules ;;
       if truthy spriteSource then
         let safeName := safeNameOf (st_name target) in
         let scriptPath :=
           d_path_join scriptsDir (String.append safeName ".fuse") in
         fs_write scriptPath (opt_or spriteSource "") ;;;
         d_log (Info "Decompiled script") ;;;
         ret (Some (String.append "scripts/" (String.append safeName ".fuse")))
       else ret None
     else ret None) ;;
  ret (acc ++ [mkTargetOut (st_name target)
                 (num_or (st_currentCostume target) 0%Z)
                 (str_or (st_rotationStyle target) "all around")
                 (num_or (st_layerOrder target) 0%Z)
                 (match st_visible target with Some false => false | _ => true end)
                 (num_or (st_x target) 0%Z)
                 (num_or (st_y target) 0%Z)
                 (num_or (st_size target) 100%Z)
                 (num_or (st_direction target) 90%Z)
                 (opt_or (st_draggable target) false)
                 (num_or (st_volume target) 100%Z)
                 costumes sounds entry]).


End Decompiler.

(* ===================================================================== *)
(** ** The earlier drivers ([src/unnamed/part_000], [src/unnamed/part_001]) *)
(* ===================================================================== *)

(** The repository also holds an earlier variant of each driver, written
    against the namespace API of the packages.  The manifest phase of the
    earlier compiler is the one above; [compileScript] and
    [decompileTarget] differ and are embedded here. *)
Module Legacy.

Section CompileScript.
Context {T : Types} {E : Externals}.

(** [getProgramInfo(program)]: the variables declared by the program, keyed
    by identifier, and its namespaces. *)
Variable getProgramInfo : Program -> Outcome (VarTable * ModuleDefs).

(** [mergeNamespaces(base, upper)]. *)
Variable mergeNamespaces : ModuleDefs -> ModuleDefs -> ModuleDefs.

(** Everything from [new Scope(combinedVariables)] to [mergeWorkspaces]. *)
Variable compileWith :
  JsMap.t FuseVariable -> ModuleDefs -> Program -> Outcome Workspace.

(** The two loops over [programInfo.variables]: for the stage every variable
    is first marked global; then each entry is stored under its key. *)
Definition collect (found : list (string * (FuseVariable * JsValue)))
    (stageVariables : option VarTable) (variables : VarTable)
  : option VarTable * VarTable :=
  match stageVariables with
  | None =>
      (None,
       fold_left
         (fun vars e => JsMap.set vars (fst e) (markGlobal (fst (snd e)), snd (snd e)))
         found variables)
  | Some sv =>
      let st :=
        fold_left
          (fun st e =>
             if v_isGlobal (fst (snd e))
             then (JsMap.set (fst st) (fst e) (snd e), snd st)
             else (fst st, JsMap.set (snd st) (fst e) (snd e)))
          found (sv, variables) in
      (Some (fst st), snd st)
  end.

(** [compileScript] of the earlier compiler.  The combined scope is built
    after the tables are updated, and from [stageVariables.entries()]
    without a test for [null]: the call made for the stage throws there when
    the stage has an entry script. *)
Definition compileScript (entry : option string) (baseNamespaceDefinition : ModuleDefs)
    (stageVariables : option VarTable) (variables : VarTable)
  : M (Workspace * (option VarTable * VarTable)) :=
  match entry with
  | None => ret (emptyWorkspace, (stageVariables, variables))
  | Some entry =>
    if String.eqb entry "" then ret (emptyWorkspace, (stageVariables, variables))
    else
      let fullPath := fullPathOf entry in
      sourceCode <- fs_read fullPath ;;
      program <- lift (parse sourceCode) ;;
      programInfo <- lift (getProgramInfo program) ;;
      let localNamespaceDefinition :=
        mergeNamespaces baseNamespaceDefinition (snd programInfo) in
      let tables :=
        collect (JsMap.entries (fst programInfo)) stageVariables variables in
      match fst tables with
      | None => throw "TypeError: Cannot read properties of null (reading 'entries')"
      | Some sv =>
          let combinedVariables :=
            JsMap.of_entries
              (map (fun v => (fst v, fst (snd v))) (JsMap.entries sv)
               ++ map (fun v => (fst v, fst (snd v))) (JsMap.entries (snd tables))) in
          workspace <-
            lift (compileWith combinedVariables localNamespaceDefinition program) ;;
          ret (workspace, tables)
      end
  end.

End CompileScript.

Section DecompileTarget.
Context {T : DTypes} {E : DExternals}.

(** The earlier signatures of the collaborators: they take the scope built
    from the variables in sight. *)
Variable deserializeAllScripts' :
  option (JsMap.t Block) -> JsMap.t FuseVariable -> Outcome (list DScript).
Variable deserializeAllFunctions' :
  option (JsMap.t Block) -> JsMap.t FuseVariable -> Outcome (list DFunction).
Variable createDecompiler' :
  JsMap.t FuseVariable -> DModules -> list DFunction -> DState ->
  Outcome unit * DState.

(** Step 5.1 of the earlier main function: the global variables of the
    stage, by name. *)
Definition globalVariablesOf (stageTarget : Sb3Target) : JsMap.t FuseVariable :=
  fold_left
    (fun m nv => JsMap.set m (fst nv) (mkVariable "list" (fst nv) true None))
    (JsMap.values (opt_or (st_lists stageTarget) JsMap.empty))
    (fold_left
       (fun m nv => JsMap.set m (fst nv) (mkVariable "variable" (fst nv) true None))
       (JsMap.values (opt_or (st_variables stageTarget) JsMap.empty))
       JsMap.empty).

(** One turn of the loop over [target.variables]: a name already in
    [localVars] is reported and skipped. *)
Definition addScalar
    (st : JsMap.t FuseVariable * list (FuseVariable * JsValue))
    (nv : string * JsValue)
  : DM (JsMap.t FuseVariable * list (FuseVariable * JsValue)) :=
  let '(name, value) := nv in
  if JsMap.has (fst st) name
  then d_log (WarnConflict name) ;;; ret st
  else
    let variable := mkVariable "variable" name false None in
    ret (JsMap.set (fst st) name variable, snd st ++ [(variable, value)]).

(** One turn of the loop over [target.lists]: no test. *)
Definition addList
    (st : JsMap.t FuseVariable * list (FuseVariable * JsValue))
    (nv : string * JsValue)
  : DM (JsMap.t FuseVariable * list (FuseVariable * JsValue)) :=
  let '(name, value) := nv in
  let variable := mkVariable "list" name false None in
  ret (JsMap.set (fst st) name variable, snd st ++ [(variable, value)]).

(** Step 1 of the earlier [decompileTarget]: [localVars] starts as a copy
    of [globalVariables]. *)
Definition collectLocals (target : Sb3Target) (globalVariables : JsMap.t FuseVariable)
  : DM (JsMap.t FuseVariable * list (FuseVariable * JsValue)) :=
  st <- foldM addScalar (JsMap.values (opt_or (st_variables target) JsMap.empty))
              (JsMap.of_entries (JsMap.entries globalVariables), []) ;;
  foldM addList (JsMap.values (opt_or (st_lists target) JsMap.empty)) st.

Definition targetNodes (target : Sb3Target) (namespaces : DModules)
    (globalVariables : JsMap.t FuseVariable) : DM (list Node * list Node) :=
  st <- collectLocals target globalVariables ;;
  let localVars := fst st in
  let variableDeclarations := snd st in
  let workspace := st_blocks target in
  scripts <- lift (deserializeAllScripts' workspace localVars) ;;
  functions <- lift (deserializeAllFunctions' workspace localVars) ;;
  d_log (InfoFound (List.length scripts) (List.length functions)) ;;;
  call (createDecompiler' localVars namespaces functions) ;;;
  astNodes <- decompileVariables variableDeclarations [] ;;
  astNodes <- decompileFunctions functions astNodes ;;
  astNodes <- decompileScripts scripts astNodes ;;
  namespaceNodes <- generatedModuleNodes ;;
  ret (namespaceNodes, astNodes).

(** [decompileTarget(target, namespaces, globalVariables, usedNames)] of the
    earlier decompiler. *)
Definition decompileTarget (target : Sb3Target) (namespaces : DModules)
    (globalVariables : JsMap.t FuseVariable) : DM (option string) :=
  try_catch
    (nodes <- targetNodes target namespaces globalVariables ;;
     match fst nodes, snd nodes with
     | [], [] => ret None
     | namespaceNodes, astNodes =>
         sourceCode <- lift (toSource (namespaceNodes ++ astNodes)) ;;
         ret (Some sourceCode)
     end)
    (fun error =>
       d_log (ErrorTarget error) ;;; d_log (ErrorLine error) ;;; ret None).

End DecompileTarget.

End Legacy.

(* ===================================================================== *)
(** ** More of the compiler: imports, type files, module merging *)
(* ===================================================================== *)

(** A loop over a list whose body can throw, without a world. *)
Fixpoint foldO {A S : Type} (f : S -> A -> Outcome S) (l : list A) (s : S)
  : Outcome S :=
  match l with
  | [] => Ok s
  | a :: r =>
      match f s a with
      | Ok s' => foldO f r s'
      | Throw e => Throw e
      end
  end.

Section ImportResolver.
Context {T : Types} {E : Externals}.

(** [fs.existsSync], [path.resolve(a, b)], [path.dirname], and [root]: the
    resolved [root] field of the project file, or [/]. *)
Variable existsSync : string -> bool.
Variable path_resolve : string -> string -> string.
Variable path_dirname : string -> string.
Variable root : string.

(** [/^\.{1,2}\//.test(p)]. *)
Definition isRelativeImport (p : string) : bool :=
  String.prefix "./" p || String.prefix "../" p.

(** [/^\//.test(p)]. *)
Definition isAbsoluteImport (p : string) : bool := String.prefix "/" p.

(** [fs.readFileSync(p, 'utf-8')], then lexer and parser. *)
Definition readAndParse (p : string) : M Program :=
  source <- fs_read p ;;
  lift (parse source).

(** The message of the error thrown when nothing is found. *)
Definition cannotResolve (importPath currentFile : string) : Error :=
  String.append "Cannot resolve import: "
    (String.append importPath (String.append " from " currentFile)).

(** [importResolver(importPath, currentFile)]. *)
Definition importResolver (importPath currentFile : string) : M Program :=
  if isRelativeImport importPath then
    let resolvedPath := path_resolve (path_dirname currentFile) importPath in
    if existsSync resolvedPath then readAndParse resolvedPath
    else throw (cannotResolve importPath currentFile)
  else if isAbsoluteImport importPath then
    let rootPath := path_join root importPath in
    if existsSync rootPath then readAndParse rootPath
    else if existsSync importPath then readAndParse importPath
    else throw (cannotResolve importPath currentFile)
  else throw (cannotResolve importPath currentFile).

End ImportResolver.

Section ProcessTypes.
Context {T : Types} {E : Externals}.

(** The module records of @scratch-fuse/compiler, kept abstract. *)
Variable Mod : Type.

(** [await context.compile(ast)] on a root module whose [children] is the
    Map [modules]: the driver drops the result, so all that can reach the
    rest of the run is what the call did to that Map. *)
Variable compileTypes : JsMap.t Mod -> Program -> Outcome (JsMap.t Mod).

(** [mergeModule(existing, module, 0, 0)]: [existing] after the call. *)
Variable mergeModule : Mod -> Mod -> Outcome Mod.


(** One turn of the loop of [processTypes]. *)
Definition processTypeFile (modules : JsMap.t Mod) (typePath : string)
  : M (JsMap.t Mod) :=
  let fullPath := fullPathOf typePath in
  try_catch
    (typeFuse <- fs_read fullPath ;;
     ast <- lift (parse typeFuse) ;;
     lift (compileTypes modules ast))
    (fun error =>
       console_error (String.append "Error compiling type file: " fullPath) ;;;
       throw error).

(** [processTypes(paths)]; [builtins] is [Builtins.Sb3Modules]. *)
Definition processTypes (builtins : JsMap.t Mod) (paths : list string)
  : M (JsMap.t Mod) :=
  foldM processTypeFile paths (JsMap.of_entries (JsMap.entries builtins)).

(** One turn of the loop of [mergeModules].  [mergeModule] works in place on
    the module found in [merged], which is the module of [base] itself. *)
Definition mergeModulesStep (merged : JsMap.t Mod) (e : string * Mod)
  : Outcome (JsMap.t Mod) :=
  if JsMap.has merged (fst e) then
    match JsMap.get merged (fst e) with
    | Some existing =>
        match mergeModule existing (snd e) with
        | Ok existing' => Ok (JsMap.set merged (fst e) existing')
        | Throw err => Throw err
        end
    | None => Ok merged
    end
  else Ok (JsMap.set merged (fst e) (snd e)).

(** [mergeModules(base, upper)]. *)
Definition mergeModules (base upper : JsMap.t Mod) : Outcome (JsMap.t Mod) :=
  foldO mergeModulesStep (JsMap.entries upper)
        (JsMap.of_entries (JsMap.entries base)).

End ProcessTypes.

(** [processTypes] of the earlier compiler ([src/unnamed/part_000]).  Its
    Map is declared with [const] and assigned in the loop: the assignment
    throws once its right-hand side has been evaluated. *)
Module LegacyTypes.

Section ProcessTypes.
Context {T : Types} {E : Externals}.
Variable getProgramInfo : Program -> Outcome (VarTable * ModuleDefs).
Variable mergeNamespaces : ModuleDefs -> ModuleDefs -> ModuleDefs.
(** [new Map(m)]. *)
Variable newMap : ModuleDefs -> ModuleDefs.

Definition processTypes (builtins : ModuleDefs) (paths : list string)
  : M ModuleDefs :=
  foldM
    (fun namespaces typePath =>
       let fullPath := fullPathOf typePath in
       typeFuse <- fs_read fullPath ;;
       ast <- lift (parse typeFuse) ;;
       programInfo <- lift (getProgramInfo ast) ;;
       let merged := mergeNamespaces namespaces (snd programInfo) in
       throw "TypeError: Assignment to constant variable.")
    paths (newMap builtins).

End ProcessTypes.

End LegacyTypes.

(** The entry scripts of a project, in the order in which they are
    compiled: the stage's, then the sprites'. *)
Definition scriptOf (entry : option string) : list string :=
  match entry with
  | Some e => if String.eqb e "" then [] else [e]
  | None => []
  end.

Definition entryScripts (stage : StageConfig) (targets : list TargetConfig)
  : list string :=
  scriptOf (s_entry stage) ++ flat_map (fun t => scriptOf (t_entry t)) targets.

(** A table of global variables: every entry sits under the name of its
    variable, which is marked global.  A table of local variables likewise,
    with variables that are not marked global. *)
Definition tableOf (isGlobal : bool) (table : VarTable) : Prop :=
  forall k v d, JsMap.get table k = Some (v, d) ->
                v_name v = k /\ v_isGlobal v = isGlobal.

(** The progress line printed before a sprite is compiled. *)
Definition spriteLine (t : TargetConfig) : LogLine :=
  Log (String.append "Compiling sprite: " (t_name t)).

(** The line printed by the [catch] block of [compileScript]. *)
Definition scriptErrorLine {T : Types} {E : Externals} (entry : string) : LogLine :=
  LogError (String.append "Error compiling script file: " (fullPathOf entry)).

(** ** Notions about the assets of a project *)

(** What [processAsset] returns for a file [path] that holds [data]. *)
Definition assetInfoOf (path data : string) : AssetInfo :=
  let ext := Path.slice1 (Path.extname path) in
  mkAssetInfo (md5Bytes data)
              (String.append (md5Bytes data) (String.append "." ext)) ext.

(** The file that is read for a declared asset, if it declares a path. *)
Definition attempted {T : Types} {E : Externals} (d : AssetDecl) : list string :=
  match a_path d with
  | Some p => [fullPathOf p]
  | None => []
  end.

(** The two ways in which storing a declared asset fails with [e]. *)
Definition assetFails {T : Types} {E : Externals} (d : AssetDecl) (e : Error) : Prop :=
  (a_path d = None /\ e = pathTypeError)
  \/ (exists p, a_path d = Some p /\ readFileSync (fullPathOf p) = Throw e).

(** The assets declared by a target, costumes first, and by a project, in
    the order of the manifest phase: the stage, then the sprites. *)
Definition targetAssets (t : TargetConfig) : list AssetDecl :=
  opt_or (t_costumes t) [] ++ opt_or (t_sounds t) [].

Definition declaredAssets {T : Types} (stage : StageConfig)
    (cs : list CompiledTarget) : list AssetDecl :=
  (opt_or (s_backdrops stage) [] ++ opt_or (s_sounds stage) [])
  ++ flat_map (fun c => targetAssets (c_target c)) cs.

Definition failureOf {A : Type} (r : Outcome A) : option Error :=
  match r with
  | Ok _ => None
  | Throw e => Some e
  end.

(** A step of the manifest phase that stores the assets [decls]: it reads
    them in order, up to and including the first that fails if there is
    one; it prints nothing, calls no compiler and removes nothing from the
    archive. *)
Definition assetPhase {T : Types} {E : Externals} (decls : list AssetDecl)
    (w w' : World) (failure : option Error) : Prop :=
  console w' = console w /\ compilerCalls w' = compilerCalls w
  /\ (forall k, JsMap.has (zipFiles w) k = true -> JsMap.has (zipFiles w') k = true)
  /\ match failure with
     | None => fsReads w' = fsReads w ++ flat_map attempted decls
     | Some e =>
         exists pre d post,
           decls = pre ++ d :: post
           /\ assetFails d e
           /\ fsReads w' = fsReads w ++ flat_map attempted (pre ++ [d])
     end.

(** The costume and the sound made from a declaration and the result of
    [processAsset]. *)
Definition costumeFrom (d : AssetDecl) (a : AssetInfo) : CostumeEntry :=
  mkCostume (assetId a) (a_name d) (md5ext a) (dataFormat a)
            (opt_or (a_x d) 0%Z) (opt_or (a_y d) 0%Z).

Definition soundFrom (d : AssetDecl) (a : AssetInfo) : SoundEntry :=
  mkSound (assetId a) (a_name d) (md5ext a) (dataFormat a) (dataFormat a)
          48000%Z 1%Z.

(** The entry [b] was made by [make] from the declaration [d], whose file
    was read, and its asset is in [archive]. *)
Definition madeFrom {T : Types} {E : Externals} {B : Type}
    (make : AssetDecl -> AssetInfo -> B) (archive : JsMap.t string)
    (d : AssetDecl) (b : B) : Prop :=
  exists path data,
    a_path d = Some path
    /\ readFileSync (fullPathOf path) = Ok data
    /\ b = make d (assetInfoOf path data)
    /\ JsMap.has archive (md5ext (assetInfoOf path data)) = true.

(** Every asset that the target [mt] of the manifest names is in
    [archive], under a key made of the asset id and the data format; and the
    target has a costume. *)
Definition assetsStored {T : Types} (archive : JsMap.t string)
    (mt : ManifestTarget) : Prop :=
  mt_costumes mt <> []
  /\ (forall c, In c (mt_costumes mt) ->
        JsMap.has archive (co_md5ext c) = true
        /\ co_md5ext c
           = String.append (co_assetId c) (String.append "." (co_dataFormat c)))
  /\ (forall s, In s (mt_sounds mt) ->
        JsMap.has archive (so_md5ext s) = true
        /\ so_md5ext s
           = String.append (so_assetId s) (String.append "." (so_dataFormat s))
        /\ so_format s = so_dataFormat s).

(** ** Notions about the decompiler's output *)

(** An asset is listed in the regenerated project file when the archive
    has it and its [md5ext] is not empty. *)
Definition isListed (zip : JsMap.t ZipObject) (a : Sb3Asset) : bool :=
  match zip_get zip (sa_md5ext a) with
  | Some _ => negb (String.eqb (sa_md5ext a) "")
  | None => false
  end.

(** The files that extracting [assets] writes, in order. *)
Definition extractedFiles {T : DTypes} {E : DExternals} (zip : JsMap.t ZipObject)
    (assetsDir : string) (assets : list Sb3Asset) : list (string * string) :=
  flat_map
    (fun a =>
       match zip_get zip (sa_md5ext a) with
       | Some file => [(d_path_join assetsDir (sa_md5ext a), zo_data file)]
       | None => []
       end)
    assets.

(** The blocks pushed for a costume and for a sound that was extracted. *)
Definition costumeConfig (a : Sb3Asset) : AssetConfig :=
  mkAssetConfig (sa_name a) (String.append "assets/" (sa_md5ext a))
                (Some (num_or (sa_rotationCenterX a) 0%Z))
                (Some (num_or (sa_rotationCenterY a) 0%Z)).

Definition soundConfig (a : Sb3Asset) : AssetConfig :=
  mkAssetConfig (sa_name a) (String.append "assets/" (sa_md5ext a)) None None.

(** A step that writes no file and leaves the asset mapping alone. *)
Definition sameFiles {T : DTypes} (w w' : DWorld) : Prop :=
  d_writes w' = d_writes w /\ assetMapping w' = assetMapping w.

(** The world after the two lines of a [catch] block of the decompiler. *)
Definition afterError {T : DTypes} (w : DWorld) (first second : DLog) : DWorld :=
  mkDWorld (d_console w ++ [first; second]) (d_writes w) (assetMapping w)
           (d_state w).

(** The archive [zip] that the decompiler opens holds the files that the
    compiler stored in [archive]. *)
Definition readsBack (archive : JsMap.t string) (zip : JsMap.t ZipObject) : Prop :=
  forall k, JsMap.get zip k = option_map (mkZipObject false) (JsMap.get archive k).

(** The script file of a sprite, relative to the output directory. *)
Definition scriptEntry (name : string) : string :=
  String.append "scripts/" (String.append (safeNameOf name) ".fuse").

(** The block [out] of [project.yaml] is the one that the decompiler writes
    for the sprite [target] of an archive [zip]: each field is the field of
    the target or, where that is missing (or zero, or the empty string),
    the default; the target has a costume and a sound array, and the
    costumes and sounds of the block are those the archive holds. *)
Definition configOf {T : DTypes} (zip : JsMap.t ZipObject) (target : Sb3Target)
    (out : TargetOut) : Prop :=
  to_name out = st_name target
  /\ to_currentCostume out = num_or (st_currentCostume target) 0%Z
  /\ to_rotationStyle out = str_or (st_rotationStyle target) "all around"
  /\ to_layerOrder out = num_or (st_layerOrder target) 0%Z
  /\ to_visible out = match st_visible target with Some false => false | _ => true end
  /\ to_x out = num_or (st_x target) 0%Z
  /\ to_y out = num_or (st_y target) 0%Z
  /\ to_size out = num_or (st_size target) 100%Z
  /\ to_direction out = num_or (st_direction target) 90%Z
  /\ to_draggable out = opt_or (st_draggable target) false
  /\ to_volume out = num_or (st_volume target) 100%Z
  /\ option_map (fun cs => map costumeConfig (filter (isListed zip) cs))
                (st_costumes target)
     = Some (to_costumes out)
  /\ option_map (fun ss => map soundConfig (filter (isListed zip) ss))
                (st_sounds target)
     = Some (to_sounds out)
  /\ (to_entry out = None \/ to_entry out = Some (scriptEntry (st_name target)))
  /\ (hasBlocks target = false -> to_entry out = None).


(** The number of UTF-16 code units of a name held as UTF-8 text: what
    [name.length] is in the source. *)
Definition unitsAt (c : ascii) : nat :=
  let n := nat_of_ascii c in
  if (n <? 128)%nat then 1
  else if (n <? 192)%nat then 0
  else if (n <? 240)%nat then 1
  else 2.

Fixpoint utf16Length (name : string) : nat :=
  match name with
  | EmptyString => 0
  | String c r => unitsAt c + utf16Length r
  end.

(** The target [s] that the decompiler parses carries the presentation
    fields that the compiler wrote in the sprite target [mt]. *)
Definition readsTarget {T : Types} {DT : DTypes} (mt : ManifestTarget)
    (s : Sb3Target) : Prop :=
  st_name s = mt_name mt
  /\ st_currentCostume s = Some (mt_currentCostume mt)
  /\ st_layerOrder s = Some (mt_layerOrder mt)
  /\ st_volume s = Some (mt_volume mt)
  /\ exists sp,
       mt_sprite mt = Some sp
       /\ st_visible s = Some (sp_visible sp)
       /\ st_x s = Some (sp_x sp) /\ st_y s = Some (sp_y sp)
       /\ st_size s = Some (sp_size sp)
       /\ st_direction s = Some (sp_direction sp)
       /\ st_draggable s = Some (sp_draggable sp)
       /\ st_rotationStyle s = Some (sp_rotationStyle sp).

(** [v || d] after [v ?? d]: a declared zero comes back as the default. *)
Definition zeroAsDefault (declared : option Z) (d : Z) : Z :=
  match declared with
  | Some v => if (v =? 0)%Z then d else v
  | None => d
  end.

(* ===================================================================== *)
(** ** Notions used to state the properties *)
(* ===================================================================== *)

(** The number of identifiers drawn for the sprites before the one at
    index [j]: one per entry of their variable tables. *)
Definition idsBefore {T : Types} (cs : list CompiledTarget) (j : nat) : nat :=
  list_sum (map (fun c => JsMap.size (c_variables c)) (firstn j cs)).

(** The tables of the manifest target [mt] hold the table [table], re-keyed
    with the identifiers drawn from the [n]-th on: as many entries as the
    table has, and the entry of its [i]-th variable is found under the
    [n+i]-th identifier, among the lists for a list and among the variables
    otherwise, with the display name and the default value. *)
Definition rekeyedAt {T : Types} {E : Externals} (n : nat) (table : VarTable)
    (mt : ManifestTarget) : Prop :=
  JsMap.size (mt_variables mt) + JsMap.size (mt_lists mt) = JsMap.size table
  /\ forall i v d,
       nth_error (JsMap.values table) i = Some (v, d) ->
       if String.eqb (v_type v) "list"
       then JsMap.get (mt_lists mt) (uid_at (n + i))
            = Some (displayName v, array_or_empty d)
       else JsMap.get (mt_variables mt) (uid_at (n + i))
            = Some (displayName v, nullish_or d (JPrim (PNum 0))).

(** The decompiler's world after a console line and a change of the
    decompiler's state, and after a change of state alone. *)
Definition warned {T : DTypes} (w : DWorld) (l : DLog) (s : DState) : DWorld :=
  mkDWorld (d_console w ++ [l]) (d_writes w) (assetMapping w) s.

Definition stepped {T : DTypes} (w : DWorld) (s : DState) : DWorld :=
  mkDWorld (d_console w) (d_writes w) (assetMapping w) s.

(** [keeps R m]: running [m] relates the world before to the world after,
    whether [m] returns or throws. *)
Definition keeps {W A : Type} (R : W -> W -> Prop) (m : St W A) : Prop :=
  forall w, R w (snd (m w)).

(** The console grows by lines that all satisfy [P]. *)
Definition prints {T : DTypes} (P : DLog -> Prop) (w w' : DWorld) : Prop :=
  exists ls, d_console w' = d_console w ++ ls /\ Forall P ls.

(** A console line other than a name-conflict warning. *)
Definition notConflict (l : DLog) : Prop := forall name, l <> WarnConflict name.

(** A step that draws no identifier and removes no archive entry, as the
    steps that store assets are. *)
Definition assetStep {T : Types} (w w' : World) : Prop :=
  uidCount w' = uidCount w
  /\ forall k, JsMap.has (zipFiles w) k = true -> JsMap.has (zipFiles w') k = true.

(** The costume entry of the placeholder asset. *)
Definition placeholderCostume : CostumeEntry :=
  mkCostume (md5Bytes EMPTY_SVG) (Some "empty")
            (String.append (md5Bytes EMPTY_SVG) ".svg") "svg" 0%Z 0%Z.

(** No file that can be read is stored under the key of the placeholder
    with other bytes than the placeholder's: the one case in which storing a
    declared asset would replace the placeholder image in the archive. *)
Definition placeholderUnique {T : Types} {E : Externals} : Prop :=
  forall p data,
    readFileSync (fullPathOf p) = Ok data ->
    md5ext (assetInfoOf p data) = co_md5ext placeholderCostume ->
    data = EMPTY_SVG.

(** A step that leaves the placeholder image in the archive if it is
    there. *)
Definition keepsPlaceholder {T : Types} (w w' : World) : Prop :=
  JsMap.get (zipFiles w) (co_md5ext placeholderCostume) = Some EMPTY_SVG ->
  JsMap.get (zipFiles w') (co_md5ext placeholderCostume) = Some EMPTY_SVG.

(* ===================================================================== *)
(** ** A small concrete setting, to run the drivers on *)
(* ===================================================================== *)

(** The collaborators are instantiated by table look-ups: a "program" is the
    text of its file, and compiling it returns the variables listed for that
    text.  Functions and scripts are names; the ones starting with [!] make
    the decompiler throw. *)
Module Demo.

#[export] Instance types : Types := {
  Program := string;
  ModuleDefs := unit;
  IRFunction := string;
  IRScript := string;
  Workspace := list string;
  emptyWorkspace := []
}.

Definition files : JsMap.t string :=
  [ ("proj/stage.fuse", "stage");
    ("proj/a.fuse", "sprite a");
    ("proj/b.fuse", "sprite b");
    ("proj/cat.png", "PNGDATA");
    ("proj/copy.png", "PNGDATA");
    ("proj/photo.jpg", "JPEGDATA");
    ("proj/photo.jpeg", "JPEGDATA");
    ("proj/meow.wav", "WAVDATA") ].

Definition scalarVar (name : string) (isGlobal : bool) : FuseVariable :=
  mkVariable "scalar" name isGlobal None.

(** What compiling each text finds. *)
Definition found (program : string) : VarTable :=
  if String.eqb program "stage" then
    [ ("score", (scalarVar "score" false, JPrim (PNum 0)));
      ("names", (mkVariable "list" "names" true None, JArr [])) ]
  else if String.eqb program "sprite a" then
    [ ("hiscore", (scalarVar "hiscore" true, JPrim (PNum 7)));
      ("counter", (scalarVar "counter" false, JUndefined)) ]
  else if String.eqb program "sprite b" then
    [ ("counter", (scalarVar "counter" false, JPrim (PNum 1)));
      ("speed", (mkVariable "scalar" "speed" false (Some "velocity"), JNull)) ]
  else [].

(** The [n]-th identifier: [n] strokes. *)
Fixpoint strokes (n : nat) : string :=
  match n with
  | O => EmptyString
  | S n' => String "I"%char (strokes n')
  end.

#[export] Instance externals : Externals := {
  inputDir := "proj";
  path_join := fun a b => String.append a (String.append "/" b);
  readFileSync := fun p =>
    match JsMap.get files p with
    | Some data => Ok data
    | None => Throw (String.append "ENOENT: " p)
    end;
  parse := fun source => Ok source;
  compile := fun module program => Ok (mkResult (found program) [] [program]);
  structuredClone := fun d => d;
  serializeFunction := fun f => Ok [f];
  serializeScript := fun s => Ok [s];
  mergeWorkspaces := fun l => Ok (List.concat l);
  uid_at := fun n => String.append "id" (strokes n);
  pathTypeError :=
    String.concat dq
      [ "TypeError [ERR_INVALID_ARG_TYPE]: The "; "path";
        " argument must be of type string. Received undefined" ]
}.

Definition world0 : World := mkWorld [] [] [] JsMap.empty 0.

Definition plainTarget (name : string) (entry : option string)
    (costumes : option (list AssetDecl)) : TargetConfig :=
  mkTargetConfig name None None None None None None None None None None None
                 costumes None entry.

Definition plainStage (entry : option string) : StageConfig :=
  mkStageConfig None None None None None entry.

(** The demonstration project: a stage and three sprites; sprite [A]
    declares the global [hiscore], [A] and [B] each a local [counter]. *)
Definition stage : StageConfig := plainStage (Some "stage.fuse").

Definition spriteA : TargetConfig := plainTarget "A" (Some "a.fuse") None.

Definition targets : list TargetConfig :=
  [ spriteA;
    plainTarget "B" (Some "b.fuse") None;
    plainTarget "C" None None ].

(** The demonstration project after its compile phase. *)
Definition project : Project := mkProject None None stage targets.

Definition compiledRun : Outcome (Workspace * (VarTable * list CompiledTarget)) * World :=
  compileAll stage targets tt world0.

Definition compiled : Workspace * (VarTable * list CompiledTarget) :=
  match fst compiledRun with
  | Ok c => c
  | Throw _ => ([], ([], []))
  end.

Definition world1 : World := snd compiledRun.

#[export] Instance dtypes : DTypes := {
  Block := bool * string;       (* is it a function, and its name *)
  DScript := string;
  DFunction := string;
  proccode := fun f => f;
  DModules := unit;
  ExternValue := string;
  DNode := string;
  DState := nat                 (* the number of calls made so far *)
}.

Definition fails (name : string) : bool :=
  match name with
  | String c _ => Ascii.eqb c "!"%char
  | EmptyString => false
  end.

Definition blocksOf (o : option (JsMap.t (bool * string))) : list (bool * string) :=
  JsMap.values (opt_or o JsMap.empty).

#[export] Instance dexternals : DExternals := {
  d_path_join := fun a b => String.append a (String.append "/" b);
  writeFileSync := fun _ _ => Ok tt;
  deserializeAllScripts := fun o =>
    Ok (map snd (filter (fun b => negb (fst b)) (blocksOf o)));
  deserializeAllFunctions := fun o =>
    Ok (map snd (filter (fun b => fst b) (blocksOf o)));
  createDecompiler := fun _ _ _ s => (Ok tt, S s);
  decompileVariable := fun v _ s => (Ok (String.append "let " (v_name v)), S s);
  decompileFunction := fun f s =>
    if fails f then (Throw "bad function", S s)
    else (Ok (String.append "fn " f), S s);
  decompileScript := fun sc s =>
    if fails sc then (Throw "bad script", S s)
    else (Ok [String.append "on " sc], S s);
  generatedModules := fun _ => JsMap.empty;
  toSource := fun nodes =>
    Ok (String.concat ";"
          (map (fun n => match n with
                         | ModuleDeclaration name _ => String.append "module " name
                         | Decompiled d => d
                         end) nodes));
  yaml_stringify := fun _ => "yaml";
  lengthOfUndefined :=
    "TypeError: Cannot read properties of undefined (reading 'length')"
}.

Definition dworld0 : DWorld := mkDWorld [] [] JsMap.empty 0.

Definition sb3Target (isStage : bool) (name : string)
    (variables lists : JsMap.t (string * JsValue))
    (blocks : JsMap.t (bool * string)) (costumes : list Sb3Asset) : Sb3Target :=
  mkSb3Target isStage name (Some variables) (Some lists) (Some blocks)
              (Some costumes) (Some []) None None None None None None None None
              None None None.

(** An archive to decompile: the stage holds the global [score]; the sprite
    has a scalar and a list that are also called [score], a scalar
    [counter], three functions and two scripts, of which one function and
    one script cannot be decompiled. *)
Definition sb3Stage : Sb3Target :=
  sb3Target true "Stage" [("i1", ("score", JPrim (PNum 0)))] [] []
            [mkSb3Asset "x.svg" "bd" None None].

Definition sb3Sprite : Sb3Target :=
  sb3Target false "A"
            [("i2", ("score", JPrim (PNum 5))); ("i3", ("counter", JPrim (PNum 0)))]
            [("i4", ("score", JArr []))]
            [("b1", (true, "f1")); ("b2", (true, "!f2")); ("b3", (false, "s1"));
             ("b4", (false, "!s2")); ("b5", (true, "f3"))]
            [mkSb3Asset "x.svg" "c1" None None; mkSb3Asset "y.svg" "c2" None None].


(** A file system for the import resolver: the files above exist; the
    directory of a file is what precedes its last slash, and a leading [./]
    of the import is dropped when it is resolved. *)
Definition existsSync (p : string) : bool := JsMap.has files p.

Fixpoint hasSlash (p : string) : bool :=
  match p with
  | EmptyString => false
  | String c r => Ascii.eqb c "/"%char || hasSlash r
  end.

Fixpoint path_dirname (p : string) : string :=
  match p with
  | EmptyString => EmptyString
  | String c r => if hasSlash r then String c (path_dirname r) else EmptyString
  end.

Definition path_resolve (dir p : string) : string :=
  String.append dir
    (String.append "/"
       (if String.prefix "./" p then String.substring 2 (String.length p - 2) p
        else p)).

(** Module records are names here; a type file defines the module named by
    its text, and merging two modules joins their names. *)
Definition compileTypes (modules : JsMap.t string) (program : Program)
  : Outcome (JsMap.t string) :=
  if String.eqb program "" then Throw "empty type file"
  else Ok (JsMap.set modules program program).

Definition mergeModule (existing module : string) : Outcome string :=
  Ok (String.append existing (String.append "+" module)).

(** The collaborators of the earlier compiler. *)
Definition getProgramInfo (program : Program) : Outcome (VarTable * ModuleDefs) :=
  Ok (found program, tt).

Definition mergeNamespaces (base upper : ModuleDefs) : ModuleDefs := tt.

Definition compileWith (scope : JsMap.t FuseVariable) (namespaces : ModuleDefs)
    (program : Program) : Outcome Workspace := Ok [program].


(** A project with assets: a backdrop; a sprite with two costumes and a
    sound, placed on layer 5; and a sprite without costumes. *)
Definition decl (path name : string) : AssetDecl :=
  mkAssetDecl (Some path) (Some name) None None.

Definition artStage : StageConfig :=
  mkStageConfig None None None (Some [decl "cat.png" "room"]) None None.

Definition artSprite : TargetConfig :=
  mkTargetConfig "Cat" None None (Some 5%Z) None None None None None None None
                 None
                 (Some [decl "photo.jpg" "front";
                        mkAssetDecl (Some "copy.png") (Some "side") (Some 4%Z) None])
                 (Some [decl "meow.wav" "meow"]) None.

Definition artProject : Project :=
  mkProject None (Some ["pen"]) artStage [artSprite; plainTarget "Dot" None None].

Definition artCompiled : Workspace * (VarTable * list CompiledTarget) :=
  (["stage script"],
   ([], [mkCompiled artSprite ["cat script"] [];
         mkCompiled (plainTarget "Dot" None None) [] []])).

(** The same with a costume whose file does not exist. *)
Definition lostSprite : TargetConfig :=
  plainTarget "Lost" None (Some [decl "cat.png" "ok"; decl "gone.png" "gone";
                                 decl "copy.png" "never"]).

Definition lostCompiled : Workspace * (VarTable * list CompiledTarget) :=
  ([], ([], [mkCompiled artSprite [] []; mkCompiled lostSprite [] []])).

(** An archive for the decompiler: it has [x.svg] but not [y.svg]. *)
Definition sb3Zip : JsMap.t ZipObject :=
  [ ("x.svg", mkZipObject false "<svg/>");
    ("folder/", mkZipObject true "") ].

(** The archive that holds the stored [cat.png]. *)
Definition pngZip : JsMap.t ZipObject :=
  [ ("0b75926ab9a9f9fe7d6008245c09352e.png", mkZipObject false "PNGDATA") ].

(** Sprites for the decompiler: one without blocks, and two whose names
    differ in one character that is not a word character. *)
Definition sb3Dot : Sb3Target :=
  sb3Target false "Dot" [] [] [] [mkSb3Asset "x.svg" "dot" None None].


(** Two names outside ASCII, as UTF-8 text: [Caf] followed by U+00E9 (an
    e with an acute accent: bytes 195, 169; one UTF-16 code unit), and
    U+1F600 (a face: bytes 240, 159, 152, 128; two code units, a surrogate
    pair). *)
Definition cafe : string :=
  String.append "Caf" (String (ascii_of_nat 195) (String (ascii_of_nat 169) "")).

Definition face : string :=
  String (ascii_of_nat 240)
    (String (ascii_of_nat 159)
       (String (ascii_of_nat 152) (String (ascii_of_nat 128) ""))).

(** A sprite target with a name and nothing else, and one with costumes
    but no [sounds] field. *)
Definition sb3Bare : Sb3Target :=
  mkSb3Target false "Bare" None None None None None None None None None None
              None None None None None None.

Definition sb3Mute : Sb3Target :=
  mkSb3Target false "Mute" None None None
              (Some [mkSb3Asset "x.svg" "m" None None]) None None None None None
              None None None None None None None.

(** A sprite that points up (direction 0), with size and volume 0, at
    x = 10; and the target that the decompiler reads for it. *)
Definition upSprite : TargetConfig :=
  mkTargetConfig "Up" None None None None (Some 10%Z) None (Some 0%Z) (Some 0%Z)
                 None None (Some 0%Z) None None None.

Definition sb3Up : Sb3Target :=
  mkSb3Target false "Up" (Some []) (Some []) (Some []) (Some []) (Some [])
              (Some 0%Z) None
              (Some 0%Z) (Some "all around") (Some 1%Z) (Some true) (Some 10%Z)
              (Some 0%Z) (Some 0%Z) (Some 0%Z) (Some false).

Definition upCompiled : CompiledTarget := mkCompiled upSprite [] [].

(** Collaborators whose deserializer rejects every workspace. *)
Definition brokenExternals : DExternals := {|
  d_path_join := fun a b => String.append a (String.append "/" b);
  writeFileSync := fun _ _ => Ok tt;
  deserializeAllScripts := fun _ => Throw "bad blocks";
  deserializeAllFunctions := fun _ => Ok [];
  createDecompiler := fun _ _ _ s => (Ok tt, S s);
  decompileVariable := fun v _ s => (Ok (v_name v), S s);
  decompileFunction := fun f s => (Ok f, S s);
  decompileScript := fun sc s => (Ok [sc], S s);
  generatedModules := fun _ => JsMap.empty;
  toSource := fun _ => Ok "";
  yaml_stringify := fun _ => "yaml";
  lengthOfUndefined := lengthOfUndefined (DExternals := dexternals)
|}.

(** Sprites around [spriteA], which declares the global [hiscore]: one
    compiled before it and, after it, one with an entry script and one
    without. *)
Definition spritesBefore : list TargetConfig :=
  [ plainTarget "B" (Some "b.fuse") None ].

Definition spritesAfter : list TargetConfig :=
  [ plainTarget "D" (Some "b.fuse") None; plainTarget "C" None None ].

End Demo.

(* ===================================================================== *)
(** * Properties *)
(* ===================================================================== *)

(** ** Facts about [JsMap] *)

Module JsMapFacts.
Import JsMap.

Section Facts.
Context {V : Type}.
Implicit Types (m : t V) (k : string) (v : V).

Lemma get_set_same m k v : get (set m k v) k = Some v.
Proof.
  induction m as [|[k' v'] r IH]; simpl.
  - now rewrite String.eqb_refl.
  - destruct (String.eqb k' k) eqn:Hk; simpl; rewrite Hk; auto.
Qed.

Lemma get_set_other m k k' v : k <> k' -> get (set m k v) k' = get m k'.
Proof.
  intros Hne. induction m as [|[k0 v0] r IH]; simpl.
  - apply String.eqb_neq in Hne. now rewrite Hne.
  - destruct (String.eqb k0 k) eqn:Hk; simpl.
    + apply String.eqb_eq in Hk. subst k0.
      apply String.eqb_neq in Hne. now rewrite Hne.
    + destruct (String.eqb k0 k'); auto.
Qed.

Lemma has_set m k k' v : has (set m k v) k' = String.eqb k k' || has m k'.
Proof.
  unfold has. destruct (String.eqb k k') eqn:Hk; simpl.
  - apply String.eqb_eq in Hk. subst. now rewrite get_set_same.
  - apply String.eqb_neq in Hk. now rewrite get_set_other.
Qed.

Lemma has_set_same m k v : has (set m k v) k = true.
Proof. rewrite has_set, String.eqb_refl. reflexivity. Qed.

Lemma has_set_mono m k k' v : has m k' = true -> has (set m k v) k' = true.
Proof. intros H. rewrite has_set, H. apply orb_true_r. Qed.

Lemma has_In_keys m k : has m k = true <-> In k (keys m).
Proof.
  unfold has. induction m as [|[k' v'] r IH]; simpl.
  - split; [discriminate | tauto].
  - destruct (String.eqb k' k) eqn:Hk.
    + apply String.eqb_eq in Hk. split; auto.
    + apply String.eqb_neq in Hk. rewrite IH. split; auto.
      intros [H|H]; [contradiction | exact H].
Qed.

Lemma keys_set m k v :
  keys (set m k v) = if has m k then keys m else keys m ++ [k].
Proof.
  unfold has. induction m as [|[k' v'] r IH]; simpl; auto.
  destruct (String.eqb k' k) eqn:Hk; simpl; auto.
  rewrite IH. destruct (get r k); reflexivity.
Qed.

Lemma NoDup_keys_set m k v : NoDup (keys m) -> NoDup (keys (set m k v)).
Proof.
  intros Hnd. rewrite keys_set. destruct (has m k) eqn:Hh; auto.
  apply NoDup_app; auto.
  - constructor; [simpl; tauto | constructor].
  - intros x Hx [Hk|[]]. subst x.
    apply has_In_keys in Hx. congruence.
Qed.

Lemma size_set m k v :
  size (set m k v) = if has m k then size m else S (size m).
Proof.
  unfold size. rewrite <- !(length_map fst). fold (keys (set m k v)).
  fold (keys m). rewrite keys_set. destruct (has m k); auto.
  rewrite length_app. simpl. lia.
Qed.

(** The keys after a run of [set]s. *)
Lemma has_fold_set {A : Type} (key : A -> string) (val : A -> V)
    (l : list A) m k :
  has (fold_left (fun m a => set m (key a) (val a)) l m) k
  = has m k || existsb (fun a => String.eqb (key a) k) l.
Proof.
  revert m. induction l as [|a r IH]; intros m; simpl.
  - now rewrite orb_false_r.
  - rewrite IH, has_set. destruct (has m k), (String.eqb (key a) k); reflexivity.
Qed.

Lemma has_of_entries (l : list (string * V)) k :
  has (of_entries l) k = existsb (fun e => String.eqb (fst e) k) l.
Proof. unfold of_entries. now rewrite has_fold_set. Qed.

Lemma has_entries m k :
  has m k = existsb (fun e => String.eqb (fst e) k) (entries m).
Proof.
  unfold has, entries. induction m as [|[k' v'] r IH]; simpl; auto.
  destruct (String.eqb k' k); auto.
Qed.

End Facts.
End JsMapFacts.

(** ** Facts about the monad *)

Lemma mapM_lift_world {W A B : Type} (g : A -> Outcome B) (l : list A) (w : W) :
  snd (mapM (fun a => lift (g a)) l w) = w.
Proof.
  revert w. induction l as [|a r IH]; intros w; simpl; auto.
  unfold bind, lift at 1. destruct (g a); simpl; auto.
  specialize (IH w). destruct (mapM _ r w) as [[bs|e] w'] eqn:Hm; simpl in *; subst; auto.
Qed.

(** [foldM] over a concatenation runs the two loops in sequence. *)
Lemma foldM_app {W A S : Type} (f : S -> A -> St W S) (l1 l2 : list A) (s : S) (w : W) :
  foldM f (l1 ++ l2) s w
  = match foldM f l1 s w with
    | (Ok s1, w1) => foldM f l2 s1 w1
    | (Throw e, w1) => (Throw e, w1)
    end.
Proof.
  revert s w. induction l1 as [|a r IH]; intros s w; simpl; auto.
  unfold bind. destruct (f s a w) as [[s'|e] w']; auto.
Qed.

(** ** [compileScript] *)

Section CompileScriptFacts.
Context {T : Types} {E : Externals}.

(** What a call with an entry script does: it reads the file, hands one
    module to the compiler (unless reading or parsing threw), and on success
    leaves the tables updated by the variables found. *)
Lemma compileScript_entry e base sv v w r w' :
  e <> "" ->
  compileScript (Some e) base sv v w = (r, w') ->
  let m := mkModule "" (combinedVariables sv v) (structuredClone base)
                    (fullPathOf e) in
  fsReads w' = fsReads w ++ [fullPathOf e]
  /\ zipFiles w' = zipFiles w /\ uidCount w' = uidCount w
  /\ (compilerCalls w' = compilerCalls w \/ compilerCalls w' = compilerCalls w ++ [m])
  /\ (forall ws tabs, r = Ok (ws, tabs) ->
      exists src program result,
        readFileSync (fullPathOf e) = Ok src /\ parse src = Ok program
        /\ compile m program = Ok result
        /\ compilerCalls w' = compilerCalls w ++ [m]
        /\ console w' = console w
        /\ tabs = tablesAfter (JsMap.values (r_variables result)) sv v).
Proof.
  intros Hne Hrun m. unfold compileScript in Hrun.
  apply String.eqb_neq in Hne. rewrite Hne in Hrun.
  unfold try_catch, bind, fs_read, lift, call_compile, console_error, throw, ret in Hrun.
  fold m in Hrun.
  destruct (readFileSync (fullPathOf e)) as [src|err] eqn:Hread; simpl in Hrun.
  2:{ inversion Hrun; subst; simpl. repeat split; auto. intros; discriminate. }
  destruct (parse src) as [program|err] eqn:Hparse; simpl in Hrun.
  2:{ inversion Hrun; subst; simpl. repeat split; auto. intros; discriminate. }
  destruct (compile m program) as [result|err] eqn:Hcomp; simpl in Hrun.
  2:{ inversion Hrun; subst; simpl. repeat split; auto. intros; discriminate. }
  match type of Hrun with
  | context [mapM ?f (r_functions result) ?w1] =>
      pose proof (mapM_lift_world serializeFunction (r_functions result) w1) as H1;
      unfold lift in H1;
      destruct (mapM f (r_functions result) w1) as [[fs|err] w1'] eqn:Hf
  end; simpl in H1; subst w1'.
  2:{ inversion Hrun; subst; simpl. repeat split; auto. intros; discriminate. }
  match type of Hrun with
  | context [mapM ?f (r_scripts result) ?w1] =>
      pose proof (mapM_lift_world serializeScript (r_scripts result) w1) as H1;
      unfold lift in H1;
      destruct (mapM f (r_scripts result) w1) as [[ss|err] w1'] eqn:Hs
  end; simpl in H1; subst w1'.
  2:{ inversion Hrun; subst; simpl. repeat split; auto. intros; discriminate. }
  destruct (mergeWorkspaces (fs ++ ss)) as [ws0|err] eqn:Hmerge; simpl in Hrun.
  2:{ inversion Hrun; subst; simpl. repeat split; auto. intros; discriminate. }
  inversion Hrun; subst; simpl. repeat split; auto.
  intros ws tabs Heq. inversion Heq; subst.
  exists src, program, result. repeat split; auto.
Qed.

End CompileScriptFacts.

(** ** Where the variables found are stored *)

Section Classification.
Import JsMap JsMapFacts.

Lemma find_app_first {A : Type} (p : A -> bool) (l1 l2 : list A) :
  find p (l1 ++ l2)
  = match find p l1 with Some a => Some a | None => find p l2 end.
Proof.
  induction l1 as [|a r IH]; simpl; auto. destruct (p a); auto.
Qed.

(** After a run of [set]s the value under a key is the one of the last
    [set] on that key. *)
Lemma get_fold_set {A V : Type} (key : A -> string) (val : A -> V)
    (l : list A) (m : JsMap.t V) (k : string) :
  get (fold_left (fun m a => set m (key a) (val a)) l m) k
  = match find (fun a => String.eqb (key a) k) (rev l) with
    | Some a => Some (val a)
    | None => get m k
    end.
Proof.
  revert m. induction l as [|a r IH]; intros m; simpl; auto.
  rewrite IH, find_app_first.
  destruct (find _ (rev r)) as [a'|]; auto.
  simpl. destruct (String.eqb (key a) k) eqn:Hk.
  - apply String.eqb_eq in Hk. subst k. apply get_set_same.
  - apply String.eqb_neq in Hk. now apply get_set_other.
Qed.

(** Every element of the run leaves, under its key, an element of the run
    with the same key. *)
Lemma get_fold_set_In {A V : Type} (key : A -> string) (val : A -> V)
    (l : list A) (m : JsMap.t V) (a : A) :
  In a l ->
  exists a', In a' l /\ key a' = key a
    /\ get (fold_left (fun m a => set m (key a) (val a)) l m) (key a) = Some (val a').
Proof.
  intros Hin. rewrite get_fold_set.
  destruct (find _ (rev l)) as [a'|] eqn:Hf.
  - apply find_some in Hf. destruct Hf as [Hin' Hk].
    apply String.eqb_eq in Hk. apply in_rev in Hin'. eauto.
  - apply in_rev in Hin. eapply find_none in Hf; eauto.
    simpl in Hf. now rewrite String.eqb_refl in Hf.
Qed.

Lemma has_fold_set_inv {A V : Type} (key : A -> string) (val : A -> V)
    (l : list A) (m : JsMap.t V) (k : string) :
  has (fold_left (fun m a => set m (key a) (val a)) l m) k = true ->
  has m k = true \/ exists a, In a l /\ key a = k.
Proof.
  rewrite has_fold_set. intros H. apply orb_true_iff in H.
  destruct H as [H|H]; auto. right.
  apply existsb_exists in H. destruct H as [a [Hin Hk]].
  apply String.eqb_eq in Hk. eauto.
Qed.

(** The sprite loop is two independent runs of [set]s: the global variables
    on the global table, the others on the local one. *)
Lemma collectSprite_split (found : list (FuseVariable * JsValue)) (G L : VarTable) :
  collectSprite found G L
  = (fold_left (fun m vd => set m (v_name (fst vd)) (fst vd, snd vd))
               (filter (fun vd => v_isGlobal (fst vd)) found) G,
     fold_left (fun m vd => set m (v_name (fst vd)) (fst vd, snd vd))
               (filter (fun vd => negb (v_isGlobal (fst vd))) found) L).
Proof.
  unfold collectSprite. revert G L.
  induction found as [|[v d] r IH]; intros G L; simpl; auto.
  destruct (v_isGlobal v); simpl; apply IH.
Qed.

End Classification.

Section ClassificationTheorems.
Context {T : Types} {E : Externals}.
Import JsMap JsMapFacts.

(** C10.  A target without an entry script ([entry] undefined, or the empty
    string, which [!entry] treats alike): [compileScript] returns the empty
    workspace at once; the global table and the local table are returned as
    they were, and the world is untouched: no file is read, nothing is
    handed to the compiler, nothing is printed. *)
Theorem compileScript_no_entry (base : ModuleDefs) (stageVariables : option VarTable)
    (variables : VarTable) (w : World) :
  compileScript None base stageVariables variables w
    = (Ok (emptyWorkspace, (stageVariables, variables)), w)
  /\ compileScript (Some "") base stageVariables variables w
    = (Ok (emptyWorkspace, (stageVariables, variables)), w).
Proof. split; reflexivity. Qed.

(** C2.  When [compileScript] returns for an entry script, the file was
    read and parsed, and the compiler was called once, on that program, and
    returned some variables.  For the stage (no [stageVariables];
    [variables] is the global table) each of them is in the global table
    under its name, and the variable stored there has its global flag set,
    whatever the flag of the variable found was; its name, type and export
    name are those of the variable found.  For a sprite each global one is
    in the global table and each other one in the sprite's table; the
    global table gains only names of global variables and the sprite's
    table only names of the others. *)
Theorem compileScript_classifies (e : string) (base : ModuleDefs)
    (sv : option VarTable) (L : VarTable) (w w' : World) (ws : Workspace)
    (tabs : option VarTable * VarTable) :
  String.eqb e "" = false ->
  compileScript (Some e) base sv L w = (Ok (ws, tabs), w') ->
  exists m program result,
    compilerCalls w' = compilerCalls w ++ [m]
    /\ m_filename m = fullPathOf e
    /\ (exists src, readFileSync (fullPathOf e) = Ok src
                    /\ parse src = Ok program)
    /\ compile m program = Ok result
    /\ let found := values (r_variables result) in
       match sv with
       | None =>
           fst tabs = None
           /\ (forall v d, In (v, d) found ->
               exists v' d' g, In (v', d') found /\ v_name v' = v_name v
                 /\ get (snd tabs) (v_name v) = Some (g, d')
                 /\ v_isGlobal g = true
                 /\ v_name g = v_name v' /\ v_type g = v_type v'
                 /\ v_exportName g = v_exportName v')
           /\ (forall name, has (snd tabs) name = true ->
               has L name = true
               \/ exists v d, In (v, d) found /\ v_name v = name)
       | Some G =>
           exists G', fst tabs = Some G'
           /\ (forall v d, In (v, d) found -> v_isGlobal v = true ->
               exists v' d', In (v', d') found /\ v_isGlobal v' = true
                 /\ v_name v' = v_name v
                 /\ get G' (v_name v) = Some (v', d'))
           /\ (forall v d, In (v, d) found -> v_isGlobal v = false ->
               exists v' d', In (v', d') found /\ v_isGlobal v' = false
                 /\ v_name v' = v_name v
                 /\ get (snd tabs) (v_name v) = Some (v', d'))
           /\ (forall name, has G' name = true ->
               has G name = true
               \/ exists v d, In (v, d) found /\ v_isGlobal v = true
                              /\ v_name v = name)
           /\ (forall name, has (snd tabs) name = true ->
               has L name = true
               \/ exists v d, In (v, d) found /\ v_isGlobal v = false
                              /\ v_name v = name)
       end.
Proof.
  intros Hne Hrun. apply String.eqb_neq in Hne.
  destruct (compileScript_entry _ _ _ _ _ _ _ Hne Hrun)
    as (_ & _ & _ & _ & Hok).
  destruct (Hok ws tabs eq_refl)
    as (src & program & result & Hread & Hparse & Hcomp & Hcalls & _ & Htabs).
  eexists _, program, result. split; [exact Hcalls|]. split; [reflexivity|].
  split; [exists src; split; assumption|]. split; [exact Hcomp|].
  cbv zeta. subst tabs. unfold tablesAfter. destruct sv as [G|]; simpl.
  - exists (fst (collectSprite (values (r_variables result)) G L)).
    rewrite collectSprite_split; simpl. split; [reflexivity|].
    repeat split.
    + intros v d Hin Hg.
      destruct (get_fold_set_In (fun vd => v_name (fst vd))
                  (fun vd => (fst vd, snd vd))
                  (filter (fun vd => v_isGlobal (fst vd)) (values (r_variables result)))
                  G (v, d)) as ([v' d'] & Hin' & Hk & Hget).
      { apply filter_In. auto. }
      apply filter_In in Hin'. simpl in *. exists v', d'. tauto.
    + intros v d Hin Hg.
      destruct (get_fold_set_In (fun vd => v_name (fst vd))
                  (fun vd => (fst vd, snd vd))
                  (filter (fun vd => negb (v_isGlobal (fst vd))) (values (r_variables result)))
                  L (v, d)) as ([v' d'] & Hin' & Hk & Hget).
      { apply filter_In. simpl. rewrite Hg. auto. }
      apply filter_In in Hin'. simpl in *. exists v', d'.
      destruct Hin' as [Hin' Hl]. apply negb_true_iff in Hl. tauto.
    + intros name Hh. apply has_fold_set_inv in Hh.
      destruct Hh as [Hh|([v d] & Hin & Hk)]; auto. right.
      apply filter_In in Hin. simpl in *. exists v, d. tauto.
    + intros name Hh. apply has_fold_set_inv in Hh.
      destruct Hh as [Hh|([v d] & Hin & Hk)]; auto. right.
      apply filter_In in Hin. simpl in *. exists v, d.
      destruct Hin as [Hin Hl]. apply negb_true_iff in Hl. tauto.
  - unfold collectStage. split; [reflexivity|]. split.
    + intros v d Hin.
      destruct (get_fold_set_In (fun vd => v_name (fst vd))
                  (fun vd => (markGlobal (fst vd), snd vd))
                  (values (r_variables result)) L (v, d) Hin)
        as ([v' d'] & Hin' & Hk & Hget).
      simpl in *. exists v', d', (markGlobal v').
      split; [exact Hin'|]. split; [exact Hk|]. split; [exact Hget|].
      split; [reflexivity|]. split; [reflexivity|]. split; reflexivity.
    + intros name Hh.
      apply (has_fold_set_inv (fun vd => v_name (fst vd))
               (fun vd => (markGlobal (fst vd), snd vd))) in Hh.
      destruct Hh as [Hh|([v d] & Hin & Hk)]; auto. right.
      simpl in *. exists v, d. tauto.
Qed.

End ClassificationTheorems.

(** ** The compile loop: what the compiler is handed, and how the global
    table grows *)

Section ScopeOrder.
Context {T : Types} {E : Externals}.
Import JsMap JsMapFacts.

(** A sprite is compiled with an empty local table: the scope handed over
    has exactly the names of the global table. *)
Lemma has_combined_sprite (G : VarTable) (name : string) :
  has (combinedVariables (Some G) empty) name = has G name.
Proof.
  unfold combinedVariables. rewrite has_of_entries, app_nil_r.
  rewrite (has_entries G). unfold entries.
  induction G as [|[k v] r IH]; simpl; auto. now rewrite IH.
Qed.

(** The stage is compiled with no global table and an empty table of its
    own: the scope handed over is empty. *)
Lemma has_combined_stage (name : string) :
  has (combinedVariables None empty) name = false.
Proof. reflexivity. Qed.

Lemma collectSprite_mono found (G L : VarTable) (name : string) :
  has G name = true -> has (fst (collectSprite found G L)) name = true.
Proof.
  intros H. rewrite collectSprite_split. simpl.
  rewrite has_fold_set, H. reflexivity.
Qed.

(** One sprite: the modules handed to the compiler have the names of the
    global table as it was before, and the global table only grows. *)
Lemma compileSprite_scope base (G : VarTable) (done : list CompiledTarget)
    (t : TargetConfig) (w w' : World) r :
  compileSprite base (G, done) t w = (r, w') ->
  exists calls,
    compilerCalls w' = compilerCalls w ++ calls
    /\ (forall m name, In m calls -> has (m_variables m) name = has G name)
    /\ (forall G' done', r = Ok (G', done') ->
        forall name, has G name = true -> has G' name = true).
Proof.
  unfold compileSprite, bind, console_log, ret. simpl.
  destruct (compileScript (t_entry t) base (Some G) empty _)
    as [[[ws tabs]|err] w1] eqn:Hrun; intros Heq; inversion Heq; subst; clear Heq.
  - destruct (t_entry t) as [e|] eqn:He.
    2:{ inversion Hrun; subst. exists []. simpl. rewrite app_nil_r.
        repeat split; auto; try tauto. intros G' d' H. inversion H; subst. auto. }
    destruct (String.eqb e "") eqn:Hne.
    { apply String.eqb_eq in Hne. subst e. inversion Hrun; subst.
      exists []. simpl. rewrite app_nil_r.
      repeat split; auto; try tauto. intros G' d' H. inversion H; subst. auto. }
    apply String.eqb_neq in Hne.
    destruct (compileScript_entry _ _ _ _ _ _ _ Hne Hrun)
      as (_ & _ & _ & _ & Hok).
    destruct (Hok ws tabs eq_refl)
      as (src & program & result & _ & _ & _ & Hcalls & _ & Htabs).
    simpl in Hcalls. eexists [_]. split; [exact Hcalls|]. split.
    + intros m name [Hm|[]]. subst m. simpl. apply has_combined_sprite.
    + intros G' d' H. inversion H; subst. simpl.
      intros name Hh. now apply collectSprite_mono.
  - destruct (t_entry t) as [e|] eqn:He; [|inversion Hrun].
    destruct (String.eqb e "") eqn:Hne.
    { apply String.eqb_eq in Hne. subst e. inversion Hrun. }
    apply String.eqb_neq in Hne.
    destruct (compileScript_entry _ _ _ _ _ _ _ Hne Hrun)
      as (_ & _ & _ & [Hc|Hc] & _); simpl in Hc.
    + exists []. rewrite app_nil_r. split; [exact Hc|].
      split; [simpl; tauto | intros; discriminate].
    + eexists [_]. split; [exact Hc|]. split.
      * intros m name [Hm|[]]. subst m. simpl. apply has_combined_sprite.
      * intros; discriminate.
Qed.

(** The loop over a concatenation of target lists. *)
Lemma compileSprites_app base (l1 l2 : list TargetConfig) (G : VarTable)
    (done : list CompiledTarget) (w : World) :
  compileSprites base (l1 ++ l2) G done w
  = match compileSprites base l1 G done w with
    | (Ok (G1, d1), w1) => compileSprites base l2 G1 d1 w1
    | (Throw e, w1) => (Throw e, w1)
    end.
Proof.
  unfold compileSprites. rewrite foldM_app.
  destruct (foldM _ l1 _ w) as [[[G1 d1]|e] w1]; reflexivity.
Qed.

Lemma compileSprites_cons base (t : TargetConfig) (l : list TargetConfig)
    (G : VarTable) (done : list CompiledTarget) (w : World) :
  compileSprites base (t :: l) G done w
  = match compileSprite base (G, done) t w with
    | (Ok (G1, d1), w1) => compileSprites base l G1 d1 w1
    | (Throw e, w1) => (Throw e, w1)
    end.
Proof.
  unfold compileSprites. simpl. unfold bind at 1.
  destruct (compileSprite base (G, done) t w) as [[[G1 d1]|e] w1]; reflexivity.
Qed.

(** The whole loop, from any state: every module handed over has all the
    names the global table had at the start; when the loop ends, the global
    table has them too, and it has every name of every module handed over. *)
Lemma compileSprites_scope base (targets : list TargetConfig) (G : VarTable)
    (done : list CompiledTarget) (w w' : World) r :
  compileSprites base targets G done w = (r, w') ->
  exists calls,
    compilerCalls w' = compilerCalls w ++ calls
    /\ (forall m name, In m calls ->
        has G name = true -> has (m_variables m) name = true)
    /\ (forall G' done', r = Ok (G', done') ->
        (forall name, has G name = true -> has G' name = true)
        /\ (forall m name, In m calls ->
            has (m_variables m) name = true -> has G' name = true)).
Proof.
  revert G done w. induction targets as [|t l IH]; intros G done w Hrun.
  - inversion Hrun; subst. exists []. rewrite app_nil_r.
    split; [reflexivity|]. split; [simpl; tauto|].
    intros G' done' Hr. inversion Hr; subst. split; [auto | simpl; tauto].
  - rewrite compileSprites_cons in Hrun.
    destruct (compileSprite base (G, done) t w) as [[[G1 d1]|e] w1] eqn:Hstep.
    + destruct (compileSprite_scope _ _ _ _ _ _ _ Hstep) as (c1 & Hc1 & Hs1 & Hm1).
      specialize (Hm1 G1 d1 eq_refl).
      destruct (IH _ _ _ Hrun) as (c2 & Hc2 & Hs2 & Hm2).
      exists (c1 ++ c2). rewrite Hc2, Hc1, app_assoc. split; [reflexivity|]. split.
      * intros m name Hin Hh. apply in_app_or in Hin. destruct Hin as [Hin|Hin].
        -- now rewrite (Hs1 m name Hin).
        -- apply Hs2; auto.
      * intros G' done' Hr. destruct (Hm2 G' done' Hr) as [Hg Hc]. split.
        -- intros name Hh. auto.
        -- intros m name Hin Hh. apply in_app_or in Hin. destruct Hin as [Hin|Hin].
           ++ rewrite (Hs1 m name Hin) in Hh. auto.
           ++ eauto.
    + inversion Hrun; subst.
      destruct (compileSprite_scope _ _ _ _ _ _ _ Hstep) as (c1 & Hc1 & Hs1 & _).
      exists c1. split; [exact Hc1|]. split.
      * intros m name Hin Hh. now rewrite (Hs1 m name Hin).
      * intros; discriminate.
Qed.

(** The stage: whatever is handed to the compiler is an empty scope. *)
Lemma compileStage_scope (stage : StageConfig) base (w w' : World) r :
  compileStage stage base w = (r, w') ->
  exists calls,
    compilerCalls w' = compilerCalls w ++ calls
    /\ (forall m name, In m calls -> has (m_variables m) name = false).
Proof.
  unfold compileStage, bind, console_log, ret. simpl.
  destruct (compileScript (s_entry stage) base None empty _)
    as [[[ws tabs]|err] w1] eqn:Hrun; intros Heq; inversion Heq; subst; clear Heq.
  - destruct (s_entry stage) as [e|] eqn:He.
    2:{ inversion Hrun; subst. exists []. simpl. rewrite app_nil_r. split; auto. tauto. }
    destruct (String.eqb e "") eqn:Hne.
    { apply String.eqb_eq in Hne. subst e. inversion Hrun; subst.
      exists []. simpl. rewrite app_nil_r. split; auto. tauto. }
    apply String.eqb_neq in Hne.
    destruct (compileScript_entry _ _ _ _ _ _ _ Hne Hrun)
      as (_ & _ & _ & [Hc|Hc] & _); simpl in Hc.
    + exists []. rewrite app_nil_r. split; [exact Hc|]. simpl; tauto.
    + eexists [_]. split; [exact Hc|]. intros m name [Hm|[]]. subst m. reflexivity.
  - destruct (s_entry stage) as [e|] eqn:He; [|inversion Hrun].
    destruct (String.eqb e "") eqn:Hne.
    { apply String.eqb_eq in Hne. subst e. inversion Hrun. }
    apply String.eqb_neq in Hne.
    destruct (compileScript_entry _ _ _ _ _ _ _ Hne Hrun)
      as (_ & _ & _ & [Hc|Hc] & _); simpl in Hc.
    + exists []. rewrite app_nil_r. split; [exact Hc|]. simpl; tauto.
    + eexists [_]. split; [exact Hc|]. intros m name [Hm|[]]. subst m. reflexivity.
Qed.

End ScopeOrder.

#[local] Existing Instance Demo.types.
#[local] Existing Instance Demo.externals.
#[local] Existing Instance Demo.dtypes.
#[local] Existing Instance Demo.dexternals.

Lemma compileScript_classifies_witness :
  (exists w' ws tabs,
     compileScript (Some "stage.fuse") tt None [] Demo.world0 = (Ok (ws, tabs), w')
     /\ In (Demo.scalarVar "score" false, JPrim (PNum 0))
           (JsMap.values (Demo.found "stage"))
     /\ exists g d,
          JsMap.get (snd tabs) "score" = Some (g, d)
          /\ v_isGlobal g = true /\ v_name g = "score")
  /\ (exists w' ws tabs,
        compileScript (Some "a.fuse") tt (Some []) [] Demo.world0
          = (Ok (ws, tabs), w')
        /\ JsMap.has (opt_or (fst tabs) []) "hiscore" = true
        /\ JsMap.has (snd tabs) "counter" = true
        /\ JsMap.has (opt_or (fst tabs) []) "counter" = false
        /\ exists m program result,
             compilerCalls w' = compilerCalls Demo.world0 ++ [m]
             /\ m_filename m = "proj/a.fuse"
             /\ compile m program = Ok result
             /\ exists v d, In (v, d) (JsMap.values (r_variables result))
                            /\ v_isGlobal v = true /\ v_name v = "hiscore").
Proof.
  split.
  - destruct (compileScript (T := Demo.types) (Some "stage.fuse") tt None []
                Demo.world0) as [[[ws tabs]|e] w'] eqn:Hrun;
      [|vm_compute in Hrun; discriminate Hrun].
    exists w', ws, tabs. split; [reflexivity|].
    split; [left; reflexivity|].
    destruct (compileScript_classifies (E := Demo.externals) "stage.fuse" tt None
                [] Demo.world0 w' ws tabs eq_refl Hrun)
      as (m & program & result & _ & _ & (src & Hread & Hparse) & Hcomp & Hcl).
    vm_compute in Hread. injection Hread as Hsrc. subst src.
    vm_compute in Hparse. injection Hparse as Hprog. subst program.
    cbn in Hcomp. injection Hcomp as Hres. subst result.
    cbv zeta in Hcl. destruct Hcl as (_ & Hall & _).
    destruct (Hall (Demo.scalarVar "score" false) (JPrim (PNum 0)))
      as (v' & d' & g & _ & Hname & Hget & Hglobal & Hg & _).
    { left. reflexivity. }
    exists g, d'. split; [exact Hget|]. split; [exact Hglobal|].
    rewrite Hg. exact Hname.
  - eexists _, _, _. split; [vm_compute; reflexivity|].
    split; [vm_compute; reflexivity|].
    split; [vm_compute; reflexivity|].
    split; [vm_compute; reflexivity|].
    destruct (compileScript_classifies (E := Demo.externals) "a.fuse" tt (Some []) []
                Demo.world0 _ _ _ eq_refl eq_refl)
      as (m & program & result & Hc & Hfile & _ & Hcomp & Hcl).
    exists m, program, result. split; [exact Hc|]. split; [exact Hfile|].
    split; [exact Hcomp|].
    cbv zeta in Hcl. destruct Hcl as (G' & HG' & _ & _ & Honly & _).
    vm_compute in HG'. inversion HG'; subst G'.
    destruct (Honly "hiscore" eq_refl) as [Habs|Hex]; [discriminate Habs|exact Hex].
Defined.

(** ** The asset store *)

(** A relation between worlds that every step keeps is kept by a loop. *)
Lemma mapM_preserves {W A B : Type} (R : W -> W -> Prop) (f : A -> St W B) :
  (forall w, R w w) ->
  (forall w1 w2 w3, R w1 w2 -> R w2 w3 -> R w1 w3) ->
  (forall a w, R w (snd (f a w))) ->
  forall l w, R w (snd (mapM f l w)).
Proof.
  intros Hrefl Htrans Hf l. induction l as [|a r IH]; intros w; simpl; auto.
  unfold bind at 1. specialize (Hf a w).
  destruct (f a w) as [[b|e] w1]; simpl in *; auto.
  unfold bind at 1. specialize (IH w1).
  destruct (mapM f r w1) as [[bs|e] w2]; simpl in *; eauto.
Qed.

Lemma foldM_preserves {W A S : Type} (R : W -> W -> Prop) (f : S -> A -> St W S) :
  (forall w, R w w) ->
  (forall w1 w2 w3, R w1 w2 -> R w2 w3 -> R w1 w3) ->
  (forall s a w, R w (snd (f s a w))) ->
  forall l s w, R w (snd (foldM f l s w)).
Proof.
  intros Hrefl Htrans Hf l. induction l as [|a r IH]; intros s w; simpl; auto.
  unfold bind at 1. specialize (Hf s a w).
  destruct (f s a w) as [[s'|e] w1]; simpl in *; eauto.
Qed.

Section AssetStore.
Context {T : Types} {E : Externals}.
Import JsMap JsMapFacts.

(** The storage key of an asset: the hash of its bytes, a dot, and the
    extension of its declared path. *)
Lemma processAsset_read (p type data : string) (w : World) :
  readFileSync (fullPathOf p) = Ok data ->
  let ext := Path.slice1 (Path.extname p) in
  let key := String.append (md5Bytes data) (String.append "." ext) in
  processAsset (Some p) type w
  = (Ok (mkAssetInfo (md5Bytes data) key ext),
     mkWorld (console w) (fsReads w ++ [fullPathOf p]) (compilerCalls w)
             (set (zipFiles w) key data) (uidCount w)).
Proof.
  intros Hread. unfold processAsset, bind, fs_read, zip_file, ret.
  rewrite Hread. reflexivity.
Qed.

(** C5 (amended).  Two declared assets with the same bytes and the same
    path extension get the same asset record, hence the same storage key.
    After the first is stored the archive has an entry under that key; in
    any later archive that still has it (entries are never removed), storing
    the second adds no entry: the entry names are unchanged, the key names
    the bytes, and an archive without duplicate names has exactly one entry
    under the key. *)
Theorem same_bytes_one_entry (p1 p2 type1 type2 data : string) (w : World) :
  readFileSync (fullPathOf p1) = Ok data ->
  readFileSync (fullPathOf p2) = Ok data ->
  Path.slice1 (Path.extname p1) = Path.slice1 (Path.extname p2) ->
  exists a w1,
    processAsset (Some p1) type1 w = (Ok a, w1)
    /\ md5ext a
       = String.append (md5Bytes data)
           (String.append "." (Path.slice1 (Path.extname p1)))
    /\ has (zipFiles w1) (md5ext a) = true
    /\ forall w', has (zipFiles w') (md5ext a) = true ->
       exists w'',
         processAsset (Some p2) type2 w' = (Ok a, w'')
         /\ keys (zipFiles w'') = keys (zipFiles w')
         /\ get (zipFiles w'') (md5ext a) = Some data
         /\ (NoDup (keys (zipFiles w')) ->
             count_occ string_dec (keys (zipFiles w'')) (md5ext a) = 1).
Proof.
  intros H1 H2 Hext.
  eexists _, _. split; [apply (processAsset_read _ _ _ _ H1)|].
  cbn [md5ext zipFiles].
  split; [reflexivity|]. split; [apply has_set_same|].
  intros w' Hhas. eexists.
  split; [rewrite Hext; apply (processAsset_read _ _ _ _ H2)|].
  cbn [zipFiles]. rewrite <- Hext.
  rewrite keys_set, Hhas. split; [reflexivity|].
  split; [apply get_set_same|].
  intros Hnd. apply has_In_keys in Hhas.
  apply (proj1 (NoDup_count_occ' string_dec _) Hnd _ Hhas).
Qed.

(** The extension is part of the key: the same bytes under two extensions
    are two entries. *)
Lemma processAsset_two_extensions (p1 p2 type1 type2 data : string) (w : World) :
  readFileSync (fullPathOf p1) = Ok data ->
  readFileSync (fullPathOf p2) = Ok data ->
  Path.slice1 (Path.extname p1) <> Path.slice1 (Path.extname p2) ->
  exists a1 w1 a2 w2,
    processAsset (Some p1) type1 w = (Ok a1, w1)
    /\ processAsset (Some p2) type2 w1 = (Ok a2, w2)
    /\ md5ext a1 <> md5ext a2.
Proof.
  intros H1 H2 Hext. eexists _, _, _, _.
  split; [apply (processAsset_read _ _ _ _ H1)|].
  split; [apply (processAsset_read _ _ _ _ H2)|]. simpl.
  intros Heq. apply Hext.
  remember (md5Bytes data) as h. clear - Heq.
  induction h as [|c h IH]; simpl in Heq.
  - now inversion Heq.
  - inversion Heq. auto.
Qed.

End AssetStore.

(** The claim C5 as it is written fails: [photo.jpg] and [photo.jpeg] hold
    the same bytes, get two storage keys and make two archive entries. *)
Lemma same_bytes_two_keys :
  let r1 := processAsset (Some "photo.jpg") "costume" Demo.world0 in
  let r2 := processAsset (Some "photo.jpeg") "costume" (snd r1) in
  readFileSync (fullPathOf "photo.jpg") = Ok "JPEGDATA"
  /\ readFileSync (fullPathOf "photo.jpeg") = Ok "JPEGDATA"
  /\ fst r1 = Ok (mkAssetInfo "bf23ea50d77ee96ece2b71f7d905bfe8"
                              "bf23ea50d77ee96ece2b71f7d905bfe8.jpg" "jpg")
  /\ fst r2 = Ok (mkAssetInfo "bf23ea50d77ee96ece2b71f7d905bfe8"
                              "bf23ea50d77ee96ece2b71f7d905bfe8.jpeg" "jpeg")
  /\ zipFiles (snd r2)
     = [ ("bf23ea50d77ee96ece2b71f7d905bfe8.jpg", "JPEGDATA");
         ("bf23ea50d77ee96ece2b71f7d905bfe8.jpeg", "JPEGDATA") ].
Proof. vm_compute. repeat split; reflexivity. Qed.

Lemma same_bytes_one_entry_witness :
  exists a w1,
    processAsset (Some "cat.png") "costume" Demo.world0 = (Ok a, w1)
    /\ md5ext a = "0b75926ab9a9f9fe7d6008245c09352e.png"
    /\ JsMap.has (zipFiles w1) (md5ext a) = true
    /\ forall w', JsMap.has (zipFiles w') (md5ext a) = true ->
       exists w'',
         processAsset (Some "copy.png") "costume" w' = (Ok a, w'')
         /\ JsMap.keys (zipFiles w'') = JsMap.keys (zipFiles w')
         /\ JsMap.get (zipFiles w'') (md5ext a) = Some "PNGDATA"
         /\ (NoDup (JsMap.keys (zipFiles w')) ->
             count_occ string_dec (JsMap.keys (zipFiles w'')) (md5ext a) = 1).
Proof.
  destruct (same_bytes_one_entry (E := Demo.externals) "cat.png" "copy.png"
              "costume" "costume" "PNGDATA" Demo.world0
              eq_refl eq_refl eq_refl) as (a & w1 & Hrun & Hkey & Hrest).
  exists a, w1. split; [exact Hrun|]. split; [|exact Hrest].
  rewrite Hkey. vm_compute. reflexivity.
Defined.

(** ** The manifest: costumes *)

Section ManifestFacts.
Context {T : Types} {E : Externals}.
Import JsMap JsMapFacts.

Lemma assetStep_refl w : assetStep w w.
Proof. split; auto. Qed.

Lemma assetStep_trans w1 w2 w3 :
  assetStep w1 w2 -> assetStep w2 w3 -> assetStep w1 w3.
Proof. intros [H1 H2] [H3 H4]. split; [congruence | auto]. Qed.

Lemma processAsset_step p type w : assetStep w (snd (processAsset p type w)).
Proof.
  destruct p as [p|]; simpl; [|apply assetStep_refl].
  unfold bind, fs_read, zip_file, ret.
  destruct (readFileSync (fullPathOf p)); simpl; split; simpl; auto.
  intros k Hk. now apply has_set_mono.
Qed.

Lemma costumeOf_step type d w : assetStep w (snd (costumeOf type d w)).
Proof.
  unfold costumeOf, bind, ret. pose proof (processAsset_step (a_path d) type w) as H.
  destruct (processAsset (a_path d) type w) as [[a|e] w1]; exact H.
Qed.

Lemma soundOf_step d w : assetStep w (snd (soundOf d w)).
Proof.
  unfold soundOf, bind, ret. pose proof (processAsset_step (a_path d) "sound" w) as H.
  destruct (processAsset (a_path d) "sound" w) as [[a|e] w1]; exact H.
Qed.

Lemma emptyCostume_eq w :
  emptyCostume w
  = (Ok placeholderCostume,
     mkWorld (console w) (fsReads w) (compilerCalls w)
             (set (zipFiles w) (String.append (md5Bytes EMPTY_SVG) ".svg") EMPTY_SVG)
             (uidCount w)).
Proof. reflexivity. Qed.

Lemma buildCostumes_step type decls w : assetStep w (snd (buildCostumes type decls w)).
Proof.
  unfold buildCostumes. destruct (nonEmpty decls).
  - apply mapM_preserves;
      [apply assetStep_refl | apply assetStep_trans | apply costumeOf_step].
  - unfold bind. rewrite emptyCostume_eq. cbn [snd ret].
    split; cbn [uidCount zipFiles]; [reflexivity|].
    intros k Hk. apply has_set_mono. exact Hk.
Qed.

Lemma buildSounds_step decls w : assetStep w (snd (buildSounds decls w)).
Proof.
  unfold buildSounds. destruct (nonEmpty decls).
  - apply mapM_preserves;
      [apply assetStep_refl | apply assetStep_trans | apply soundOf_step].
  - apply assetStep_refl.
Qed.

(** A target without declared costumes gets the placeholder alone, and the
    placeholder is in the archive. *)
Lemma buildCostumes_default type decls w :
  nonEmpty decls = false ->
  exists w', buildCostumes type decls w = (Ok [placeholderCostume], w')
             /\ assetStep w w'
             /\ has (zipFiles w') (co_md5ext placeholderCostume) = true.
Proof.
  intros Hd. unfold buildCostumes. rewrite Hd. unfold bind.
  rewrite emptyCostume_eq. unfold ret. eexists. split; [reflexivity|]. split.
  - split; cbn [uidCount zipFiles]; [reflexivity|].
    intros k Hk. apply has_set_mono. exact Hk.
  - cbn [zipFiles]. unfold placeholderCostume. cbn [co_md5ext].
    apply has_set_same.
Qed.

End ManifestFacts.

(** ** The manifest: re-keying the variable tables *)

Section Rekey.
Context {T : Types} {E : Externals}.
Import JsMap JsMapFacts.

(** [uid()] never returns the same identifier twice. *)
Hypothesis uid_fresh : forall i j, uid_at i = uid_at j -> i = j.

Lemma size_values {V : Type} (m : JsMap.t V) : List.length (values m) = size m.
Proof. unfold values, size. apply length_map. Qed.

(** The two loops over a variable table, from any pair of objects that do
    not hold the identifiers about to be drawn. *)
Lemma foldM_rekey (l : list (FuseVariable * JsValue)) :
  forall (V0 L0 : JsMap.t (string * JsValue)) (w : World),
  (forall i, i < List.length l ->
     has V0 (uid_at (uidCount w + i)) = false
     /\ has L0 (uid_at (uidCount w + i)) = false) ->
  exists V L,
    foldM rekey l (V0, L0) w
    = (Ok (V, L),
       mkWorld (console w) (fsReads w) (compilerCalls w) (zipFiles w)
               (uidCount w + List.length l))
    /\ size V + size L = size V0 + size L0 + List.length l
    /\ (forall k, has V0 k = true -> get V k = get V0 k)
    /\ (forall k, has L0 k = true -> get L k = get L0 k)
    /\ (forall i v d, nth_error l i = Some (v, d) ->
        if String.eqb (v_type v) "list"
        then get L (uid_at (uidCount w + i)) = Some (displayName v, array_or_empty d)
        else get V (uid_at (uidCount w + i))
             = Some (displayName v, nullish_or d (JPrim (PNum 0)))).
Proof.
  induction l as [|[v d] r IH]; intros V0 L0 w Hfresh.
  - exists V0, L0. simpl. rewrite !Nat.add_0_r. destruct w; simpl.
    repeat split; auto. intros [|i] v d H; discriminate H.
  - destruct (Hfresh 0 ltac:(simpl; lia)) as [HV0 HL0].
    rewrite Nat.add_0_r in HV0, HL0.
    assert (Hne : forall i, String.eqb (uid_at (uidCount w)) (uid_at (S (uidCount w + i))) = false).
    { intros i. apply String.eqb_neq. intros Heq. apply uid_fresh in Heq. lia. }
    assert (Hrest : forall i, i < List.length r ->
              has V0 (uid_at (S (uidCount w + i))) = false
              /\ has L0 (uid_at (S (uidCount w + i))) = false).
    { intros i Hi. specialize (Hfresh (S i) ltac:(simpl; lia)).
      now rewrite Nat.add_succ_r in Hfresh. }
    cbn [foldM]. unfold bind at 1. unfold rekey at 1. unfold bind, uid, ret.
    destruct (String.eqb (v_type v) "list") eqn:Hty.
    + set (x := (displayName v, array_or_empty d)).
      set (w1 := mkWorld (console w) (fsReads w) (compilerCalls w) (zipFiles w)
                         (S (uidCount w))).
      destruct (IH V0 (set L0 (uid_at (uidCount w)) x) w1) as (V & L & Hrun & Hsz & HV & HL & Hent).
      { intros i Hi. simpl. destruct (Hrest i Hi) as [H1 H2].
        split; auto. rewrite has_set, Hne, H2. reflexivity. }
      exists V, L. cbn [fst snd]. rewrite Hrun. simpl.
      rewrite Nat.add_succ_r. split; [reflexivity|].
      split. { rewrite Hsz, size_set, HL0. lia. }
      split; [exact HV|]. split.
      * intros k Hk. rewrite HL by (now apply has_set_mono).
        apply get_set_other. intros Heq. subst k. congruence.
      * intros [|i] v' d' Hnth; simpl in Hnth.
        -- inversion Hnth; subst v' d'. rewrite Hty, Nat.add_0_r.
           rewrite HL by apply has_set_same. apply get_set_same.
        -- specialize (Hent i v' d' Hnth). simpl in Hent.
           now rewrite Nat.add_succ_r.
    + set (x := (displayName v, nullish_or d (JPrim (PNum 0)))).
      set (w1 := mkWorld (console w) (fsReads w) (compilerCalls w) (zipFiles w)
                         (S (uidCount w))).
      destruct (IH (set V0 (uid_at (uidCount w)) x) L0 w1) as (V & L & Hrun & Hsz & HV & HL & Hent).
      { intros i Hi. simpl. destruct (Hrest i Hi) as [H1 H2].
        split; auto. rewrite has_set, Hne, H1. reflexivity. }
      exists V, L. cbn [fst snd]. rewrite Hrun. simpl.
      rewrite Nat.add_succ_r. split; [reflexivity|].
      split. { rewrite Hsz, size_set, HV0. lia. }
      split; [|split; [exact HL|]].
      * intros k Hk. rewrite HV by (now apply has_set_mono).
        apply get_set_other. intros Heq. subst k. congruence.
      * intros [|i] v' d' Hnth; simpl in Hnth.
        -- inversion Hnth; subst v' d'. rewrite Hty, Nat.add_0_r.
           rewrite HV by apply has_set_same. apply get_set_same.
        -- specialize (Hent i v' d' Hnth). simpl in Hent.
           now rewrite Nat.add_succ_r.
Qed.

(** [rekeyAll] always returns; it draws one identifier per entry and
    touches nothing else. *)
Lemma rekeyAll_spec (table : VarTable) (w : World) :
  exists V L,
    rekeyAll table w
    = (Ok (V, L),
       mkWorld (console w) (fsReads w) (compilerCalls w) (zipFiles w)
               (uidCount w + size table))
    /\ size V + size L = size table
    /\ (forall i v d, nth_error (values table) i = Some (v, d) ->
        if String.eqb (v_type v) "list"
        then get L (uid_at (uidCount w + i)) = Some (displayName v, array_or_empty d)
        else get V (uid_at (uidCount w + i))
             = Some (displayName v, nullish_or d (JPrim (PNum 0)))).
Proof.
  destruct (foldM_rekey (values table) empty empty w) as (V & L & Hrun & Hsz & _ & _ & Hent).
  { intros i _. split; reflexivity. }
  exists V, L. unfold rekeyAll. rewrite Hrun, size_values in *.
  split; [reflexivity|]. split; [exact Hsz | exact Hent].
Qed.

End Rekey.

(** ** The manifest: targets *)

Section Targets.
Context {T : Types} {E : Externals}.
Import JsMap JsMapFacts.

(** [rekeyAll] alone, without the freshness of identifiers: it returns and
    draws one identifier per entry. *)
Lemma rekeyAll_total (table : VarTable) (w : World) :
  exists objs,
    rekeyAll table w
    = (Ok objs,
       mkWorld (console w) (fsReads w) (compilerCalls w) (zipFiles w)
               (uidCount w + size table)).
Proof.
  unfold rekeyAll. rewrite <- size_values.
  generalize (@empty (string * JsValue), @empty (string * JsValue)).
  revert w. induction (values table) as [|[v d] r IH]; intros w objs.
  - exists objs. simpl. rewrite Nat.add_0_r. destruct w; reflexivity.
  - cbn [foldM]. unfold bind at 1. unfold rekey at 1. unfold bind, uid, ret.
    destruct (String.eqb (v_type v) "list");
      match goal with
      | |- context [foldM rekey r ?o ?w1] =>
          destruct (IH w1 o) as (objs' & Hrun); rewrite Hrun
      end; exists objs'; simpl; now rewrite Nat.add_succ_r.
Qed.

(** What a successful build of a sprite target went through. *)
Lemma buildSpriteTarget_inv (i : nat) (c : CompiledTarget) (w w' : World)
    (mt : ManifestTarget) :
  buildSpriteTarget i c w = (Ok mt, w') ->
  exists objs w1 costumes w2,
    rekeyAll (c_variables c) w = (Ok objs, w1)
    /\ buildCostumes "costume" (t_costumes (c_target c)) w1 = (Ok costumes, w2)
    /\ assetStep w1 w' /\ assetStep w2 w'
    /\ mt_isStage mt = false
    /\ mt_name mt = t_name (c_target c)
    /\ mt_variables mt = fst objs /\ mt_lists mt = snd objs
    /\ mt_costumes mt = costumes.
Proof.
  unfold buildSpriteTarget, bind, ret.
  destruct (rekeyAll (c_variables c) w) as [[objs|e] w1] eqn:Hr; [|discriminate].
  pose proof (buildCostumes_step "costume" (t_costumes (c_target c)) w1) as Hc.
  destruct (buildCostumes "costume" (t_costumes (c_target c)) w1)
    as [[costumes|e] w2] eqn:Hb; [|discriminate].
  pose proof (buildSounds_step (t_sounds (c_target c)) w2) as Hs.
  destruct (buildSounds (t_sounds (c_target c)) w2) as [[sounds|e] w3]; [|discriminate].
  intros Heq. inversion Heq; subst. cbn [snd] in *.
  exists objs, w1, costumes, w2. repeat split; auto.
  - rewrite (proj1 Hs). apply Hc.
  - intros k Hk. apply Hs, Hc, Hk.
  - apply Hs.
  - apply Hs.
Qed.

Lemma buildStageTarget_inv (stage : StageConfig) (ws : Workspace) (G : VarTable)
    (w w' : World) (mt : ManifestTarget) :
  buildStageTarget stage ws G w = (Ok mt, w') ->
  exists objs w1 costumes w2,
    rekeyAll G w = (Ok objs, w1)
    /\ buildCostumes "backdrop" (s_backdrops stage) w1 = (Ok costumes, w2)
    /\ assetStep w1 w' /\ assetStep w2 w'
    /\ mt_isStage mt = true
    /\ mt_name mt = "Stage"
    /\ mt_variables mt = fst objs /\ mt_lists mt = snd objs
    /\ mt_costumes mt = costumes.
Proof.
  unfold buildStageTarget, bind, ret.
  destruct (rekeyAll G w) as [[objs|e] w1] eqn:Hr; [|discriminate].
  pose proof (buildCostumes_step "backdrop" (s_backdrops stage) w1) as Hc.
  destruct (buildCostumes "backdrop" (s_backdrops stage) w1)
    as [[costumes|e] w2] eqn:Hb; [|discriminate].
  pose proof (buildSounds_step (s_sounds stage) w2) as Hs.
  destruct (buildSounds (s_sounds stage) w2) as [[sounds|e] w3]; [|discriminate].
  intros Heq. inversion Heq; subst. cbn [snd] in *.
  exists objs, w1, costumes, w2. repeat split; auto.
  - rewrite (proj1 Hs). apply Hc.
  - intros k Hk. apply Hs, Hc, Hk.
  - apply Hs.
  - apply Hs.
Qed.

Lemma idsBefore_S (c : CompiledTarget) (cs : list CompiledTarget) (j : nat) :
  idsBefore (c :: cs) (S j) = size (c_variables c) + idsBefore cs j.
Proof. reflexivity. Qed.

(** The sprite at index [j] of the array is built at index [j], after one
    identifier has been drawn for every variable of the sprites before it;
    what its build stores stays in the archive. *)
Lemma buildSpriteTargets_nth (cs : list CompiledTarget) :
  forall (i0 : nat) (w w' : World) (ts : list ManifestTarget),
  buildSpriteTargets i0 cs w = (Ok ts, w') ->
  forall j c, nth_error cs j = Some c ->
  exists mt wj wj',
    nth_error ts j = Some mt
    /\ buildSpriteTarget (i0 + j) c wj = (Ok mt, wj')
    /\ uidCount wj = uidCount w + idsBefore cs j
    /\ (forall k, has (zipFiles wj') k = true -> has (zipFiles w') k = true).
Proof.
  induction cs as [|c0 r IH]; intros i0 w w' ts Hrun j c Hnth.
  - destruct j; discriminate.
  - cbn [buildSpriteTargets] in Hrun. unfold bind at 1 in Hrun.
    destruct (buildSpriteTarget i0 c0 w) as [[mt0|e] w1] eqn:H0; [|discriminate].
    unfold bind at 1 in Hrun.
    destruct (buildSpriteTargets (S i0) r w1) as [[ts'|e] w2] eqn:Hr; [|discriminate].
    inversion Hrun; subst ts w'. clear Hrun.
    assert (Huid : uidCount w1 = uidCount w + size (c_variables c0)).
    { destruct (buildSpriteTarget_inv _ _ _ _ _ H0)
        as (objs & wa & cos & wb & Hrk & _ & [Hu _] & _).
      destruct (rekeyAll_total (c_variables c0) w) as (o & Ht).
      rewrite Ht in Hrk. inversion Hrk; subst. rewrite Hu. reflexivity. }
    destruct j as [|j].
    + inversion Hnth; subst c0. exists mt0, w, w1.
      rewrite Nat.add_0_r. split; [reflexivity|]. split; [exact H0|]. split.
      * unfold idsBefore. simpl. lia.
      * intros k Hk.
        assert (Hg : forall ws i w a b, buildSpriteTargets i ws w = (a, b) ->
                      forall k, has (zipFiles w) k = true -> has (zipFiles b) k = true).
        { clear. induction ws as [|c1 ws IHw]; intros i w a b Hrun k Hk.
          - inversion Hrun; subst; auto.
          - cbn [buildSpriteTargets] in Hrun. unfold bind at 1 in Hrun.
            destruct (buildSpriteTarget i c1 w) as [[m|e] w1] eqn:H1.
            + assert (Hk1 : has (zipFiles w1) k = true).
              { destruct (buildSpriteTarget_inv _ _ _ _ _ H1)
                  as (objs & wa & cos & wb & Hrk & _ & [_ Hz] & _).
                destruct (rekeyAll_total (c_variables c1) w) as (o & Ht).
                rewrite Ht in Hrk. inversion Hrk; subst. apply Hz. exact Hk. }
              unfold bind at 1 in Hrun.
              destruct (buildSpriteTargets (S i) ws w1) as [[t2|e] w2] eqn:H2;
                inversion Hrun; subst; eapply IHw; eauto.
            + inversion Hrun; subst.
              unfold buildSpriteTarget, bind, ret in H1.
              destruct (rekeyAll_total (c_variables c1) w) as (o & Ht).
              rewrite Ht in H1.
              match type of H1 with
              | context [buildCostumes ?ty ?d ?w0] =>
                  pose proof (buildCostumes_step ty d w0) as Hc;
                  destruct (buildCostumes ty d w0) as [[cos|e'] wb]
              end.
              * match type of H1 with
                | context [buildSounds ?d ?w0] =>
                    pose proof (buildSounds_step d w0) as Hs;
                    destruct (buildSounds d w0) as [[ss|e'] wc]
                end; inversion H1; subst; apply Hs, Hc; exact Hk.
              * inversion H1; subst. apply Hc. exact Hk. }
        eapply Hg; eauto.
    + simpl in Hnth. destruct (IH _ _ _ _ Hr j c Hnth) as (mt & wj & wj' & Hn & Hb & Hu & Hz).
      exists mt, wj, wj'. rewrite Nat.add_succ_r.
      split; [exact Hn|]. split; [exact Hb|]. split; [|exact Hz].
      rewrite Hu, Huid, idsBefore_S. lia.
Qed.

End Targets.

Section ManifestTheorems.
Context {T : Types} {E : Externals}.
Import JsMap JsMapFacts.

Lemma buildManifest_inv (inputJson : Project)
    (compiled : Workspace * (VarTable * list CompiledTarget))
    (w w' : World) (pj : ProjectJson) :
  buildManifest inputJson compiled w = (Ok pj, w') ->
  exists st w1 ts,
    buildStageTarget (p_stage inputJson) (fst compiled) (fst (snd compiled)) w
      = (Ok st, w1)
    /\ buildSpriteTargets 0 (snd (snd compiled)) w1 = (Ok ts, w')
    /\ pj_targets pj = st :: ts.
Proof.
  unfold buildManifest, bind, ret.
  destruct (buildStageTarget _ _ _ w) as [[st|e] w1] eqn:H1; [|discriminate].
  destruct (buildSpriteTargets 0 _ w1) as [[ts|e] w2] eqn:H2; [|discriminate].
  intros Heq. inversion Heq; subst. exists st, w1, ts.
  split; [reflexivity|]. split; [exact H2 | reflexivity].
Qed.

(** The archive only grows while the sprite targets are built. *)
Lemma buildSpriteTargets_zip (cs : list CompiledTarget) :
  forall i w r w', buildSpriteTargets i cs w = (r, w') ->
  forall k, has (zipFiles w) k = true -> has (zipFiles w') k = true.
Proof.
  induction cs as [|c cs IH]; intros i w r w' Hrun k Hk.
  - inversion Hrun; subst; auto.
  - cbn [buildSpriteTargets] in Hrun. unfold bind at 1 in Hrun.
    assert (Hstep : has (zipFiles (snd (buildSpriteTarget i c w))) k = true).
    { unfold buildSpriteTarget, bind, ret.
      destruct (rekeyAll_total (c_variables c) w) as (o & Ht). rewrite Ht.
      match goal with
      | |- context [buildCostumes ?ty ?d ?w0] =>
          pose proof (buildCostumes_step ty d w0) as Hc;
          destruct (buildCostumes ty d w0) as [[cos|e'] wb]
      end; [|apply Hc; exact Hk].
      match goal with
      | |- context [buildSounds ?d ?w0] =>
          pose proof (buildSounds_step d w0) as Hs;
          destruct (buildSounds d w0) as [[ss|e'] wc]
      end; apply Hs, Hc; exact Hk. }
    destruct (buildSpriteTarget i c w) as [[m|e] w1]; cbn [snd] in Hstep.
    + unfold bind at 1 in Hrun.
      destruct (buildSpriteTargets (S i) cs w1) as [[t2|e] w2] eqn:H2;
        inversion Hrun; subst; eapply IH; eauto.
    + inversion Hrun; subst. exact Hstep.
Qed.

Lemma idsBefore_mono (cs : list CompiledTarget) :
  forall j1 j2 c1, j1 < j2 -> nth_error cs j1 = Some c1 ->
  idsBefore cs j1 + size (c_variables c1) <= idsBefore cs j2.
Proof.
  induction cs as [|c cs IH]; intros j1 j2 c1 Hlt Hnth.
  - destruct j1; discriminate.
  - destruct j2 as [|j2]; [lia|]. destruct j1 as [|j1].
    + inversion Hnth; subst c. rewrite idsBefore_S. unfold idsBefore at 1. simpl. lia.
    + simpl in Hnth. rewrite !idsBefore_S.
      specialize (IH j1 j2 c1 ltac:(lia) Hnth). lia.
Qed.

(** C7 (amended).  Suppose [uid()] never returns the same identifier twice.
    In the manifest every entry of the global table is in the stage target
    and every entry of a sprite's table is in that sprite's target, each
    under an identifier of its own: the variables of the stage get the
    first identifiers drawn, those of the sprite at index [j] the ones
    after those of the stage and of the sprites before it.  The entry keeps,
    as its display name, the export name of the variable when it has one and
    its name otherwise, and its default value.  Entries of two different
    targets never share an identifier. *)
Theorem rekey_manifest
    (uid_fresh : forall i j, uid_at i = uid_at j -> i = j)
    (inputJson : Project)
    (compiled : Workspace * (VarTable * list CompiledTarget))
    (w w' : World) (pj : ProjectJson) :
  buildManifest inputJson compiled w = (Ok pj, w') ->
  let G := fst (snd compiled) in
  let cs := snd (snd compiled) in
  let n := uidCount w in
  (exists st,
     nth_error (pj_targets pj) 0 = Some st
     /\ mt_isStage st = true
     /\ rekeyedAt n G st)
  /\ (forall j c,
        nth_error cs j = Some c ->
        exists mt,
          nth_error (pj_targets pj) (S j) = Some mt
          /\ mt_isStage mt = false
          /\ mt_name mt = t_name (c_target c)
          /\ rekeyedAt (n + size G + idsBefore cs j) (c_variables c) mt)
  /\ (forall j1 j2 c1 i1 i2,
        j1 < j2 -> nth_error cs j1 = Some c1 -> i1 < size (c_variables c1) ->
        uid_at (n + size G + idsBefore cs j1 + i1)
        <> uid_at (n + size G + idsBefore cs j2 + i2))
  /\ (forall j i0 i,
        i0 < size G ->
        uid_at (n + i0) <> uid_at (n + size G + idsBefore cs j + i)).
Proof.
  intros Hrun G cs n.
  destruct (buildManifest_inv _ _ _ _ _ Hrun) as (st & w1 & ts & Hst & Hts & Hpj).
  destruct (buildStageTarget_inv _ _ _ _ _ _ Hst)
    as (objs & wa & cos & wb & Hrk & _ & [Hu1 _] & _ & Hstage & _ & HV & HL & _).
  destruct (rekeyAll_spec uid_fresh G w) as (V & L & Hrk' & Hsz & Hent).
  fold G in Hrk. rewrite Hrk' in Hrk. inversion Hrk; subst objs wa. clear Hrk.
  cbn [uidCount] in Hu1. cbn [fst snd] in HV, HL.
  split; [|split; [|split]].
  - exists st. rewrite Hpj. split; [reflexivity|]. split; [exact Hstage|].
    unfold rekeyedAt. rewrite HV, HL. split; [exact Hsz | exact Hent].
  - intros j c Hnth.
    destruct (buildSpriteTargets_nth _ _ _ _ _ Hts j c Hnth)
      as (mt & wj & wj' & Hn & Hb & Hu & _).
    exists mt. rewrite Hpj. split; [exact Hn|].
    destruct (buildSpriteTarget_inv _ _ _ _ _ Hb)
      as (objs & wa & cos' & wb' & Hrk & _ & _ & _ & Hsp & Hname & HV' & HL' & _).
    destruct (rekeyAll_spec uid_fresh (c_variables c) wj) as (V' & L' & Hrk2 & Hsz' & Hent').
    rewrite Hrk2 in Hrk. inversion Hrk; subst objs wa. cbn [fst snd] in HV', HL'.
    split; [exact Hsp|]. split; [exact Hname|].
    unfold rekeyedAt. rewrite HV', HL'. split; [exact Hsz'|].
    fold cs in Hu. rewrite Hu, Hu1 in Hent'. exact Hent'.
  - intros j1 j2 c1 i1 i2 Hlt Hnth Hi Heq. apply uid_fresh in Heq.
    pose proof (idsBefore_mono cs j1 j2 c1 Hlt Hnth). lia.
  - intros j i0 i Hi Heq. apply uid_fresh in Heq. lia.
Qed.

End ManifestTheorems.

(** ** The manifest of the demonstration project *)

Lemma demo_uid_fresh : forall i j : nat, uid_at i = uid_at j -> i = j.
Proof.
  intros i j H. cbn in H. injection H as H. revert j H.
  induction i as [|i IH]; intros [|j] H; try discriminate; auto.
  injection H as H. f_equal. auto.
Qed.

(** The claim C7 as it is written fails where a variable has an export
    name: the entry shows the export name, and the name [speed] under which
    the table held the variable is not kept. *)
Lemma export_name_displayed :
  let speed := mkVariable "scalar" "speed" false (Some "velocity") in
  rekeyAll [("speed", (speed, JNull))] Demo.world0
  = (Ok ([(uid_at 0, ("velocity", JPrim (PNum 0)))], []),
     mkWorld [] [] [] [] 1)
  /\ "velocity" <> v_name speed.
Proof. split; [vm_compute; reflexivity | discriminate]. Qed.

(** Sprites [A] and [B] each declare a local variable [counter]: each
    sprite target has its own entry, under two different identifiers. *)
Lemma rekey_manifest_witness :
  exists pj w',
    buildManifest Demo.project Demo.compiled Demo.world1 = (Ok pj, w')
    /\ exists mtA mtB idA idB,
         nth_error (pj_targets pj) 1 = Some mtA
         /\ nth_error (pj_targets pj) 2 = Some mtB
         /\ mt_isStage mtA = false /\ mt_isStage mtB = false
         /\ JsMap.get (mt_variables mtA) idA = Some ("counter", JPrim (PNum 0))
         /\ JsMap.get (mt_variables mtB) idB = Some ("counter", JPrim (PNum 1))
         /\ idA <> idB.
Proof.
  destruct (buildManifest Demo.project Demo.compiled Demo.world1)
    as [[pj|e] w'] eqn:Hrun; [|vm_compute in Hrun; discriminate Hrun].
  exists pj, w'. split; [reflexivity|].
  pose proof (rekey_manifest (E := Demo.externals) demo_uid_fresh _ _ _ _ _ Hrun) as H.
  cbv zeta in H. destruct H as (_ & Hsp & Hne & _).
  destruct (Hsp 0 _ eq_refl) as (mtA & HnA & HsA & _ & _ & HeA).
  destruct (Hsp 1 _ eq_refl) as (mtB & HnB & HsB & _ & _ & HeB).
  exists mtA, mtB. eexists _, _.
  split; [exact HnA|]. split; [exact HnB|].
  split; [exact HsA|]. split; [exact HsB|].
  split; [exact (HeA 0 _ _ eq_refl)|].
  split; [exact (HeB 0 _ _ eq_refl)|].
  eapply (Hne 0 1 _ 0 0); [lia | reflexivity | vm_compute; lia].
Defined.

(** ** The decompiler: assets missing from the archive *)

Section ExtractAsset.
Context {T : DTypes} {E : DExternals}.
Variable zip : JsMap.t ZipObject.
Variable assetsDir : string.

Lemma zip_get_missing (name : string) :
  JsMap.get zip name = None -> zip_get zip name = None.
Proof. unfold zip_get. intros H. now rewrite H. Qed.

Lemma extractCostume_missing (prefix : string) (acc : list AssetConfig)
    (a : Sb3Asset) (w : DWorld) :
  JsMap.get zip (sa_md5ext a) = None ->
  extractCostume zip assetsDir prefix acc a w = (Ok acc, w).
Proof.
  intros H. unfold extractCostume, extractAsset, bind.
  rewrite (zip_get_missing _ H). reflexivity.
Qed.

Lemma extractSound_missing (prefix : string) (acc : list AssetConfig)
    (a : Sb3Asset) (w : DWorld) :
  JsMap.get zip (sa_md5ext a) = None ->
  extractSound zip assetsDir prefix acc a w = (Ok acc, w).
Proof.
  intros H. unfold extractSound, extractAsset, bind.
  rewrite (zip_get_missing _ H). reflexivity.
Qed.

(** C9.  A costume or sound whose [md5ext] names no entry of the archive:
    [extractAsset] returns [null] and leaves the world as it is (nothing is
    printed, nothing is written); the extraction loops give the same
    configuration and the same world as they give without that asset, so it
    is left out and the assets after it are processed as usual. *)
Theorem missing_asset_omitted (a : Sb3Asset) :
  JsMap.get zip (sa_md5ext a) = None ->
  (forall newName w,
     extractAsset zip assetsDir (sa_md5ext a) newName w = (Ok None, w))
  /\ (forall prefix pre post w,
        extractCostumes zip assetsDir prefix (pre ++ a :: post) w
        = extractCostumes zip assetsDir prefix (pre ++ post) w)
  /\ (forall prefix pre post w,
        extractSounds zip assetsDir prefix (pre ++ a :: post) w
        = extractSounds zip assetsDir prefix (pre ++ post) w).
Proof.
  intros H. split; [|split].
  - intros newName w. unfold extractAsset. now rewrite (zip_get_missing _ H).
  - intros prefix pre post w. unfold extractCostumes. rewrite !foldM_app.
    destruct (foldM _ pre [] w) as [[acc|e] w1]; auto.
    cbn [foldM]. unfold bind at 1. now rewrite extractCostume_missing.
  - intros prefix pre post w. unfold extractSounds. rewrite !foldM_app.
    destruct (foldM _ pre [] w) as [[acc|e] w1]; auto.
    cbn [foldM]. unfold bind at 1. now rewrite extractSound_missing.
Qed.

End ExtractAsset.

Lemma missing_asset_omitted_witness :
  let zip := [("y.svg", mkZipObject false "YY")] in
  let x := mkSb3Asset "x.svg" "c1" None None in
  let y := mkSb3Asset "y.svg" "c2" None None in
  JsMap.get zip (sa_md5ext x) = None
  /\ extractAsset zip "out/assets" "x.svg" "costume_A_c1" Demo.dworld0
     = (Ok None, Demo.dworld0)
  /\ extractCostumes zip "out/assets" "costume_A_" [x; y] Demo.dworld0
     = (Ok [mkAssetConfig "c2" "assets/y.svg" (Some 0%Z) (Some 0%Z)],
        mkDWorld [] [("out/assets/y.svg", "YY")] [("y.svg", "y.svg")] 0).
Proof.
  intros zip x y. split; [reflexivity|].
  destruct (missing_asset_omitted (E := Demo.dexternals) zip "out/assets" x eq_refl)
    as (Ha & Hc & _).
  split; [apply Ha|].
  change [x; y] with ([] ++ x :: [y]).
  rewrite (Hc "costume_A_" [] [y] Demo.dworld0). reflexivity.
Defined.

(** ** The decompiler: units that fail *)

Section Units.
Context {T : DTypes} {E : DExternals}.

Lemma decompileFunctions_cons (f : DFunction) (fs : list DFunction)
    (acc : list Node) (w : DWorld) :
  decompileFunctions (f :: fs) acc w
  = match decompileFunction f (d_state w) with
    | (Ok n, s) => decompileFunctions fs (acc ++ [Decompiled n]) (stepped w s)
    | (Throw e, s) =>
        decompileFunctions fs acc (warned w (WarnFunction (proccode f) e) s)
    end.
Proof.
  unfold decompileFunctions. cbn [foldM]. unfold bind at 1.
  unfold try_catch, bind, call, d_log, ret.
  destruct (decompileFunction f (d_state w)) as [[n|e] s]; reflexivity.
Qed.

Lemma decompileScripts_cons (sc : DScript) (scs : list DScript)
    (acc : list Node) (w : DWorld) :
  decompileScripts (sc :: scs) acc w
  = match decompileScript sc (d_state w) with
    | (Ok ns, s) => decompileScripts scs (acc ++ map Decompiled ns) (stepped w s)
    | (Throw e, s) => decompileScripts scs acc (warned w (WarnScript e) s)
    end.
Proof.
  unfold decompileScripts. cbn [foldM]. unfold bind at 1.
  unfold try_catch, bind, call, d_log, ret.
  destruct (decompileScript sc (d_state w)) as [[n|e] s]; reflexivity.
Qed.

(** The two guarded loops never throw, and only add nodes. *)
Lemma decompileFunctions_total (fs : list DFunction) :
  forall acc w, exists nodes w',
    decompileFunctions fs acc w = (Ok (acc ++ nodes), w').
Proof.
  induction fs as [|f fs IH]; intros acc w.
  - exists [], w. now rewrite app_nil_r.
  - rewrite decompileFunctions_cons.
    destruct (decompileFunction f (d_state w)) as [[n|e] s].
    + destruct (IH (acc ++ [Decompiled n]) (stepped w s)) as (nodes & w' & H).
      exists (Decompiled n :: nodes), w'. rewrite H. now rewrite <- app_assoc.
    + apply IH.
Qed.

Lemma decompileScripts_total (scs : list DScript) :
  forall acc w, exists nodes w',
    decompileScripts scs acc w = (Ok (acc ++ nodes), w').
Proof.
  induction scs as [|sc scs IH]; intros acc w.
  - exists [], w. now rewrite app_nil_r.
  - rewrite decompileScripts_cons.
    destruct (decompileScript sc (d_state w)) as [[ns|e] s].
    + destruct (IH (acc ++ map Decompiled ns) (stepped w s)) as (nodes & w' & H).
      exists (map Decompiled ns ++ nodes), w'. rewrite H. now rewrite <- app_assoc.
    + apply IH.
Qed.

Lemma decompileFunctions_app (l1 l2 : list DFunction) (acc : list Node) (w : DWorld) :
  decompileFunctions (l1 ++ l2) acc w
  = match decompileFunctions l1 acc w with
    | (Ok acc1, w1) => decompileFunctions l2 acc1 w1
    | (Throw e, w1) => (Throw e, w1)
    end.
Proof. unfold decompileFunctions. apply foldM_app. Qed.

Lemma decompileScripts_app (l1 l2 : list DScript) (acc : list Node) (w : DWorld) :
  decompileScripts (l1 ++ l2) acc w
  = match decompileScripts l1 acc w with
    | (Ok acc1, w1) => decompileScripts l2 acc1 w1
    | (Throw e, w1) => (Throw e, w1)
    end.
Proof. unfold decompileScripts. apply foldM_app. Qed.

(** C8.  In the loops over the functions and over the scripts of a target
    (the stage and the sprites use the same two loops), a unit whose
    decompilation throws adds no node and one warning, and the loop goes on
    with the units after it from the nodes gathered so far; a unit that
    decompiles adds its nodes.  Neither loop ever throws, so the nodes of
    every unit that decompiled reach the printing step: when the steps
    outside the loops succeed, [decompileTarget] returns the source printed
    from them, whatever the units did. *)
Theorem failed_unit_skipped :
  (forall pre f post acc w acc1 w1 e s,
     decompileFunctions pre acc w = (Ok acc1, w1) ->
     decompileFunction f (d_state w1) = (Throw e, s) ->
     decompileFunctions (pre ++ f :: post) acc w
     = decompileFunctions post acc1 (warned w1 (WarnFunction (proccode f) e) s))
  /\ (forall pre f post acc w acc1 w1 n s,
        decompileFunctions pre acc w = (Ok acc1, w1) ->
        decompileFunction f (d_state w1) = (Ok n, s) ->
        decompileFunctions (pre ++ f :: post) acc w
        = decompileFunctions post (acc1 ++ [Decompiled n]) (stepped w1 s))
  /\ (forall pre sc post acc w acc1 w1 e s,
        decompileScripts pre acc w = (Ok acc1, w1) ->
        decompileScript sc (d_state w1) = (Throw e, s) ->
        decompileScripts (pre ++ sc :: post) acc w
        = decompileScripts post acc1 (warned w1 (WarnScript e) s))
  /\ (forall pre sc post acc w acc1 w1 ns s,
        decompileScripts pre acc w = (Ok acc1, w1) ->
        decompileScript sc (d_state w1) = (Ok ns, s) ->
        decompileScripts (pre ++ sc :: post) acc w
        = decompileScripts post (acc1 ++ map Decompiled ns) (stepped w1 s))
  /\ (forall fs acc w, exists nodes w',
        decompileFunctions fs acc w = (Ok (acc ++ nodes), w'))
  /\ (forall scs acc w, exists nodes w',
        decompileScripts scs acc w = (Ok (acc ++ nodes), w'))
  /\ (forall target modules w scripts functions s1 vnodes w2,
        deserializeAllScripts (st_blocks target) = Ok scripts ->
        deserializeAllFunctions (st_blocks target) = Ok functions ->
        createDecompiler modules (map fst (localDeclarations target)) functions
                         (d_state w) = (Ok tt, s1) ->
        decompileVariables (localDeclarations target) []
          (warned w (InfoFound (List.length scripts) (List.length functions)) s1)
          = (Ok vnodes, w2) ->
        exists fnodes w3 snodes w4,
          decompileFunctions functions vnodes w2 = (Ok (vnodes ++ fnodes), w3)
          /\ decompileScripts scripts (vnodes ++ fnodes) w3
             = (Ok ((vnodes ++ fnodes) ++ snodes), w4)
          /\ forall source,
               toSource (moduleNodesOf (generatedModules (d_state w4))
                         ++ (vnodes ++ fnodes) ++ snodes) = Ok source ->
               moduleNodesOf (generatedModules (d_state w4))
                 ++ (vnodes ++ fnodes) ++ snodes <> [] ->
               decompileTarget target modules w = (Ok (Some source), w4))
  /\ (forall stageTarget modules decls w scripts functions s1 vnodes w2,
        let workspace := Some (opt_or (st_blocks stageTarget) JsMap.empty) in
        deserializeAllScripts workspace = Ok scripts ->
        deserializeAllFunctions workspace = Ok functions ->
        createDecompiler modules (map fst decls) functions (d_state w)
          = (Ok tt, s1) ->
        decompileVariables decls []
          (warned w (InfoFound (List.length scripts) (List.length functions)) s1)
          = (Ok vnodes, w2) ->
        exists fnodes w3 snodes w4,
          decompileFunctions functions vnodes w2 = (Ok (vnodes ++ fnodes), w3)
          /\ decompileScripts scripts (vnodes ++ fnodes) w3
             = (Ok ((vnodes ++ fnodes) ++ snodes), w4)
          /\ forall source,
               toSource (moduleNodesOf (generatedModules (d_state w4))
                         ++ (vnodes ++ fnodes) ++ snodes) = Ok source ->
               decompileStage stageTarget modules decls w = (Ok (Some source), w4)).
Proof.
  repeat split.
  - intros pre f post acc w acc1 w1 e s Hpre Hf.
    rewrite decompileFunctions_app, Hpre, decompileFunctions_cons, Hf. reflexivity.
  - intros pre f post acc w acc1 w1 n s Hpre Hf.
    rewrite decompileFunctions_app, Hpre, decompileFunctions_cons, Hf. reflexivity.
  - intros pre sc post acc w acc1 w1 e s Hpre Hs.
    rewrite decompileScripts_app, Hpre, decompileScripts_cons, Hs. reflexivity.
  - intros pre sc post acc w acc1 w1 ns s Hpre Hs.
    rewrite decompileScripts_app, Hpre, decompileScripts_cons, Hs. reflexivity.
  - intros fs. apply decompileFunctions_total.
  - intros scs. apply decompileScripts_total.
  - intros target modules w scripts functions s1 vnodes w2 Hs Hf Hc Hv.
    destruct (decompileFunctions_total functions vnodes w2) as (fnodes & w3 & H3).
    destruct (decompileScripts_total scripts (vnodes ++ fnodes) w3) as (snodes & w4 & H4).
    exists fnodes, w3, snodes, w4. split; [exact H3|]. split; [exact H4|].
    intros source Hsrc Hne.
    unfold decompileTarget, try_catch. unfold bind at 1.
    assert (Hn : targetNodes target modules w
                 = (Ok (moduleNodesOf (generatedModules (d_state w4)),
                        (vnodes ++ fnodes) ++ snodes), w4)).
    { unfold targetNodes. unfold bind at 1, lift at 1. rewrite Hs.
      unfold bind at 1, lift at 1. rewrite Hf.
      unfold bind at 1, d_log at 1. unfold bind at 1, call at 1. cbn [d_state].
      rewrite Hc. unfold bind at 1. unfold warned in Hv. cbn [d_console d_writes assetMapping].
      rewrite Hv. unfold bind at 1. rewrite H3. unfold bind at 1. rewrite H4.
      reflexivity. }
    rewrite Hn. cbn [fst snd].
    destruct (moduleNodesOf (generatedModules (d_state w4))) as [|m ms] eqn:Hm;
      destruct ((vnodes ++ fnodes) ++ snodes) as [|a l] eqn:Ha;
      try (exfalso; apply Hne; reflexivity);
      unfold bind, lift, ret; rewrite Hsrc; reflexivity.
  - intros stageTarget modules decls w scripts functions s1 vnodes w2 workspace
           Hs Hf Hc Hv.
    destruct (decompileFunctions_total functions vnodes w2) as (fnodes & w3 & H3).
    destruct (decompileScripts_total scripts (vnodes ++ fnodes) w3) as (snodes & w4 & H4).
    exists fnodes, w3, snodes, w4. split; [exact H3|]. split; [exact H4|].
    intros source Hsrc.
    unfold decompileStage, try_catch. unfold bind at 1.
    assert (Hn : stageNodes stageTarget modules decls w
                 = (Ok (moduleNodesOf (generatedModules (d_state w4)),
                        (vnodes ++ fnodes) ++ snodes), w4)).
    { unfold stageNodes. fold workspace. unfold bind at 1, lift at 1. rewrite Hs.
      unfold bind at 1, lift at 1. rewrite Hf.
      unfold bind at 1, d_log at 1. unfold bind at 1, call at 1. cbn [d_state].
      rewrite Hc. unfold bind at 1. unfold warned in Hv. cbn [d_console d_writes assetMapping].
      rewrite Hv. unfold bind at 1. rewrite H3. unfold bind at 1. rewrite H4.
      reflexivity. }
    rewrite Hn. cbn [fst snd]. unfold bind, lift, ret. rewrite Hsrc. reflexivity.
Qed.

End Units.

Lemma failed_unit_skipped_witness :
  exists w4,
    decompileFunction "!f2" 3 = (Throw "bad function", 4)
    /\ decompileScript "!s2" 7 = (Throw "bad script", 8)
    /\ decompileTarget Demo.sb3Sprite tt Demo.dworld0
       = (Ok (Some "let score;let counter;let score;fn f1;fn f3;on s1"), w4)
    /\ d_console w4
       = [InfoFound 2 3; WarnFunction "!f2" "bad function"; WarnScript "bad script"].
Proof.
  destruct (failed_unit_skipped (E := Demo.dexternals))
    as (_ & _ & _ & _ & _ & _ & Htarget & _).
  destruct (Htarget Demo.sb3Sprite tt Demo.dworld0 _ _ _ _ _
              eq_refl eq_refl eq_refl eq_refl)
    as (fnodes & w3 & snodes & w4 & H3 & H4 & Hsrc).
  vm_compute in H3. injection H3 as Hf Hw3. subst fnodes w3.
  vm_compute in H4. injection H4 as Hs Hw4. subst snodes w4.
  eexists. split; [reflexivity|]. split; [reflexivity|].
  split; [apply Hsrc; [reflexivity | discriminate] | reflexivity].
Defined.

(** ** The decompiler: what is printed on the console *)

Section Keeps.
Context {W : Type} (R : W -> W -> Prop).
Hypothesis R_refl : forall w, R w w.
Hypothesis R_trans : forall w1 w2 w3, R w1 w2 -> R w2 w3 -> R w1 w3.

Lemma keeps_ret {A : Type} (a : A) : keeps R (ret a).
Proof. intros w. apply R_refl. Qed.

Lemma keeps_throw {A : Type} (e : Error) : keeps R (@throw W A e).
Proof. intros w. apply R_refl. Qed.

Lemma keeps_lift {A : Type} (o : Outcome A) : keeps R (lift o).
Proof. intros w. apply R_refl. Qed.

Lemma keeps_bind {A B : Type} (m : St W A) (f : A -> St W B) :
  keeps R m -> (forall a, keeps R (f a)) -> keeps R (bind m f).
Proof.
  intros Hm Hf w. unfold bind. specialize (Hm w).
  destruct (m w) as [[a|e] w1]; simpl in *; auto.
  eapply R_trans; [exact Hm | apply Hf].
Qed.

Lemma keeps_try_catch {A : Type} (m : St W A) (h : Error -> St W A) :
  keeps R m -> (forall e, keeps R (h e)) -> keeps R (try_catch m h).
Proof.
  intros Hm Hh w. unfold try_catch. specialize (Hm w).
  destruct (m w) as [[a|e] w1]; simpl in *; auto.
  eapply R_trans; [exact Hm | apply Hh].
Qed.

Lemma keeps_foldM {A S : Type} (f : S -> A -> St W S) (l : list A) :
  (forall s a, keeps R (f s a)) -> forall s, keeps R (foldM f l s).
Proof.
  intros Hf. induction l as [|a r IH]; intros s; cbn [foldM].
  - apply keeps_ret.
  - apply keeps_bind; auto.
Qed.

End Keeps.

Section Console.
Context {T : DTypes} {E : DExternals}.

Lemma prints_refl P w : prints P w w.
Proof. exists []. now rewrite app_nil_r. Qed.

Lemma prints_trans P w1 w2 w3 : prints P w1 w2 -> prints P w2 w3 -> prints P w1 w3.
Proof.
  intros (l1 & H1 & F1) (l2 & H2 & F2). exists (l1 ++ l2).
  rewrite H2, H1, app_assoc. split; auto. apply Forall_app. auto.
Qed.

Lemma keeps_d_log P (l : DLog) : P l -> keeps (prints P) (d_log l).
Proof. intros H w. exists [l]. simpl. auto. Qed.

Lemma keeps_call P {A : Type} (f : DState -> Outcome A * DState) :
  keeps (prints P) (call f).
Proof.
  intros w. unfold call. destruct (f (d_state w)) as [r s].
  exists []. simpl. now rewrite app_nil_r.
Qed.

Lemma keeps_generated P : keeps (prints P) generatedModuleNodes.
Proof. intros w. apply prints_refl. Qed.

(** The sprite decompiler of [src/bin/decompiler.js] never prints a
    name-conflict warning. *)
Lemma decompileTarget_no_conflict (target : Sb3Target) (modules : DModules) :
  keeps (prints notConflict) (decompileTarget target modules).
Proof.
  pose proof (prints_refl notConflict) as Hr.
  pose proof (prints_trans notConflict) as Ht.
  unfold decompileTarget, targetNodes, decompileVariables, decompileFunctions,
    decompileScripts.
  repeat first
    [ apply keeps_try_catch; auto; intros
    | apply keeps_bind; auto; intros
    | apply keeps_foldM; auto; intros
    | apply keeps_ret; auto
    | apply keeps_lift; auto
    | apply keeps_call
    | apply keeps_generated
    | apply keeps_d_log; intros name; discriminate
    | match goal with
      | |- keeps _ (match ?x with _ => _ end) => destruct x
      end ].
Qed.

End Console.

(** ** The decompiler: local declarations and the global names *)

Section LocalDeclarations.
Context {T : DTypes} {E : DExternals}.
Import JsMap JsMapFacts.

(** The unguarded loop over the declarations: when it returns, every
    declaration went through [decompileVariable] and its node was added, in
    order. *)
Lemma decompileVariables_nodes (decls : list (FuseVariable * JsValue)) :
  forall acc w nodes w',
  decompileVariables decls acc w = (Ok nodes, w') ->
  exists new,
    nodes = acc ++ new
    /\ Forall2 (fun vd n =>
                  exists s s' dn,
                    decompileVariable (fst vd) (snd vd) s = (Ok dn, s')
                    /\ n = Decompiled dn)
               decls new.
Proof.
  unfold decompileVariables.
  induction decls as [|[v d] r IH]; intros acc w nodes w' Hrun.
  - inversion Hrun; subst. exists []. now rewrite app_nil_r.
  - cbn [foldM] in Hrun. unfold bind at 1 in Hrun.
    unfold bind at 1, call at 1, ret at 1 in Hrun. cbn [fst snd] in Hrun.
    destruct (decompileVariable v d (d_state w)) as [[dn|e] s] eqn:Hd;
      [|discriminate].
    destruct (IH _ _ _ _ Hrun) as (new & Hn & Hf).
    exists (Decompiled dn :: new). split.
    + rewrite Hn, <- app_assoc. reflexivity.
    + constructor; auto. exists (d_state w), s, dn. auto.
Qed.

(** The earlier driver: the loop over the scalars of a sprite, from any
    scope [lv].  It always returns.  The scope only grows; a name that is in
    [lv] is reported and gets no declaration; a name that is not gets one;
    nothing else is printed. *)
Lemma foldM_addScalar (l : list (string * JsValue)) :
  forall (lv : JsMap.t FuseVariable) (decls : list (FuseVariable * JsValue))
         (w : DWorld),
  exists lv' new ls,
    foldM Legacy.addScalar l (lv, decls) w
    = (Ok (lv', decls ++ new),
       mkDWorld (d_console w ++ ls) (d_writes w) (assetMapping w) (d_state w))
    /\ (forall k, has lv k = true -> has lv' k = true)
    /\ (forall v d, In (v, d) new ->
        has lv (v_name v) = false
        /\ v = mkVariable "variable" (v_name v) false None
        /\ In (v_name v, d) l)
    /\ (forall name value, In (name, value) l -> has lv name = true ->
        In (WarnConflict name) ls)
    /\ (forall name value, In (name, value) l -> has lv name = false ->
        exists d, In (mkVariable "variable" name false None, d) new)
    /\ (forall x, In x ls -> exists name, x = WarnConflict name /\ In name (map fst l)).
Proof.
  induction l as [|[name value] r IH]; intros lv decls w.
  - exists lv, [], []. simpl. rewrite !app_nil_r. destruct w; simpl.
    repeat split; auto; try tauto.
  - cbn [foldM]. unfold bind at 1. unfold Legacy.addScalar at 1.
    cbn [fst snd]. destruct (has lv name) eqn:Hh.
    + unfold bind, d_log, ret. cbn [fst snd].
      destruct (IH lv decls
                  (mkDWorld (d_console w ++ [WarnConflict name]) (d_writes w)
                            (assetMapping w) (d_state w)))
        as (lv' & new & ls & Hrun & Hmono & Hnew & Hwarn & Hdecl & Hls).
      exists lv', new, (WarnConflict name :: ls).
      cbn [d_console d_writes assetMapping d_state] in Hrun.
      rewrite Hrun, <- app_assoc. split; [reflexivity|].
      split; [exact Hmono|]. split.
      { intros v d Hin. destruct (Hnew v d Hin) as (H1 & H2 & H3).
        repeat split; auto. right. exact H3. }
      split.
      { intros n v [Heq|Hin] Hn.
        - inversion Heq; subst. left. reflexivity.
        - right. eapply Hwarn; eauto. }
      split.
      { intros n v [Heq|Hin] Hn.
        - inversion Heq; subst. congruence.
        - eapply Hdecl; eauto. }
      { intros x [Hx|Hx].
        - exists name. split; auto. simpl. auto.
        - destruct (Hls x Hx) as (n & H1 & H2). exists n. split; auto. simpl. auto. }
    + unfold ret. cbn [fst snd].
      set (variable := mkVariable "variable" name false None).
      destruct (IH (set lv name variable) (decls ++ [(variable, value)]) w)
        as (lv' & new & ls & Hrun & Hmono & Hnew & Hwarn & Hdecl & Hls).
      exists lv', ((variable, value) :: new), ls.
      rewrite Hrun, <- app_assoc. split; [reflexivity|].
      split. { intros k Hk. apply Hmono. now apply has_set_mono. }
      split.
      { intros v d [Heq|Hin].
        - inversion Heq; subst. simpl. repeat split; auto.
        - destruct (Hnew v d Hin) as (H1 & H2 & H3). repeat split; auto.
          + rewrite has_set in H1. apply orb_false_iff in H1. tauto.
          + right. exact H3. }
      split.
      { intros n v [Heq|Hin] Hn.
        - inversion Heq; subst. congruence.
        - eapply Hwarn; eauto. now apply has_set_mono. }
      split.
      { intros n v [Heq|Hin] Hn.
        - inversion Heq; subst. eexists. left. reflexivity.
        - destruct (String.eqb name n) eqn:Hnn.
          + apply String.eqb_eq in Hnn. subst n. eexists. left. reflexivity.
          + destruct (Hdecl n v Hin) as (d & Hd).
            { rewrite has_set, Hnn, Hn. reflexivity. }
            exists d. right. exact Hd. }
      { intros x Hx. destruct (Hls x Hx) as (n & H1 & H2).
        exists n. split; auto. simpl. auto. }
Qed.

(** The earlier driver: the loop over the lists tests nothing; every list
    gets a declaration and nothing is printed. *)
Lemma foldM_addList (l : list (string * JsValue)) :
  forall (lv : JsMap.t FuseVariable) (decls : list (FuseVariable * JsValue))
         (w : DWorld),
  exists lv',
    foldM Legacy.addList l (lv, decls) w
    = (Ok (lv',
           decls ++ map (fun nv => (mkVariable "list" (fst nv) false None, snd nv)) l),
       w).
Proof.
  induction l as [|[name value] r IH]; intros lv decls w.
  - exists lv. simpl. now rewrite app_nil_r.
  - cbn [foldM]. unfold bind at 1. unfold Legacy.addList at 1, ret at 1.
    cbn [fst snd].
    destruct (IH (set lv name (mkVariable "list" name false None))
                 (decls ++ [(mkVariable "list" name false None, value)]) w)
      as (lv' & Hrun).
    exists lv'. rewrite Hrun, <- app_assoc. reflexivity.
Qed.

Lemma has_copy {V : Type} (m : JsMap.t V) (k : string) :
  has (of_entries (entries m)) k = has m k.
Proof. rewrite has_of_entries. symmetry. apply has_entries. Qed.

End LocalDeclarations.

Section LocalDeclarationsTheorem.
Context {T : DTypes} {E : DExternals}.
Import JsMap JsMapFacts.

Lemma targetNodes_declares (target : Sb3Target) (modules : DModules)
    (w w' : DWorld) (mods ast : list Node) :
  targetNodes target modules w = (Ok (mods, ast), w') ->
  exists vnodes rest,
    ast = vnodes ++ rest
    /\ Forall2 (fun vd n =>
                  exists s s' dn,
                    decompileVariable (fst vd) (snd vd) s = (Ok dn, s')
                    /\ n = Decompiled dn)
               (localDeclarations target) vnodes.
Proof.
  unfold targetNodes. unfold bind at 1, lift at 1.
  destruct (deserializeAllScripts (st_blocks target)) as [scripts|e]; [|discriminate].
  unfold bind at 1, lift at 1.
  destruct (deserializeAllFunctions (st_blocks target)) as [functions|e]; [|discriminate].
  unfold bind at 1, d_log at 1. unfold bind at 1, call at 1. cbn [d_state].
  destruct (createDecompiler _ _ _ _) as [[[]|e] s1]; [|discriminate].
  unfold bind at 1.
  match goal with
  | |- context [decompileVariables ?d ?a ?w0] =>
      destruct (decompileVariables d a w0) as [[vnodes|e] w2] eqn:Hv; [|discriminate]
  end.
  destruct (decompileVariables_nodes _ _ _ _ _ Hv) as (new & Hn & Hf).
  simpl in Hn. subst vnodes.
  unfold bind at 1.
  destruct (decompileFunctions_total functions new w2) as (fnodes & w3 & H3).
  rewrite H3. unfold bind at 1.
  destruct (decompileScripts_total scripts (new ++ fnodes) w3) as (snodes & w4 & H4).
  rewrite H4. unfold bind, generatedModuleNodes, ret.
  intros Heq. inversion Heq; subst.
  exists new, (fnodes ++ snodes). split; [now rewrite app_assoc | exact Hf].
Qed.

(** C1 (amended).  The sprite decompiler of [src/bin/decompiler.js] is not
    given the global names: it declares every scalar and every list of the
    sprite's tables, in table order; when it reaches the printing step the
    nodes start with one declaration per entry; and it never prints a
    name-conflict warning.  The sprite decompiler of the earlier driver,
    whose scope starts as a copy of the global variables, always gets
    through its scalars: a scalar whose name is a global name is reported by
    a name-conflict warning and gets no declaration, and a scalar whose name
    is not a global name gets one. *)
Theorem local_declarations :
  (forall target,
     localDeclarations target
     = map (fun nv => (mkVariable "scalar" (fst nv) false None, snd nv))
           (values (opt_or (st_variables target) empty))
       ++ map (fun nv => (mkVariable "list" (fst nv) false None, snd nv))
              (values (opt_or (st_lists target) empty)))
  /\ (forall target modules w w' mods ast,
        targetNodes target modules w = (Ok (mods, ast), w') ->
        exists vnodes rest,
          ast = vnodes ++ rest
          /\ Forall2 (fun vd n =>
                        exists s s' dn,
                          decompileVariable (fst vd) (snd vd) s = (Ok dn, s')
                          /\ n = Decompiled dn)
                     (localDeclarations target) vnodes)
  /\ (forall target modules w,
        prints notConflict w (snd (decompileTarget target modules w)))
  /\ (forall target globalVariables w,
        exists localVars decls ls,
          Legacy.collectLocals target globalVariables w
          = (Ok (localVars, decls),
             mkDWorld (d_console w ++ ls) (d_writes w) (assetMapping w) (d_state w))
          /\ (forall name value,
                In (name, value) (values (opt_or (st_variables target) empty)) ->
                has globalVariables name = true ->
                In (WarnConflict name) ls
                /\ forall d, ~ In (mkVariable "variable" name false None, d) decls)
          /\ (forall name value,
                In (name, value) (values (opt_or (st_variables target) empty)) ->
                has globalVariables name = false ->
                exists d, In (mkVariable "variable" name false None, d) decls)).
Proof.
  split; [reflexivity|]. split; [apply targetNodes_declares|].
  split; [intros; apply decompileTarget_no_conflict|].
  intros target G w. unfold Legacy.collectLocals. unfold bind.
  destruct (foldM_addScalar (values (opt_or (st_variables target) empty))
              (of_entries (entries G)) [] w)
    as (lv1 & new & ls & Hrun & _ & Hnew & Hwarn & Hdecl & _).
  rewrite Hrun. cbn [app].
  destruct (foldM_addList (values (opt_or (st_lists target) empty)) lv1 new
              (mkDWorld (d_console w ++ ls) (d_writes w) (assetMapping w) (d_state w)))
    as (lv2 & Hrun2).
  rewrite Hrun2. eexists _, _, ls. split; [reflexivity|]. split.
  - intros name value Hin Hg. rewrite <- has_copy in Hg. split.
    + eapply Hwarn; eauto.
    + intros d Hd. apply in_app_or in Hd. destruct Hd as [Hd|Hd].
      * destruct (Hnew _ _ Hd) as (Hf & _). simpl in Hf. congruence.
      * apply in_map_iff in Hd. destruct Hd as (nv & Heq & _). discriminate Heq.
  - intros name value Hin Hg. rewrite <- has_copy in Hg.
    destruct (Hdecl name value Hin Hg) as (d & Hd).
    exists d. apply in_or_app. left. exact Hd.
Qed.

End LocalDeclarationsTheorem.

(** The claim C1 as it is written fails.  The stage holds the global
    [score]; the sprite has a scalar and a list called [score].  The sprite
    decompiler declares both ([let score] twice in the source it returns)
    and prints no name-conflict warning.  (The earlier decompiler reports
    and skips the scalar, and still declares the list.) *)
Lemma conflicting_locals_declared :
  In "score"
     (map (fun vd => v_name (fst vd))
          (declarationsOf "scalar" true (st_variables Demo.sb3Stage)
           ++ declarationsOf "list" true (st_lists Demo.sb3Stage)))
  /\ decompileTarget Demo.sb3Sprite tt Demo.dworld0
     = (Ok (Some "let score;let counter;let score;fn f1;fn f3;on s1"),
        mkDWorld [InfoFound 2 3; WarnFunction "!f2" "bad function";
                  WarnScript "bad script"]
                 [] [] 9)
  /\ Legacy.decompileTarget
       (fun o _ => deserializeAllScripts o) (fun o _ => deserializeAllFunctions o)
       (fun _ m f s => createDecompiler m [] f s)
       Demo.sb3Sprite tt (Legacy.globalVariablesOf Demo.sb3Stage) Demo.dworld0
     = (Ok (Some "let counter;let score;fn f1;fn f3;on s1"),
        mkDWorld [WarnConflict "score"; InfoFound 2 3;
                  WarnFunction "!f2" "bad function"; WarnScript "bad script"]
                 [] [] 8).
Proof. vm_compute. repeat split; auto. Qed.

Lemma local_declarations_witness :
  (exists vnodes rest w',
     targetNodes Demo.sb3Sprite tt Demo.dworld0
     = (Ok ([], vnodes ++ rest), w')
     /\ vnodes = [Decompiled "let score"; Decompiled "let counter";
                  Decompiled "let score"])
  /\ (exists localVars decls ls w',
        Legacy.collectLocals Demo.sb3Sprite
          (Legacy.globalVariablesOf Demo.sb3Stage) Demo.dworld0
        = (Ok (localVars, decls), w')
        /\ d_console w' = d_console Demo.dworld0 ++ ls
        /\ JsMap.has (Legacy.globalVariablesOf Demo.sb3Stage) "score" = true
        /\ In (WarnConflict "score") ls
        /\ (forall d, ~ In (mkVariable "variable" "score" false None, d) decls)
        /\ exists d, In (mkVariable "variable" "counter" false None, d) decls).
Proof.
  destruct (local_declarations (E := Demo.dexternals)) as (_ & Hcur & _ & Hleg).
  split.
  - destruct (targetNodes Demo.sb3Sprite tt Demo.dworld0) as [[[mods ast]|e] w']
      eqn:Hrun; [|vm_compute in Hrun; discriminate Hrun].
    destruct (Hcur _ _ _ _ _ _ Hrun) as (vnodes & rest & Hast & Hf).
    vm_compute in Hrun. injection Hrun as Hm Ha Hw. subst mods ast.
    exists vnodes, rest, w'. split; [rewrite <- Hast; reflexivity|].
    vm_compute in Hf.
    repeat match goal with
           | H : Forall2 _ (_ :: _) _ |- _ => inversion H; subst; clear H
           | H : Forall2 _ [] _ |- _ => inversion H; subst; clear H
           | H : exists _, _ |- _ => destruct H
           | H : _ /\ _ |- _ => destruct H
           | H : (Ok _, _) = (Ok _, _) |- _ => injection H as ? ?; subst
           end.
    reflexivity.
  - destruct (Hleg Demo.sb3Sprite (Legacy.globalVariablesOf Demo.sb3Stage)
                Demo.dworld0)
      as (lv & decls & ls & Hrun & Hconf & Hfree).
    exists lv, decls, ls. eexists. split; [exact Hrun|].
    split; [reflexivity|]. split; [reflexivity|].
    destruct (Hconf "score" (JPrim (PNum 5))) as (Hw & Hn);
      [left; reflexivity | reflexivity |].
    split; [exact Hw|]. split; [exact Hn|].
    apply (Hfree "counter" (JPrim (PNum 0))); [right; left; reflexivity | reflexivity].
Defined.

(** ** The earlier compiler *)

Section LegacyCompile.
Context {T : Types} {E : Externals}.
Import JsMap JsMapFacts.
Variable getProgramInfo : Program -> Outcome (VarTable * ModuleDefs).
Variable mergeNamespaces : ModuleDefs -> ModuleDefs -> ModuleDefs.
Variable compileWith :
  JsMap.t FuseVariable -> ModuleDefs -> Program -> Outcome Workspace.

(** Without an entry script the earlier [compileScript] also returns at
    once and touches nothing. *)
Lemma legacy_compileScript_no_entry (base : ModuleDefs) (sv : option VarTable)
    (v : VarTable) (w : World) :
  Legacy.compileScript getProgramInfo mergeNamespaces compileWith None base sv v w
    = (Ok (emptyWorkspace, (sv, v)), w)
  /\ Legacy.compileScript getProgramInfo mergeNamespaces compileWith (Some "")
       base sv v w
    = (Ok (emptyWorkspace, (sv, v)), w).
Proof. split; reflexivity. Qed.

(** The earlier loops store the variables by the same rule, under the key
    the program information gives them. *)
Lemma legacy_collect_sprite (found : list (string * (FuseVariable * JsValue)))
    (G L : VarTable) :
  Legacy.collect found (Some G) L
  = (Some (fold_left (fun m e => set m (fst e) (snd e))
                     (filter (fun e => v_isGlobal (fst (snd e))) found) G),
     fold_left (fun m e => set m (fst e) (snd e))
               (filter (fun e => negb (v_isGlobal (fst (snd e)))) found) L).
Proof.
  unfold Legacy.collect.
  assert (H : forall st,
            fold_left
              (fun st e =>
                 if v_isGlobal (fst (snd e))
                 then (set (fst st) (fst e) (snd e), snd st)
                 else (fst st, set (snd st) (fst e) (snd e)))
              found st
            = (fold_left (fun m e => set m (fst e) (snd e))
                         (filter (fun e => v_isGlobal (fst (snd e))) found) (fst st),
               fold_left (fun m e => set m (fst e) (snd e))
                         (filter (fun e => negb (v_isGlobal (fst (snd e)))) found)
                         (snd st))).
  { induction found as [|[k [v d]] r IH]; intros [a b]; simpl; auto.
    destruct (v_isGlobal v); simpl; rewrite IH; reflexivity. }
  rewrite H. reflexivity.
Qed.

(** The call the earlier compiler makes for a stage with an entry script
    never returns: the combined scope is built from [stageVariables], which
    is [null] there. *)
Lemma legacy_stage_entry_throws (e : string) (base : ModuleDefs) (v : VarTable)
    (w : World) :
  String.eqb e "" = false ->
  exists err w',
    Legacy.compileScript getProgramInfo mergeNamespaces compileWith (Some e)
      base None v w = (Throw err, w').
Proof.
  intros Hne. unfold Legacy.compileScript. rewrite Hne.
  unfold bind, fs_read, lift, throw.
  destruct (readFileSync (fullPathOf e)); [|eauto].
  destruct (parse _); [|eauto].
  destruct (getProgramInfo _); [|eauto].
  simpl. eauto.
Qed.

End LegacyCompile.

(** ** Test vectors *)

(** The MD5 test suite of RFC 1321 (extract), and the hash of the
    placeholder image. *)
Example md5_empty : md5Bytes "" = "d41d8cd98f00b204e9800998ecf8427e".
Proof. vm_compute. reflexivity. Qed.

Example md5_abc : md5Bytes "abc" = "900150983cd24fb0d6963f7d28e17f72".
Proof. vm_compute. reflexivity. Qed.

Example md5_message_digest :
  md5Bytes "message digest" = "f96b697d7cb7938d525a2f31aaf161d0".
Proof. vm_compute. reflexivity. Qed.

Example md5_digits :
  md5Bytes "12345678901234567890123456789012345678901234567890123456789012345678901234567890"
  = "57edf4a22be3c955ac49da2e2107b67a".
Proof. vm_compute. reflexivity. Qed.

Example md5_EMPTY_SVG :
  String.length EMPTY_SVG = 171
  /\ md5Bytes EMPTY_SVG = "541d70f4d5200bdd4f0bdff36b062ccd".
Proof. vm_compute. split; reflexivity. Qed.

Example extname_samples :
  map (fun p => Path.slice1 (Path.extname p))
      ["a.png"; "dir/a.b.c"; ".bashrc"; "a."; "dir.x/file"; "a.png/"; "..";
       "a..b"; ""; "/abs/x.SVG"]
  = ["png"; "c"; ""; ""; ""; "png"; ""; "b"; ""; "SVG"].
Proof. reflexivity. Qed.

(* ===================================================================== *)
(** ** Imports, type files and module merging *)
(* ===================================================================== *)

Section MoreMapFacts.
Import JsMap JsMapFacts.
Context {V : Type}.
Implicit Types (m : t V) (k : string) (v : V).

Lemma set_fresh m k v : has m k = false -> set m k v = m ++ [(k, v)].
Proof.
  unfold has. induction m as [|[k' v'] r IH]; simpl; auto.
  destruct (String.eqb k' k); [discriminate|].
  intros H. rewrite IH; auto.
Qed.

Lemma get_app m1 m2 k :
  get (m1 ++ m2) k = match get m1 k with Some v => Some v | None => get m2 k end.
Proof.
  induction m1 as [|[k' v'] r IH]; simpl; auto.
  destruct (String.eqb k' k); auto.
Qed.

Lemma has_get_None m k : has m k = false <-> get m k = None.
Proof. unfold has. destruct (get m k); split; congruence. Qed.

Lemma has_get_Some m k : has m k = true <-> exists v, get m k = Some v.
Proof.
  unfold has. destruct (get m k) as [v|]; split; try congruence; eauto.
  intros [v H]; discriminate.
Qed.

Lemma get_set m k k' v :
  get (set m k v) k' = if String.eqb k k' then Some v else get m k'.
Proof.
  destruct (String.eqb k k') eqn:Hk.
  - apply String.eqb_eq in Hk. subst. apply get_set_same.
  - apply String.eqb_neq in Hk. apply get_set_other; auto.
Qed.

Lemma fold_set_fresh (l : list (string * V)) :
  forall m, NoDup (keys m ++ map fst l) ->
  fold_left (fun m kv => set m (fst kv) (snd kv)) l m = m ++ l.
Proof.
  induction l as [|[k v] l IH]; intros m Hnd; simpl.
  - now rewrite app_nil_r.
  - rewrite set_fresh.
    + rewrite IH.
      * now rewrite <- app_assoc.
      * unfold keys in *. rewrite map_app. simpl. rewrite <- app_assoc. exact Hnd.
    + destruct (has m k) eqn:Hh; auto.
      apply has_In_keys in Hh. exfalso.
      simpl in Hnd. apply NoDup_remove_2 in Hnd. apply Hnd.
      apply in_or_app. now left.
Qed.

(** [new Map(m)] is a copy of [m]. *)
Lemma of_entries_entries m : NoDup (keys m) -> of_entries (entries m) = m.
Proof.
  intros Hnd. unfold of_entries, entries, empty.
  rewrite fold_set_fresh; auto.
Qed.

End MoreMapFacts.

Ltac resolved :=
  repeat match goal with
         | |- _ /\ _ => split
         | |- _ -> _ => intro
         end;
  try reflexivity; try assumption; try discriminate.

Section ImportFacts.
Context {T : Types} {E : Externals}.
Variable existsSync : string -> bool.
Variable path_resolve : string -> string -> string.
Variable path_dirname : string -> string.
Variable root : string.

Lemma readAndParse_spec (p : string) (w : World) :
  readAndParse p w
  = (match readFileSync p with Ok src => parse src | Throw e => Throw e end,
     mkWorld (console w) (fsReads w ++ [p]) (compilerCalls w) (zipFiles w)
             (uidCount w)).
Proof.
  unfold readAndParse, bind, fs_read, lift.
  destruct (readFileSync p); reflexivity.
Qed.

(** X1.  [importResolver] reads at most one file, and only one that
    [existsSync] reports: for an import that starts with [./] or [../] it is
    the path resolved against the directory of the importing file, and the
    root directory is never tried; for an import that starts with [/] it is
    the path under [root] when that exists, even if the path exists as
    given, and the path as given otherwise.  Every other import, such as a
    bare name, is rejected without touching the file system.  When nothing
    is read the error is `Cannot resolve import: <import> from <file>`.
    The console, the archive and the identifier counter are left alone. *)
Theorem importResolver_resolution (importPath currentFile : string)
    (w w' : World) (r : Outcome Program) :
  importResolver existsSync path_resolve path_dirname root importPath currentFile w
    = (r, w') ->
  let relative := path_resolve (path_dirname currentFile) importPath in
  let rooted := path_join root importPath in
  console w' = console w /\ zipFiles w' = zipFiles w
  /\ uidCount w' = uidCount w /\ compilerCalls w' = compilerCalls w
  /\ ((fsReads w' = fsReads w
       /\ r = Throw (cannotResolve importPath currentFile)
       /\ (isRelativeImport importPath = true -> existsSync relative = false)
       /\ (isRelativeImport importPath = false ->
           isAbsoluteImport importPath = true ->
           existsSync rooted = false /\ existsSync importPath = false))
      \/ (exists p,
            fsReads w' = fsReads w ++ [p]
            /\ existsSync p = true
            /\ r = match readFileSync p with
                   | Ok src => parse src
                   | Throw e => Throw e
                   end
            /\ (if isRelativeImport importPath then p = relative
                else isAbsoluteImport importPath = true
                     /\ (p = rooted
                         \/ (p = importPath /\ existsSync rooted = false))))).
Proof.
  intros Hrun relative rooted. unfold importResolver in Hrun.
  fold relative in Hrun. fold rooted in Hrun.
  destruct (isRelativeImport importPath) eqn:Hrel.
  - destruct (existsSync relative) eqn:Hex.
    + rewrite readAndParse_spec in Hrun. inversion Hrun; subst; simpl.
      repeat (split; [reflexivity|]). right. exists relative. resolved.
    + unfold throw in Hrun. inversion Hrun; subst.
      repeat (split; [reflexivity|]). left. resolved.
  - destruct (isAbsoluteImport importPath) eqn:Habs.
    + destruct (existsSync rooted) eqn:Hex1.
      * rewrite readAndParse_spec in Hrun. inversion Hrun; subst; simpl.
        repeat (split; [reflexivity|]). right. exists rooted.
        split; [reflexivity|]. split; [resolved|]. split; [reflexivity|].
        split; [resolved|]. left; reflexivity.
      * destruct (existsSync importPath) eqn:Hex2.
        -- rewrite readAndParse_spec in Hrun. inversion Hrun; subst; simpl.
           repeat (split; [reflexivity|]). right. exists importPath.
           split; [reflexivity|]. split; [resolved|]. split; [reflexivity|].
           split; [resolved|]. right; split; resolved.
        -- unfold throw in Hrun. inversion Hrun; subst.
           repeat (split; [reflexivity|]). left. resolved.
    + unfold throw in Hrun. inversion Hrun; subst.
      repeat (split; [reflexivity|]). left. resolved.
Qed.

End ImportFacts.

Lemma importResolver_resolution_witness :
  let run :=
    importResolver Demo.existsSync Demo.path_resolve Demo.path_dirname "proj"
                   "./b.fuse" "proj/a.fuse" Demo.world0 in
  fst run = Ok "sprite b"
  /\ fsReads (snd run) = ["proj/b.fuse"]
  /\ console (snd run) = [].
Proof.
  destruct (importResolver Demo.existsSync Demo.path_resolve Demo.path_dirname
              "proj" "./b.fuse" "proj/a.fuse" Demo.world0) as [r w'] eqn:Hrun.
  pose proof (importResolver_resolution Demo.existsSync Demo.path_resolve
                Demo.path_dirname "proj" "./b.fuse" "proj/a.fuse" Demo.world0
                w' r Hrun) as H.
  simpl in H. destruct H as (Hc & _ & _ & _ & [(_ & _ & Hno & _) | (p & Hr & _ & Hres & Hp)]).
  - exfalso. specialize (Hno eq_refl). vm_compute in Hno. discriminate Hno.
  - simpl in Hp. subst p. cbn [fst snd]. split; [|split].
    + rewrite Hres. vm_compute. reflexivity.
    + rewrite Hr. vm_compute. reflexivity.
    + rewrite Hc. reflexivity.
Defined.

Section TypeFiles.
Import JsMap JsMapFacts.
Context {T : Types} {E : Externals}.
Variable Mod : Type.
Variable compileTypes : JsMap.t Mod -> Program -> Outcome (JsMap.t Mod).




End TypeFiles.

Section MergeModules.
Import JsMap JsMapFacts.
Variable Mod : Type.
Variable mergeModule : Mod -> Mod -> Outcome Mod.

Lemma NoDup_middle_fresh {A : Type} (l1 l2 : list A) (a : A) :
  NoDup (l1 ++ l2) -> ~ In a (l1 ++ l2) -> NoDup (l1 ++ a :: l2).
Proof.
  intros Hnd Hnotin. induction l1 as [|b l1 IH]; simpl in *.
  - constructor; assumption.
  - inversion Hnd as [|? ? Hb Hnd']; subst. constructor.
    + intros Hin. apply in_app_or in Hin. destruct Hin as [Hin | [Heq | Hin]].
      * apply Hb. apply in_or_app. now left.
      * subst. apply Hnotin. now left.
      * apply Hb. apply in_or_app. now right.
    + apply IH; auto.
Qed.

Lemma foldO_mergeModules (l : list (string * Mod)) :
  forall (m merged : JsMap.t Mod),
  NoDup (map fst l) ->
  foldO (mergeModulesStep Mod mergeModule) l m = Ok merged ->
  keys merged = keys m ++ filter (fun k => negb (has m k)) (map fst l)
  /\ (forall k, ~ In k (map fst l) -> get merged k = get m k)
  /\ (forall k u, In (k, u) l ->
      match get m k with
      | Some existing =>
          exists x, mergeModule existing u = Ok x /\ get merged k = Some x
      | None => get merged k = Some u
      end).
Proof.
  induction l as [|[k u] l IH]; intros m merged Hnd Hrun.
  - simpl in Hrun. inversion Hrun; subst. simpl.
    split; [now rewrite app_nil_r|]. split; [auto|]. intros k u [].
  - simpl in Hnd. inversion Hnd as [|? ? Hnotin Hnd']; subst.
    simpl in Hrun. unfold mergeModulesStep in Hrun. cbn [fst snd] in Hrun.
    destruct (has m k) eqn:Hhas.
    + destruct (proj1 (has_get_Some m k) Hhas) as [existing Hget].
      rewrite Hget in Hrun.
      destruct (mergeModule existing u) as [x|e] eqn:Hmerge; [|discriminate].
      destruct (IH _ _ Hnd' Hrun) as (Hk & Hout & Hin).
      assert (Hhas' : forall k', has (set m k x) k' = has m k').
      { intros k'. rewrite has_set.
        destruct (String.eqb k k') eqn:Hkk; auto.
        apply String.eqb_eq in Hkk. subst. now rewrite Hhas. }
      split; [|split].
      * rewrite Hk, keys_set, Hhas. simpl. rewrite Hhas. simpl.
        f_equal. apply filter_ext. intros a. now rewrite Hhas'.
      * intros k' Hk'. simpl in Hk'. rewrite Hout by tauto.
        apply get_set_other. tauto.
      * intros k' u' [Heq | Hin'].
        -- inversion Heq; subst k' u'. rewrite Hget. exists x. split; auto.
           rewrite Hout by assumption. apply get_set_same.
        -- assert (Hne : k <> k').
           { intros ->. apply Hnotin. apply in_map_iff. exists (k', u'). auto. }
           specialize (Hin _ _ Hin'). rewrite get_set_other in Hin by assumption.
           exact Hin.
    + destruct (IH _ _ Hnd' Hrun) as (Hk & Hout & Hin).
      assert (Hnone : get m k = None) by (now apply has_get_None).
      split; [|split].
      * rewrite Hk, keys_set, Hhas. simpl. rewrite Hhas. simpl.
        rewrite <- app_assoc. simpl. f_equal. f_equal.
        apply filter_ext_in. intros a Ha. rewrite has_set.
        destruct (String.eqb k a) eqn:Hka; auto.
        apply String.eqb_eq in Hka. subst. contradiction.
      * intros k' Hk'. simpl in Hk'. rewrite Hout by tauto.
        apply get_set_other. tauto.
      * intros k' u' [Heq | Hin'].
        -- inversion Heq; subst k' u'. rewrite Hnone.
           rewrite Hout by assumption. apply get_set_same.
        -- assert (Hne : k <> k').
           { intros ->. apply Hnotin. apply in_map_iff. exists (k', u'). auto. }
           specialize (Hin _ _ Hin'). rewrite get_set_other in Hin by assumption.
           exact Hin.
Qed.

Lemma NoDup_app_fresh (base : JsMap.t Mod) (l : list string) :
  NoDup (keys base) -> NoDup l ->
  NoDup (keys base ++ filter (fun k => negb (has base k)) l).
Proof.
  intros Hb Hl. induction Hl as [|k l Hnotin Hl IH]; simpl.
  - now rewrite app_nil_r.
  - destruct (has base k) eqn:Hh; simpl; auto.
    apply NoDup_middle_fresh; auto.
    intros Hin. apply in_app_or in Hin. destruct Hin as [Hin | Hin].
    + apply has_In_keys in Hin. congruence.
    + apply filter_In in Hin. tauto.
Qed.

(** X3.  When [mergeModules(base, upper)] returns, the merged Map lists the
    names of [base] in their order, followed by the names that only [upper]
    has, in the order of [upper].  A module that only [base] has is kept, a
    module that only [upper] has is installed as it is, and for a name that
    both have the entry is what [mergeModule] made of the module of [base]
    and the module of [upper]; no name is lost and none is listed twice. *)
Theorem mergeModules_names (base upper merged : JsMap.t Mod) :
  NoDup (keys base) -> NoDup (keys upper) ->
  mergeModules Mod mergeModule base upper = Ok merged ->
  keys merged = keys base ++ filter (fun k => negb (has base k)) (keys upper)
  /\ NoDup (keys merged)
  /\ (forall k, has upper k = false -> get merged k = get base k)
  /\ (forall k u, get upper k = Some u ->
      match get base k with
      | Some existing =>
          exists x, mergeModule existing u = Ok x /\ get merged k = Some x
      | None => get merged k = Some u
      end).
Proof.
  intros Hb Hu Hrun. unfold mergeModules in Hrun.
  rewrite of_entries_entries in Hrun by assumption.
  apply foldO_mergeModules in Hrun; [|exact Hu].
  destruct Hrun as (Hk & Hout & Hin).
  split; [exact Hk|]. split; [|split].
  - rewrite Hk. apply NoDup_app_fresh; assumption.
  - intros k Hk'. apply Hout. intros Hin'.
    apply (proj2 (has_In_keys upper k)) in Hin'. congruence.
  - intros k u Hget. apply Hin.
    clear - Hget. unfold entries. induction upper as [|[k' u'] r IH]; simpl in *.
    + discriminate.
    + destruct (String.eqb k' k) eqn:Hk.
      * apply String.eqb_eq in Hk. inversion Hget; subst. now left.
      * right. auto.
Qed.

End MergeModules.


Lemma mergeModules_names_witness :
  let base := [("math", "M"); ("list", "L")] in
  let upper := [("list", "L2"); ("pen", "P")] in
  exists merged,
    mergeModules string Demo.mergeModule base upper = Ok merged
    /\ JsMap.keys merged = ["math"; "list"; "pen"]
    /\ JsMap.get merged "list" = Some "L+L2".
Proof.
  intros base upper.
  destruct (mergeModules string Demo.mergeModule base upper) as [merged|e] eqn:Hrun;
    [|vm_compute in Hrun; discriminate Hrun].
  exists merged. split; [reflexivity|].
  assert (Hb : NoDup (JsMap.keys base)).
  { repeat constructor; simpl; intuition discriminate. }
  assert (Hu : NoDup (JsMap.keys upper)).
  { repeat constructor; simpl; intuition discriminate. }
  destruct (mergeModules_names string Demo.mergeModule base upper merged Hb Hu Hrun)
    as (Hk & _ & _ & Hin).
  split; [exact Hk|].
  destruct (Hin "list" "L2" eq_refl) as (x & Hx & Hget).
  vm_compute in Hx. inversion Hx; subst x. exact Hget.
Defined.

(** ** The earlier compiler: what it cannot do *)

Section LegacyLimits.
Context {T : Types} {E : Externals}.
Variable getProgramInfo : Program -> Outcome (VarTable * ModuleDefs).
Variable mergeNamespaces : ModuleDefs -> ModuleDefs -> ModuleDefs.
Variable compileWith :
  JsMap.t FuseVariable -> ModuleDefs -> Program -> Outcome Workspace.
Variable newMap : ModuleDefs -> ModuleDefs.

(** X4.  The earlier compiler ([src/unnamed/part_000]) cannot compile a
    stage that has an entry script: the call [compileScript(entry, base,
    null, variables)] made for the stage always throws, for every script,
    after reading that one file and without printing anything.  When the
    file is read, parsed and analysed, the error is the [TypeError] of
    reading [entries] of [null]: the combined scope is built from
    [stageVariables] without the test that the later compiler has. *)
Theorem legacy_stage_script_rejected (e : string) (base : ModuleDefs)
    (v : VarTable) (w : World) :
  String.eqb e "" = false ->
  exists err w',
    Legacy.compileScript getProgramInfo mergeNamespaces compileWith (Some e)
      base None v w = (Throw err, w')
    /\ fsReads w' = fsReads w ++ [fullPathOf e]
    /\ console w' = console w /\ zipFiles w' = zipFiles w
    /\ (forall src program info,
          readFileSync (fullPathOf e) = Ok src ->
          parse src = Ok program ->
          getProgramInfo program = Ok info ->
          err = "TypeError: Cannot read properties of null (reading 'entries')").
Proof.
  intros Hne. unfold Legacy.compileScript. rewrite Hne.
  unfold bind, fs_read, lift, throw.
  destruct (readFileSync (fullPathOf e)) as [src|err] eqn:Hread.
  2:{ exists err. eexists. split; [reflexivity|]. simpl.
      repeat (split; [reflexivity|]). intros; discriminate. }
  destruct (parse src) as [program|err] eqn:Hparse.
  2:{ exists err. eexists. split; [reflexivity|]. simpl.
      repeat (split; [reflexivity|]).
      intros src' p' i' Hs Hp. inversion Hs; subst. congruence. }
  destruct (getProgramInfo program) as [info|err] eqn:Hinfo.
  2:{ exists err. eexists. split; [reflexivity|]. simpl.
      repeat (split; [reflexivity|]).
      intros src' p' i' Hs Hp Hi. inversion Hs; subst.
      rewrite Hparse in Hp. inversion Hp; subst. congruence. }
  simpl. eexists. eexists. split; [reflexivity|]. simpl.
  repeat (split; [reflexivity|]). intros; reflexivity.
Qed.

(** X5.  [processTypes] of the earlier compiler never returns when it is
    given a type file: the Map of namespaces is declared with [const] and
    assigned in the loop, so the first turn throws, after reading the first
    file only; when that file is read, parsed and analysed, the error is
    the [TypeError] of the assignment.  Without type files it returns the
    copy of the builtin namespaces and touches nothing. *)
Theorem legacy_processTypes_first_turn (builtins : ModuleDefs)
    (p : string) (paths : list string) (w : World) :
  (exists err w',
     LegacyTypes.processTypes getProgramInfo mergeNamespaces newMap builtins
       (p :: paths) w = (Throw err, w')
     /\ fsReads w' = fsReads w ++ [fullPathOf p]
     /\ console w' = console w /\ zipFiles w' = zipFiles w
     /\ (forall src program info,
           readFileSync (fullPathOf p) = Ok src ->
           parse src = Ok program ->
           getProgramInfo program = Ok info ->
           err = "TypeError: Assignment to constant variable."))
  /\ LegacyTypes.processTypes getProgramInfo mergeNamespaces newMap builtins [] w
     = (Ok (newMap builtins), w).
Proof.
  split; [|reflexivity].
  unfold LegacyTypes.processTypes. simpl.
  unfold bind, fs_read, lift, throw.
  destruct (readFileSync (fullPathOf p)) as [src|err] eqn:Hread.
  2:{ exists err. eexists. split; [reflexivity|]. simpl.
      repeat (split; [reflexivity|]). intros; discriminate. }
  destruct (parse src) as [program|err] eqn:Hparse.
  2:{ exists err. eexists. split; [reflexivity|]. simpl.
      repeat (split; [reflexivity|]).
      intros src' p' i' Hs Hp. inversion Hs; subst. congruence. }
  destruct (getProgramInfo program) as [info|err] eqn:Hinfo.
  2:{ exists err. eexists. split; [reflexivity|]. simpl.
      repeat (split; [reflexivity|]).
      intros src' p' i' Hs Hp Hi. inversion Hs; subst.
      rewrite Hparse in Hp. inversion Hp; subst. congruence. }
  eexists. eexists. split; [reflexivity|]. simpl.
  repeat (split; [reflexivity|]). intros; reflexivity.
Qed.

End LegacyLimits.

Lemma legacy_stage_script_rejected_witness :
  exists err w',
    Legacy.compileScript Demo.getProgramInfo Demo.mergeNamespaces
      Demo.compileWith (Some "stage.fuse") tt None [] Demo.world0
    = (Throw err, w')
    /\ fsReads w' = ["proj/stage.fuse"]
    /\ err = "TypeError: Cannot read properties of null (reading 'entries')".
Proof.
  destruct (legacy_stage_script_rejected Demo.getProgramInfo Demo.mergeNamespaces
              Demo.compileWith "stage.fuse" tt [] Demo.world0 eq_refl)
    as (err & w' & Hrun & Hreads & _ & _ & Herr).
  exists err, w'. split; [exact Hrun|]. split; [exact Hreads|].
  apply (Herr "stage" "stage" (Demo.found "stage", tt)); reflexivity.
Defined.

Lemma legacy_processTypes_first_turn_witness :
  exists err w',
    LegacyTypes.processTypes Demo.getProgramInfo Demo.mergeNamespaces
      (fun m => m) tt ["a.fuse"; "b.fuse"] Demo.world0 = (Throw err, w')
    /\ fsReads w' = ["proj/a.fuse"]
    /\ err = "TypeError: Assignment to constant variable.".
Proof.
  destruct (legacy_processTypes_first_turn (T := Demo.types) (E := Demo.externals)
              Demo.getProgramInfo Demo.mergeNamespaces (fun m => m) tt
              "a.fuse" ["b.fuse"] Demo.world0)
    as ((err & w' & Hrun & Hreads & _ & _ & Herr) & _).
  exists err, w'. split; [exact Hrun|]. split; [exact Hreads|].
  apply (Herr "sprite a" "sprite a" (Demo.found "sprite a", tt)); reflexivity.
Defined.

(* ===================================================================== *)
(** ** The compile loop: what it reads, prints and stores *)
(* ===================================================================== *)

Section CompileLoop.
Import JsMap JsMapFacts.
Context {T : Types} {E : Externals}.

Lemma compileScript_footprint (entry : option string) (base : ModuleDefs)
    (sv : option VarTable) (v : VarTable) (w w' : World)
    (r : Outcome (Workspace * (option VarTable * VarTable))) :
  compileScript entry base sv v w = (r, w') ->
  zipFiles w' = zipFiles w /\ uidCount w' = uidCount w
  /\ match r with
     | Ok (ws, tabs) =>
         fsReads w' = fsReads w ++ map fullPathOf (scriptOf entry)
         /\ console w' = console w
         /\ map m_filename (compilerCalls w')
            = map m_filename (compilerCalls w) ++ map fullPathOf (scriptOf entry)
         /\ (tabs = (sv, v) \/ exists found, tabs = tablesAfter found sv v)
     | Throw err =>
         exists e,
           scriptOf entry = [e]
           /\ fsReads w' = fsReads w ++ [fullPathOf e]
           /\ console w' = console w ++ [scriptErrorLine e]
     end.
Proof.
  intros Hrun. unfold compileScript in Hrun.
  assert (Hnone : (r, w') = (Ok (emptyWorkspace, (sv, v)), w) ->
                  scriptOf entry = [] ->
                  zipFiles w' = zipFiles w /\ uidCount w' = uidCount w
                  /\ match r with
                     | Ok (ws, tabs) =>
                         fsReads w' = fsReads w ++ map fullPathOf (scriptOf entry)
                         /\ console w' = console w
                         /\ map m_filename (compilerCalls w')
                            = map m_filename (compilerCalls w)
                              ++ map fullPathOf (scriptOf entry)
                         /\ (tabs = (sv, v) \/ exists found, tabs = tablesAfter found sv v)
                     | Throw err =>
                         exists e,
                           scriptOf entry = [e]
                           /\ fsReads w' = fsReads w ++ [fullPathOf e]
                           /\ console w' = console w ++ [scriptErrorLine e]
                     end).
  { intros Heq Hs. inversion Heq; subst. rewrite Hs. simpl.
    rewrite !app_nil_r.
    repeat (split; [reflexivity|]). left; reflexivity. }
  destruct entry as [e|]; [|apply Hnone; [symmetry; exact Hrun | reflexivity]].
  destruct (String.eqb e "") eqn:Hne.
  { apply Hnone; [symmetry; exact Hrun | simpl; now rewrite Hne]. }
  clear Hnone.
  assert (Hs : scriptOf (Some e) = [e]) by (simpl; now rewrite Hne).
  rewrite Hs.
  unfold try_catch, bind, fs_read, lift, call_compile, console_error, throw, ret in Hrun.
  assert (Hfail : forall err,
            (r, w') = (Throw err,
                        mkWorld (console w ++ [scriptErrorLine e])
                                (fsReads w ++ [fullPathOf e]) (compilerCalls w)
                                (zipFiles w) (uidCount w))
            \/ (exists m,
                (r, w') = (Throw err,
                        mkWorld (console w ++ [scriptErrorLine e])
                                (fsReads w ++ [fullPathOf e]) (compilerCalls w ++ [m])
                                (zipFiles w) (uidCount w))) ->
            zipFiles w' = zipFiles w /\ uidCount w' = uidCount w
            /\ match r with
               | Ok (ws, tabs) =>
                   fsReads w' = fsReads w ++ map fullPathOf [e]
                   /\ console w' = console w
                   /\ map m_filename (compilerCalls w')
                      = map m_filename (compilerCalls w) ++ map fullPathOf [e]
                   /\ (tabs = (sv, v) \/ exists found, tabs = tablesAfter found sv v)
               | Throw err =>
                   exists e0,
                     [e] = [e0]
                     /\ fsReads w' = fsReads w ++ [fullPathOf e0]
                     /\ console w' = console w ++ [scriptErrorLine e0]
               end).
  { intros err [Heq | [m Heq]]; inversion Heq; subst; simpl;
      (split; [reflexivity|]); (split; [reflexivity|]); exists e; auto. }
  destruct (readFileSync (fullPathOf e)) as [src|err] eqn:Hread; simpl in Hrun.
  2:{ apply (Hfail err). left. symmetry. exact Hrun. }
  destruct (parse src) as [program|err] eqn:Hparse; simpl in Hrun.
  2:{ apply (Hfail err). left. symmetry. exact Hrun. }
  match type of Hrun with
  | context [compile ?m0 program] => set (m := m0) in *
  end.
  destruct (compile m program) as [result|err] eqn:Hcomp; simpl in Hrun.
  2:{ apply (Hfail err). right. exists m. symmetry. exact Hrun. }
  match type of Hrun with
  | context [mapM ?f (r_functions result) ?w1] =>
      pose proof (mapM_lift_world serializeFunction (r_functions result) w1) as H1;
      unfold lift in H1;
      destruct (mapM f (r_functions result) w1) as [[fs|err] w1'] eqn:Hf
  end; simpl in H1; subst w1'.
  2:{ apply (Hfail err). right. exists m. symmetry. exact Hrun. }
  match type of Hrun with
  | context [mapM ?f (r_scripts result) ?w1] =>
      pose proof (mapM_lift_world serializeScript (r_scripts result) w1) as H1;
      unfold lift in H1;
      destruct (mapM f (r_scripts result) w1) as [[ss|err] w1'] eqn:Hsc
  end; simpl in H1; subst w1'.
  2:{ apply (Hfail err). right. exists m. symmetry. exact Hrun. }
  destruct (mergeWorkspaces (fs ++ ss)) as [ws0|err] eqn:Hmerge; simpl in Hrun.
  2:{ apply (Hfail err). right. exists m. symmetry. exact Hrun. }
  inversion Hrun; subst; simpl.
  split; [reflexivity|]. split; [reflexivity|]. split; [reflexivity|].
  split; [reflexivity|]. split.
  - rewrite map_app. reflexivity.
  - right. eexists. reflexivity.
Qed.


Lemma tableOf_empty (b : bool) : tableOf b empty.
Proof. intros k v d H. discriminate H. Qed.

Lemma tableOf_fold {A : Type} (b : bool) (f : A -> FuseVariable * JsValue)
    (l : list A) :
  forall m : VarTable,
  tableOf b m ->
  (forall a, In a l -> v_isGlobal (fst (f a)) = b) ->
  tableOf b (fold_left (fun m a => set m (v_name (fst (f a))) (f a)) l m).
Proof.
  induction l as [|a l IH]; intros m Hm Hl; simpl; auto.
  apply IH.
  - intros k v d Hget. rewrite get_set in Hget.
    destruct (String.eqb (v_name (fst (f a))) k) eqn:Hk.
    + apply String.eqb_eq in Hk. inversion Hget as [Hfa]. split.
      * rewrite <- Hk, Hfa. reflexivity.
      * specialize (Hl a (or_introl eq_refl)). rewrite Hfa in Hl. exact Hl.
    + eauto.
  - intros a' Ha'. apply Hl. now right.
Qed.

Lemma tablesAfter_tableOf (found : list (FuseVariable * JsValue))
    (sv : option VarTable) (v : VarTable) :
  match sv with
  | None => tableOf true v -> tableOf true (snd (tablesAfter found sv v))
  | Some G =>
      tableOf true G -> tableOf false v ->
      tableOf true (opt_or (fst (tablesAfter found sv v)) G)
      /\ tableOf false (snd (tablesAfter found sv v))
  end.
Proof.
  destruct sv as [G|]; simpl.
  - intros HG Hv. rewrite collectSprite_split. simpl. split.
    + apply (tableOf_fold true (fun vd => (fst vd, snd vd))); auto.
      intros a Ha. apply filter_In in Ha. tauto.
    + apply (tableOf_fold false (fun vd => (fst vd, snd vd))); auto.
      intros a Ha. apply filter_In in Ha. destruct Ha as [_ Ha]. simpl.
      now destruct (v_isGlobal (fst a)).
  - intros Hv. unfold collectStage.
    apply (tableOf_fold true (fun vd => (markGlobal (fst vd), snd vd))); auto.
Qed.

Lemma compileSprite_footprint (base : ModuleDefs) (G : VarTable)
    (done : list CompiledTarget) (t : TargetConfig) (w w' : World)
    (r : Outcome (VarTable * list CompiledTarget)) :
  compileSprite base (G, done) t w = (r, w') ->
  zipFiles w' = zipFiles w /\ uidCount w' = uidCount w
  /\ match r with
     | Ok (G', done') =>
         (exists c, done' = done ++ [c] /\ c_target c = t
                    /\ (tableOf true G ->
                        tableOf true G' /\ tableOf false (c_variables c)))
         /\ fsReads w' = fsReads w ++ map fullPathOf (scriptOf (t_entry t))
         /\ console w' = console w ++ [spriteLine t]
         /\ map m_filename (compilerCalls w')
            = map m_filename (compilerCalls w)
              ++ map fullPathOf (scriptOf (t_entry t))
     | Throw err =>
         exists e,
           scriptOf (t_entry t) = [e]
           /\ fsReads w' = fsReads w ++ [fullPathOf e]
           /\ console w' = console w ++ [spriteLine t; scriptErrorLine e]
     end.
Proof.
  intros Hrun. unfold compileSprite, bind, console_log, ret in Hrun.
  cbn [fst snd] in Hrun.
  match type of Hrun with
  | context [compileScript ?en base ?sv ?v ?w1] =>
      destruct (compileScript en base sv v w1) as [[[ws tabs]|err] w2] eqn:Hcs;
      apply compileScript_footprint in Hcs;
      cbn [zipFiles uidCount fsReads console compilerCalls] in Hcs
  end.
  - destruct Hcs as (Hz & Hu & Hf & Hc & Hm & Htabs).
    inversion Hrun; subst.
    split; [assumption|]. split; [assumption|].
    split; [|split; [assumption|split; assumption]].
    eexists. split; [reflexivity|]. split; [reflexivity|]. simpl.
    intros HG. destruct Htabs as [Htabs | [found Htabs]]; subst tabs.
    + simpl. split; [assumption | apply tableOf_empty].
    + apply (tablesAfter_tableOf found (Some G) empty HG (tableOf_empty false)).
  - destruct Hcs as (Hz & Hu & e & Hs & Hf & Hc).
    inversion Hrun; subst.
    split; [assumption|]. split; [assumption|].
    exists e. split; [assumption|]. split; [assumption|].
    rewrite Hc. rewrite <- app_assoc. reflexivity.
Qed.

Lemma compileSprites_footprint (base : ModuleDefs) (targets : list TargetConfig) :
  forall (G : VarTable) (done : list CompiledTarget) (w w' : World)
         (r : Outcome (VarTable * list CompiledTarget)),
  compileSprites base targets G done w = (r, w') ->
  zipFiles w' = zipFiles w /\ uidCount w' = uidCount w
  /\ match r with
     | Ok (G', done') =>
         (exists new, done' = done ++ new /\ map c_target new = targets
                      /\ (tableOf true G ->
                          tableOf true G'
                          /\ Forall (fun c => tableOf false (c_variables c)) new))
         /\ fsReads w' = fsReads w
              ++ map fullPathOf (flat_map (fun t => scriptOf (t_entry t)) targets)
         /\ console w' = console w ++ map spriteLine targets
         /\ map m_filename (compilerCalls w')
            = map m_filename (compilerCalls w)
              ++ map fullPathOf (flat_map (fun t => scriptOf (t_entry t)) targets)
     | Throw err =>
         exists pre t post e,
           targets = pre ++ t :: post
           /\ scriptOf (t_entry t) = [e]
           /\ fsReads w' = fsReads w
                ++ map fullPathOf
                     (flat_map (fun t => scriptOf (t_entry t)) (pre ++ [t]))
           /\ console w' = console w ++ map spriteLine (pre ++ [t])
                             ++ [scriptErrorLine e]
     end.
Proof.
  induction targets as [|t targets IH]; intros G done w w' r Hrun.
  - unfold compileSprites in Hrun. simpl in Hrun. unfold ret in Hrun.
    inversion Hrun; subst. split; [reflexivity|]. split; [reflexivity|].
    simpl. rewrite !app_nil_r. split; [|auto].
    exists []. rewrite app_nil_r. auto.
  - rewrite compileSprites_cons in Hrun.
    destruct (compileSprite base (G, done) t w) as [[[G1 d1]|err] w1] eqn:Hone;
      apply compileSprite_footprint in Hone.
    + destruct Hone as (Hz1 & Hu1 & (c & Hd1 & Hct & Htab1) & Hf1 & Hc1 & Hm1).
      apply IH in Hrun. destruct Hrun as (Hz & Hu & Hr).
      split; [congruence|]. split; [congruence|].
      destruct r as [[G' done']|err].
      * destruct Hr as ((new & Hd & Hnew & Htab) & Hf & Hc & Hm).
        split; [|split; [|split]].
        -- exists (c :: new). subst d1. rewrite <- app_assoc in Hd.
           split; [exact Hd|]. split; [simpl; congruence|].
           intros HG. destruct (Htab1 HG) as [HG1 Hc1']. destruct (Htab HG1).
           split; [assumption|]. constructor; assumption.
        -- rewrite Hf, Hf1. simpl. rewrite map_app, <- app_assoc. reflexivity.
        -- rewrite Hc, Hc1. simpl. rewrite <- app_assoc. reflexivity.
        -- rewrite Hm, Hm1. simpl. rewrite map_app, <- app_assoc. reflexivity.
      * destruct Hr as (pre & t' & post & e & Ht & Hs & Hf & Hc).
        exists (t :: pre), t', post, e. subst targets.
        split; [reflexivity|]. split; [assumption|]. split.
        -- rewrite Hf, Hf1. simpl. rewrite map_app, <- app_assoc. reflexivity.
        -- rewrite Hc, Hc1. simpl. rewrite <- !app_assoc. reflexivity.
    + destruct Hone as (Hz1 & Hu1 & e & Hs & Hf1 & Hc1).
      inversion Hrun; subst.
      split; [assumption|]. split; [assumption|].
      exists [], t, targets, e. split; [reflexivity|]. split; [assumption|].
      simpl. rewrite Hs. simpl. split; assumption.
Qed.

Lemma compileStage_footprint (stage : StageConfig) (base : ModuleDefs)
    (w w' : World) (r : Outcome (Workspace * VarTable)) :
  compileStage stage base w = (r, w') ->
  zipFiles w' = zipFiles w /\ uidCount w' = uidCount w
  /\ match r with
     | Ok (ws, G) =>
         tableOf true G
         /\ fsReads w' = fsReads w ++ map fullPathOf (scriptOf (s_entry stage))
         /\ console w' = console w ++ [Log "Compiling stage..."]
         /\ map m_filename (compilerCalls w')
            = map m_filename (compilerCalls w)
              ++ map fullPathOf (scriptOf (s_entry stage))
     | Throw err =>
         exists e,
           scriptOf (s_entry stage) = [e]
           /\ fsReads w' = fsReads w ++ [fullPathOf e]
           /\ console w'
              = console w ++ [Log "Compiling stage..."; scriptErrorLine e]
     end.
Proof.
  intros Hrun. unfold compileStage, bind, console_log, ret in Hrun.
  match type of Hrun with
  | context [compileScript ?en base ?sv ?v ?w1] =>
      destruct (compileScript en base sv v w1) as [[[ws tabs]|err] w2] eqn:Hcs;
      apply compileScript_footprint in Hcs;
      cbn [zipFiles uidCount fsReads console compilerCalls] in Hcs
  end.
  - destruct Hcs as (Hz & Hu & Hf & Hc & Hm & Htabs).
    inversion Hrun; subst.
    split; [assumption|]. split; [assumption|].
    split; [|split; [assumption|split; assumption]].
    destruct Htabs as [Htabs | [found Htabs]]; subst tabs; simpl.
    + apply tableOf_empty.
    + apply (tablesAfter_tableOf found None empty (tableOf_empty true)).
  - destruct Hcs as (Hz & Hu & e & Hs & Hf & Hc).
    inversion Hrun; subst.
    split; [assumption|]. split; [assumption|].
    exists e. split; [assumption|]. split; [assumption|].
    rewrite Hc. rewrite <- app_assoc. reflexivity.
Qed.

(** X6.  When the compile phase succeeds it has compiled every target
    once, in the declared order, the stage first: the [targets] array holds
    one element per declared sprite, in order; the files that the driver
    itself reads are exactly the entry scripts of the stage and of the
    sprites that have one, in that order (imports are read by the compiler
    and not counted), and the modules handed to the compiler carry these
    file names in the same order; the console shows the progress line of
    the stage and of each sprite and nothing else; the archive and the
    identifier counter are untouched. *)
Theorem compileAll_footprint (stage : StageConfig) (targets : list TargetConfig)
    (base : ModuleDefs) (w w' : World) (ws : Workspace) (G : VarTable)
    (done : list CompiledTarget) :
  compileAll stage targets base w = (Ok (ws, (G, done)), w') ->
  map c_target done = targets
  /\ fsReads w' = fsReads w ++ map fullPathOf (entryScripts stage targets)
  /\ map m_filename (compilerCalls w')
     = map m_filename (compilerCalls w)
       ++ map fullPathOf (entryScripts stage targets)
  /\ console w' = console w ++ Log "Compiling stage..." :: map spriteLine targets
  /\ zipFiles w' = zipFiles w /\ uidCount w' = uidCount w.
Proof.
  intros Hrun. unfold compileAll, bind, ret in Hrun.
  destruct (compileStage stage base w) as [[[ws0 G0]|err] w1] eqn:Hstage;
    [|discriminate].
  apply compileStage_footprint in Hstage.
  destruct Hstage as (Hz1 & Hu1 & _ & Hf1 & Hc1 & Hm1).
  cbn [fst snd] in Hrun.
  destruct (compileSprites base targets G0 [] w1) as [[[G' done']|err] w2] eqn:Hsp;
    [|discriminate].
  apply compileSprites_footprint in Hsp.
  destruct Hsp as (Hz & Hu & (new & Hd & Hnew & _) & Hf & Hc & Hm).
  simpl in Hd. inversion Hrun; subst.
  split; [reflexivity|]. unfold entryScripts.
  split; [rewrite Hf, Hf1, map_app, <- app_assoc; reflexivity|].
  split; [rewrite Hm, Hm1, map_app, <- app_assoc; reflexivity|].
  split; [rewrite Hc, Hc1, <- app_assoc; reflexivity|].
  split; congruence.
Qed.


(** X8.  After a successful compile phase the tables are sorted by kind:
    every entry of the global table sits under the name of its variable and
    that variable is marked global (also a variable that the stage script
    declared without the mark), and every entry of a sprite's own table
    sits under the name of its variable, which is not marked global.  So no
    sprite keeps a global variable as a local one. *)
Theorem compileAll_tables (stage : StageConfig) (targets : list TargetConfig)
    (base : ModuleDefs) (w w' : World) (ws : Workspace) (G : VarTable)
    (done : list CompiledTarget) :
  compileAll stage targets base w = (Ok (ws, (G, done)), w') ->
  tableOf true G
  /\ Forall (fun c => tableOf false (c_variables c)) done.
Proof.
  intros Hrun. unfold compileAll, bind, ret in Hrun.
  destruct (compileStage stage base w) as [[[ws0 G0]|err] w1] eqn:Hstage;
    [|discriminate].
  apply compileStage_footprint in Hstage.
  destruct Hstage as (_ & _ & HG0 & _).
  cbn [fst snd] in Hrun.
  destruct (compileSprites base targets G0 [] w1) as [[[G' done']|err] w2] eqn:Hsp;
    [|discriminate].
  apply compileSprites_footprint in Hsp.
  destruct Hsp as (_ & _ & (new & Hd & _ & Htab) & _).
  inversion Hrun; subst. simpl. apply Htab. exact HG0.
Qed.

End CompileLoop.

Lemma compileAll_footprint_witness :
  exists ws G done w',
    compileAll Demo.stage Demo.targets tt Demo.world0 = (Ok (ws, (G, done)), w')
    /\ map c_target done = Demo.targets
    /\ fsReads w' = ["proj/stage.fuse"; "proj/a.fuse"; "proj/b.fuse"]
    /\ console w'
       = [Log "Compiling stage..."; Log "Compiling sprite: A";
          Log "Compiling sprite: B"; Log "Compiling sprite: C"].
Proof.
  destruct (compileAll (T := Demo.types) Demo.stage Demo.targets tt Demo.world0)
    as [[[ws [G done]]|e] w'] eqn:Hrun; [|vm_compute in Hrun; discriminate Hrun].
  destruct (compileAll_footprint (T := Demo.types) (E := Demo.externals) Demo.stage Demo.targets tt Demo.world0 w' ws G
              done Hrun) as (Hd & Hf & _ & Hc & _).
  exists ws, G, done, w'. split; [reflexivity|]. split; [exact Hd|].
  split; [rewrite Hf | rewrite Hc]; reflexivity.
Defined.


Lemma compileAll_tables_witness :
  exists ws G done w',
    compileAll Demo.stage Demo.targets tt Demo.world0 = (Ok (ws, (G, done)), w')
    /\ JsMap.keys G = ["score"; "names"; "hiscore"]
    /\ tableOf true G
    /\ Forall (fun c => tableOf false (c_variables c)) done.
Proof.
  destruct (compileAll (T := Demo.types) Demo.stage Demo.targets tt Demo.world0)
    as [[[ws [G done]]|e] w'] eqn:Hrun; [|vm_compute in Hrun; discriminate Hrun].
  exists ws, G, done, w'. split; [reflexivity|].
  split; [vm_compute in Hrun; inversion Hrun; reflexivity|].
  exact (compileAll_tables (T := Demo.types) (E := Demo.externals) Demo.stage Demo.targets tt Demo.world0 w' ws G done Hrun).
Defined.

(* ===================================================================== *)
(** ** The scope handed to the compiler, target by target *)
(* ===================================================================== *)

Section ScopeTheorems.
Context {T : Types} {E : Externals}.
Import JsMap JsMapFacts.

(** The modules recorded by a step, from the file names recorded. *)
Lemma calls_filenames (w w' : World) (calls : list ModuleInfo) (files : list string) :
  compilerCalls w' = compilerCalls w ++ calls ->
  map m_filename (compilerCalls w') = map m_filename (compilerCalls w) ++ files ->
  map m_filename calls = files.
Proof.
  intros Hc Hf. rewrite Hc, map_app in Hf. apply app_inv_head in Hf. exact Hf.
Qed.

(** A target with an entry script among the targets compiled has a module
    among those handed to the compiler. *)
Lemma module_of_target (targets : list TargetConfig) (calls : list ModuleInfo)
    (t : TargetConfig) (e : string) :
  map m_filename calls
    = map fullPathOf (flat_map (fun t => scriptOf (t_entry t)) targets) ->
  In t targets -> scriptOf (t_entry t) = [e] ->
  exists m, In m calls /\ m_filename m = fullPathOf e.
Proof.
  intros Hf Hin He.
  assert (Hfile : In (fullPathOf e) (map m_filename calls)).
  { rewrite Hf. apply in_map. apply in_flat_map. exists t.
    split; [exact Hin|]. rewrite He. now left. }
  apply in_map_iff in Hfile. destruct Hfile as (m & Hm & Hin'). eauto.
Qed.

(** C3.  Take a run in declared order: the stage, the sprites [pre], the
    sprite [tk], the sprites [post]; let [name] be absent from the global
    table before [tk] is compiled and present after.  Then the four parts
    are the run of [compileAll] on [pre ++ tk :: post].  The modules handed
    to the compiler are, in order and one per entry script: those of the
    stage, of the sprites before [tk], of [tk] and, when the sprites after
    [tk] all compile, of each of them.  Every sprite after [tk] that has an
    entry script is compiled with a module that has [name] among its
    variables; the stage and every sprite before [tk] that has an entry
    script are compiled with a module that does not have it, and neither
    does the module handed over for [tk] itself. *)
Theorem visibility_ordering (stage : StageConfig) (base : ModuleDefs)
    (pre post : list TargetConfig) (tk : TargetConfig) (name : string)
    (w0 w1 wk wk' wend : World) (ws0 : Workspace) (G0 Gk Gk' : VarTable)
    (dk dk' : list CompiledTarget) (r : Outcome (VarTable * list CompiledTarget)) :
  compileStage stage base w0 = (Ok (ws0, G0), w1) ->
  compileSprites base pre G0 [] w1 = (Ok (Gk, dk), wk) ->
  compileSprite base (Gk, dk) tk wk = (Ok (Gk', dk'), wk') ->
  compileSprites base post Gk' dk' wk' = (r, wend) ->
  has Gk name = false ->
  has Gk' name = true ->
  compileAll stage (pre ++ tk :: post) base w0
    = (match r with Ok st => Ok (ws0, st) | Throw e => Throw e end, wend)
  /\ exists callsStage callsBefore callsK callsAfter,
       compilerCalls w1 = compilerCalls w0 ++ callsStage
       /\ compilerCalls wk = compilerCalls w1 ++ callsBefore
       /\ compilerCalls wk' = compilerCalls wk ++ callsK
       /\ compilerCalls wend = compilerCalls wk' ++ callsAfter
       /\ map m_filename callsStage = map fullPathOf (scriptOf (s_entry stage))
       /\ map m_filename callsBefore
          = map fullPathOf (flat_map (fun t => scriptOf (t_entry t)) pre)
       /\ map m_filename callsK = map fullPathOf (scriptOf (t_entry tk))
       /\ (forall st, r = Ok st ->
           map m_filename callsAfter
           = map fullPathOf (flat_map (fun t => scriptOf (t_entry t)) post))
       /\ (forall st t e, r = Ok st -> In t post -> scriptOf (t_entry t) = [e] ->
           exists m, In m callsAfter /\ m_filename m = fullPathOf e
                     /\ has (m_variables m) name = true)
       /\ (forall t e, In t pre -> scriptOf (t_entry t) = [e] ->
           exists m, In m callsBefore /\ m_filename m = fullPathOf e
                     /\ has (m_variables m) name = false)
       /\ (forall m, In m callsAfter -> has (m_variables m) name = true)
       /\ (forall m, In m callsStage -> has (m_variables m) name = false)
       /\ (forall m, In m callsBefore -> has (m_variables m) name = false)
       /\ (forall m, In m callsK -> has (m_variables m) name = false).
Proof.
  intros Hstage Hpre Hk Hpost Habs Hpres. split.
  - unfold compileAll, bind. rewrite Hstage. simpl.
    rewrite compileSprites_app, Hpre, compileSprites_cons, Hk, Hpost.
    unfold ret. destruct r; reflexivity.
  - destruct (compileStage_scope _ _ _ _ _ Hstage) as (cs & Hcs & Hs).
    destruct (compileSprites_scope _ _ _ _ _ _ _ Hpre) as (cb & Hcb & _ & Hb).
    destruct (Hb Gk dk eq_refl) as [_ Hb'].
    destruct (compileSprite_scope _ _ _ _ _ _ _ Hk) as (ck & Hck & Hkm & _).
    destruct (compileSprites_scope _ _ _ _ _ _ _ Hpost) as (ca & Hca & Ha & _).
    destruct (compileStage_footprint _ _ _ _ _ Hstage) as (_ & _ & _ & _ & _ & Hfs).
    destruct (compileSprites_footprint _ _ _ _ _ _ _ Hpre)
      as (_ & _ & _ & _ & _ & Hfb).
    destruct (compileSprite_footprint _ _ _ _ _ _ _ Hk) as (_ & _ & _ & _ & _ & Hfk).
    pose proof (calls_filenames _ _ _ _ Hcs Hfs) as Hns.
    pose proof (calls_filenames _ _ _ _ Hcb Hfb) as Hnb.
    pose proof (calls_filenames _ _ _ _ Hck Hfk) as Hnk.
    assert (Hna : forall st, r = Ok st ->
              map m_filename ca
              = map fullPathOf (flat_map (fun t => scriptOf (t_entry t)) post)).
    { intros [G' d'] Hr. subst r.
      destruct (compileSprites_footprint _ _ _ _ _ _ _ Hpost)
        as (_ & _ & _ & _ & _ & Hfa).
      exact (calls_filenames _ _ _ _ Hca Hfa). }
    assert (Hbefore : forall m, In m cb -> has (m_variables m) name = false).
    { intros m Hin. destruct (has (m_variables m) name) eqn:Hm; auto.
      rewrite (Hb' m name Hin Hm) in Habs. discriminate. }
    exists cs, cb, ck, ca.
    split; [exact Hcs|]. split; [exact Hcb|]. split; [exact Hck|].
    split; [exact Hca|]. split; [exact Hns|]. split; [exact Hnb|].
    split; [exact Hnk|]. split; [exact Hna|]. split; [|split; [|split; [|split; [|split]]]].
    + intros st t e Hr Hin He.
      destruct (module_of_target post ca t e (Hna st Hr) Hin He) as (m & Hm & Hf).
      exists m. split; [exact Hm|]. split; [exact Hf|]. apply (Ha m name Hm Hpres).
    + intros t e Hin He.
      destruct (module_of_target pre cb t e Hnb Hin He) as (m & Hm & Hf).
      exists m. split; [exact Hm|]. split; [exact Hf|]. apply Hbefore, Hm.
    + intros m Hin. apply (Ha m name Hin Hpres).
    + exact (fun m Hin => Hs m name Hin).
    + exact Hbefore.
    + intros m Hin. rewrite (Hkm m name Hin). exact Habs.
Qed.

(** C4.  From any point of the compile loop (the global table [G], the
    sprites [post] still to compile): every module handed to the compiler
    from then on has every name that [G] has; when the loop completes,
    these modules are, in order, one per sprite of [post] that has an entry
    script, so each such sprite is compiled with a module that has every
    name of [G]; and the global table at the end of the loop has them all.
    The same holds for each single turn of the loop. *)
Theorem globalScope_monotone (base : ModuleDefs) (post : list TargetConfig)
    (G : VarTable) (done : list CompiledTarget) (w w' : World)
    (r : Outcome (VarTable * list CompiledTarget)) :
  compileSprites base post G done w = (r, w') ->
  (exists calls,
     compilerCalls w' = compilerCalls w ++ calls
     /\ (forall m name, In m calls ->
         has G name = true -> has (m_variables m) name = true)
     /\ (forall st, r = Ok st ->
         map m_filename calls
         = map fullPathOf (flat_map (fun t => scriptOf (t_entry t)) post)
         /\ forall t e, In t post -> scriptOf (t_entry t) = [e] ->
            exists m, In m calls /\ m_filename m = fullPathOf e
                      /\ forall name, has G name = true ->
                                      has (m_variables m) name = true))
  /\ (forall G' done', r = Ok (G', done') ->
      forall name, has G name = true -> has G' name = true)
  /\ (forall t r1 w1 G1 done1,
      compileSprite base (G, done) t w = (r1, w1) -> r1 = Ok (G1, done1) ->
      forall name, has G name = true -> has G1 name = true).
Proof.
  intros Hrun.
  destruct (compileSprites_scope _ _ _ _ _ _ _ Hrun) as (calls & Hc & Hs & Hm).
  split; [|split].
  - exists calls. split; [exact Hc|]. split; [exact Hs|].
    intros [G' d'] Hr. subst r.
    destruct (compileSprites_footprint _ _ _ _ _ _ _ Hrun)
      as (_ & _ & _ & _ & _ & Hf).
    pose proof (calls_filenames _ _ _ _ Hc Hf) as Hn.
    split; [exact Hn|]. intros t e Hin He.
    destruct (module_of_target post calls t e Hn Hin He) as (m & Hin' & Hfile).
    exists m. split; [exact Hin'|]. split; [exact Hfile|].
    intros name Hname. apply (Hs m name Hin' Hname).
  - intros G' done' Hr. apply (Hm G' done' Hr).
  - intros t r1 w1 G1 done1 Hstep Hr1.
    destruct (compileSprite_scope _ _ _ _ _ _ _ Hstep) as (_ & _ & _ & H1).
    apply (H1 G1 done1 Hr1).
Qed.

End ScopeTheorems.

Lemma visibility_ordering_witness :
  exists w1 ws0 G0 wk Gk dk wk' Gk' dk' st wend,
    compileStage Demo.stage tt Demo.world0 = (Ok (ws0, G0), w1)
    /\ compileSprites tt Demo.spritesBefore G0 [] w1 = (Ok (Gk, dk), wk)
    /\ compileSprite tt (Gk, dk) Demo.spriteA wk = (Ok (Gk', dk'), wk')
    /\ compileSprites tt Demo.spritesAfter Gk' dk' wk' = (Ok st, wend)
    /\ JsMap.has Gk "hiscore" = false
    /\ JsMap.has Gk' "hiscore" = true
    /\ exists callsStage callsBefore callsK callsAfter,
         compilerCalls w1 = compilerCalls Demo.world0 ++ callsStage
         /\ compilerCalls wk = compilerCalls w1 ++ callsBefore
         /\ compilerCalls wk' = compilerCalls wk ++ callsK
         /\ compilerCalls wend = compilerCalls wk' ++ callsAfter
         /\ map m_filename callsBefore = ["proj/b.fuse"]
         /\ map m_filename callsAfter = ["proj/b.fuse"]
         /\ (exists m, In m callsAfter /\ m_filename m = "proj/b.fuse"
                       /\ JsMap.has (m_variables m) "hiscore" = true)
         /\ (exists m, In m callsBefore /\ m_filename m = "proj/b.fuse"
                       /\ JsMap.has (m_variables m) "hiscore" = false).
Proof.
  destruct (compileStage (T := Demo.types) Demo.stage tt Demo.world0)
    as [[[ws0 G0]|e] w1] eqn:Hs; [|vm_compute in Hs; discriminate Hs].
  pose proof Hs as Hc. vm_compute in Hc. injection Hc as Hws0 HG0 Hw1.
  subst ws0 G0 w1.
  match type of Hs with
  | _ = (Ok (_, ?G0), ?w1) =>
      destruct (compileSprites (T := Demo.types) tt Demo.spritesBefore G0 [] w1)
        as [[[Gk dk]|e] wk] eqn:Hp; [|vm_compute in Hp; discriminate Hp]
  end.
  pose proof Hp as Hc. vm_compute in Hc. injection Hc as HGk Hdk Hwk.
  subst Gk dk wk.
  match type of Hp with
  | _ = (Ok (?Gk, ?dk), ?wk) =>
      destruct (compileSprite (T := Demo.types) tt (Gk, dk) Demo.spriteA wk)
        as [[[Gk' dk']|e] wk'] eqn:Hk; [|vm_compute in Hk; discriminate Hk]
  end.
  pose proof Hk as Hc. vm_compute in Hc. injection Hc as HGk' Hdk' Hwk'.
  subst Gk' dk' wk'.
  match type of Hk with
  | _ = (Ok (?Gk', ?dk'), ?wk') =>
      destruct (compileSprites (T := Demo.types) tt Demo.spritesAfter Gk' dk' wk')
        as [[st|e] wend] eqn:Ha; [|vm_compute in Ha; discriminate Ha]
  end.
  destruct (visibility_ordering (T := Demo.types) (E := Demo.externals)
              Demo.stage tt Demo.spritesBefore Demo.spritesAfter Demo.spriteA
              "hiscore" Demo.world0 _ _ _ _ _ _ _ _ _ _ _ Hs Hp Hk Ha
              eq_refl eq_refl)
    as (_ & cs & cb & ck & ca & H1 & H2 & H3 & H4 & _ & Hnb & _ & Hna & Hafter
        & Hbefore & _).
  eexists _, _, _, _, _, _, _, _, _, st, wend.
  split; [exact Hs|]. split; [exact Hp|]. split; [exact Hk|]. split; [exact Ha|].
  split; [reflexivity|]. split; [reflexivity|].
  exists cs, cb, ck, ca.
  split; [exact H1|]. split; [exact H2|]. split; [exact H3|]. split; [exact H4|].
  split; [exact Hnb|]. split; [exact (Hna st eq_refl)|]. split.
  - apply (Hafter st (Demo.plainTarget "D" (Some "b.fuse") None) "b.fuse" eq_refl);
      [left; reflexivity | reflexivity].
  - apply (Hbefore (Demo.plainTarget "B" (Some "b.fuse") None) "b.fuse");
      [left; reflexivity | reflexivity].
Defined.

Lemma globalScope_monotone_witness :
  let G : VarTable := [("score", (Demo.scalarVar "score" true, JPrim (PNum 0)))] in
  exists G' done' w',
    compileSprites tt Demo.targets G [] Demo.world0 = (Ok (G', done'), w')
    /\ JsMap.has G' "hiscore" = true
    /\ (exists calls,
          compilerCalls w' = compilerCalls Demo.world0 ++ calls
          /\ map m_filename calls = ["proj/a.fuse"; "proj/b.fuse"]
          /\ (forall m, In m calls -> JsMap.has (m_variables m) "score" = true)
          /\ exists m, In m calls /\ m_filename m = "proj/b.fuse"
                       /\ JsMap.has (m_variables m) "score" = true)
    /\ (forall name, JsMap.has G name = true -> JsMap.has G' name = true).
Proof.
  intros G.
  destruct (compileSprites (T := Demo.types) tt Demo.targets G [] Demo.world0)
    as [[[G' done']|e] w'] eqn:Hrun; [|vm_compute in Hrun; discriminate Hrun].
  destruct (globalScope_monotone (T := Demo.types) (E := Demo.externals) tt
              Demo.targets G [] Demo.world0 w' _ Hrun)
    as ((calls & Hc & Hall & Hok) & Hend & _).
  destruct (Hok (G', done') eq_refl) as (Hn & Heach).
  exists G', done', w'. split; [reflexivity|].
  split; [vm_compute in Hrun; injection Hrun as HG _ _; subst G'; reflexivity|].
  split.
  - exists calls. split; [exact Hc|]. split; [exact Hn|]. split.
    + intros m Hin. apply (Hall m "score" Hin). reflexivity.
    + destruct (Heach (Demo.plainTarget "B" (Some "b.fuse") None) "b.fuse")
        as (m & Hin & Hf & Hs); [right; left; reflexivity | reflexivity |].
      exists m. split; [exact Hin|]. split; [exact Hf|]. apply Hs. reflexivity.
  - exact (Hend G' done' eq_refl).
Defined.

(* ===================================================================== *)
(** ** The manifest phase: assets read, stored and named *)
(* ===================================================================== *)

Section AssetPhase.
Import JsMap JsMapFacts.
Context {T : Types} {E : Externals}.

Lemma assetPhase_nil (w w' : World) :
  console w' = console w -> compilerCalls w' = compilerCalls w ->
  zipFiles w' = zipFiles w -> fsReads w' = fsReads w ->
  assetPhase [] w w' None.
Proof.
  intros Hc Hm Hz Hf. unfold assetPhase. simpl. rewrite app_nil_r.
  split; [assumption|]. split; [assumption|]. split; [|assumption].
  intros k. now rewrite Hz.
Qed.

Lemma assetPhase_seq (l1 l2 : list AssetDecl) (w w1 w2 : World)
    (f : option Error) :
  assetPhase l1 w w1 None -> assetPhase l2 w1 w2 f ->
  assetPhase (l1 ++ l2) w w2 f.
Proof.
  intros (Hc1 & Hm1 & Hz1 & Hf1) (Hc2 & Hm2 & Hz2 & Hf2). unfold assetPhase.
  split; [congruence|]. split; [congruence|]. split; [auto|].
  destruct f as [e|].
  - destruct Hf2 as (pre & d & post & Hl & Hd & Hf2).
    exists (l1 ++ pre), d, post. subst l2.
    split; [now rewrite <- app_assoc|]. split; [assumption|].
    rewrite Hf2, Hf1. rewrite <- (app_assoc l1 pre [d]).
    rewrite (flat_map_app attempted l1 (pre ++ [d])). now rewrite <- app_assoc.
  - rewrite Hf2, Hf1, flat_map_app. now rewrite <- app_assoc.
Qed.

Lemma assetPhase_fail (l1 l2 : list AssetDecl) (w w1 : World) (e : Error) :
  assetPhase l1 w w1 (Some e) -> assetPhase (l1 ++ l2) w w1 (Some e).
Proof.
  intros (Hc1 & Hm1 & Hz1 & pre & d & post & Hl & Hd & Hf). unfold assetPhase.
  split; [assumption|]. split; [assumption|]. split; [assumption|].
  exists pre, d, (post ++ l2). subst l1.
  split; [rewrite <- app_assoc; reflexivity|]. split; assumption.
Qed.

Lemma processAsset_phase (d : AssetDecl) (type : string) (w w' : World)
    (r : Outcome AssetInfo) :
  processAsset (a_path d) type w = (r, w') ->
  uidCount w' = uidCount w
  /\ assetPhase [d] w w' (failureOf r)
  /\ forall a, r = Ok a ->
       exists path data,
         a_path d = Some path
         /\ readFileSync (fullPathOf path) = Ok data
         /\ a = assetInfoOf path data
         /\ zipFiles w' = set (zipFiles w) (md5ext a) data.
Proof.
  intros Hrun. unfold processAsset in Hrun.
  destruct (a_path d) as [p|] eqn:Hp.
  - unfold bind, fs_read, zip_file, ret in Hrun.
    destruct (readFileSync (fullPathOf p)) as [data|e] eqn:Hread;
      inversion Hrun; subst; clear Hrun.
    + split; [reflexivity|]. split.
      * unfold assetPhase. cbn [console compilerCalls zipFiles fsReads failureOf].
        split; [reflexivity|]. split; [reflexivity|].
        split; [intros k; apply has_set_mono|].
        simpl. unfold attempted. rewrite Hp. reflexivity.
      * intros a Ha. inversion Ha; subst. exists p, data.
        split; [reflexivity|]. split; [exact Hread|]. split; reflexivity.
    + split; [reflexivity|]. split.
      * unfold assetPhase. cbn [console compilerCalls zipFiles fsReads failureOf].
        split; [reflexivity|]. split; [reflexivity|]. split; [auto|].
        exists [], d, []. split; [reflexivity|]. split.
        -- right. exists p. auto.
        -- simpl. unfold attempted. rewrite Hp. reflexivity.
      * intros a Ha. discriminate Ha.
  - unfold throw in Hrun. inversion Hrun; subst; clear Hrun.
    split; [reflexivity|]. split.
    + unfold assetPhase. cbn [failureOf].
      split; [reflexivity|]. split; [reflexivity|]. split; [auto|].
      exists [], d, []. split; [reflexivity|]. split.
      * left. auto.
      * simpl. unfold attempted. rewrite Hp. simpl. now rewrite app_nil_r.
    + intros a Ha. discriminate Ha.
Qed.

Lemma madeFrom_mono {B : Type} (make : AssetDecl -> AssetInfo -> B)
    (z z' : JsMap.t string) (d : AssetDecl) (b : B) :
  (forall k, has z k = true -> has z' k = true) ->
  madeFrom make z d b -> madeFrom make z' d b.
Proof.
  intros Hz (p & data & Hp & Hr & Hb & Hh). exists p, data. auto.
Qed.

(** The loop over declared assets, for costumes and for sounds alike. *)
Lemma mapM_assets {B : Type} (type : string)
    (make : AssetDecl -> AssetInfo -> B) (f : AssetDecl -> M B)
    (decls : list AssetDecl) :
  (forall d w,
     f d w = (a <- processAsset (a_path d) type ;; ret (make d a)) w) ->
  forall (w w' : World) (r : Outcome (list B)),
  mapM f decls w = (r, w') ->
  uidCount w' = uidCount w
  /\ assetPhase decls w w' (failureOf r)
  /\ forall bs, r = Ok bs -> Forall2 (madeFrom make (zipFiles w')) decls bs.
Proof.
  intros Hf.
  induction decls as [|d decls IH]; intros w w' r Hrun.
  - simpl in Hrun. unfold ret in Hrun. inversion Hrun; subst.
    split; [reflexivity|]. split; [apply assetPhase_nil; reflexivity|].
    intros bs Hbs. inversion Hbs; subst. constructor.
  - simpl in Hrun. unfold bind in Hrun. rewrite Hf in Hrun.
    unfold bind in Hrun.
    destruct (processAsset (a_path d) type w) as [[a|e] w1] eqn:Hone;
      apply processAsset_phase in Hone; destruct Hone as (Hu1 & Hph1 & Hok1).
    + unfold ret at 1 in Hrun.
      destruct (mapM f decls w1) as [[bs|e] w2] eqn:Hrest;
        apply IH in Hrest; destruct Hrest as (Hu & Hph & Hok);
        unfold ret in Hrun; inversion Hrun; subst; clear Hrun.
      * split; [congruence|]. split.
        -- apply (assetPhase_seq [d] decls w w1 w'); assumption.
        -- intros bs' Hbs. inversion Hbs; subst. constructor; [|auto].
           destruct (Hok1 a eq_refl) as (p & data & Hp & Hr & Ha & Hz).
           exists p, data. repeat (split; [assumption|]). split; [congruence|].
           destruct Hph as (_ & _ & Hmono & _). apply Hmono.
           rewrite Hz, <- Ha. apply has_set_same.
      * split; [congruence|]. split.
        -- apply (assetPhase_seq [d] decls w w1 w'); assumption.
        -- intros bs' Hbs. discriminate Hbs.
    + unfold ret in Hrun. inversion Hrun; subst; clear Hrun.
      split; [assumption|]. split.
      * apply (assetPhase_fail [d] decls). assumption.
      * intros bs Hbs. discriminate Hbs.
Qed.


Lemma madeFrom_costume_stored (z : JsMap.t string) (d : AssetDecl) (c : CostumeEntry) :
  madeFrom costumeFrom z d c ->
  has z (co_md5ext c) = true
  /\ co_md5ext c
     = String.append (co_assetId c) (String.append "." (co_dataFormat c)).
Proof.
  intros (p & data & _ & _ & Hc & Hh). subst c. split; [exact Hh | reflexivity].
Qed.

Lemma madeFrom_sound_stored (z : JsMap.t string) (d : AssetDecl) (s : SoundEntry) :
  madeFrom soundFrom z d s ->
  has z (so_md5ext s) = true
  /\ so_md5ext s
     = String.append (so_assetId s) (String.append "." (so_dataFormat s))
  /\ so_format s = so_dataFormat s.
Proof.
  intros (p & data & _ & _ & Hs & Hh). subst s.
  split; [exact Hh|]. split; reflexivity.
Qed.

Lemma Forall2_In_r {A B : Type} (P : A -> B -> Prop) (l : list A) (l' : list B) :
  Forall2 P l l' -> forall b, In b l' -> exists a, In a l /\ P a b.
Proof.
  induction 1 as [|a b l l' Hab H IH]; intros b0 Hin; [contradiction|].
  destruct Hin as [-> | Hin].
  - exists a. split; [now left | assumption].
  - destruct (IH _ Hin) as (a0 & Ha0 & HP). exists a0. split; [now right | assumption].
Qed.

Lemma nonEmpty_false (decls : option (list AssetDecl)) :
  nonEmpty decls = false -> opt_or decls [] = [].
Proof. destruct decls as [[|d l]|]; simpl; auto; discriminate. Qed.

Lemma buildCostumes_phase (type : string) (decls : option (list AssetDecl))
    (w w' : World) (r : Outcome (list CostumeEntry)) :
  buildCostumes type decls w = (r, w') ->
  uidCount w' = uidCount w
  /\ assetPhase (opt_or decls []) w w' (failureOf r)
  /\ forall cs, r = Ok cs ->
       cs <> []
       /\ (forall c, In c cs ->
           has (zipFiles w') (co_md5ext c) = true
           /\ co_md5ext c
              = String.append (co_assetId c) (String.append "." (co_dataFormat c)))
       /\ (if nonEmpty decls
           then Forall2 (madeFrom costumeFrom (zipFiles w')) (opt_or decls []) cs
           else cs = [placeholderCostume]).
Proof.
  intros Hrun. unfold buildCostumes in Hrun.
  destruct (nonEmpty decls) eqn:Hne.
  - apply (mapM_assets type costumeFrom) in Hrun; [|reflexivity].
    destruct Hrun as (Hu & Hph & Hok).
    split; [assumption|]. split; [assumption|].
    intros cs Hcs. specialize (Hok cs Hcs). split; [|split; [|assumption]].
    + destruct decls as [[|d l]|]; try discriminate. simpl in Hok.
      inversion Hok; subst. discriminate.
    + intros c Hc. destruct (Forall2_In_r _ _ _ Hok c Hc) as (d & _ & Hd).
      apply (madeFrom_costume_stored _ d). exact Hd.
  - unfold bind in Hrun. rewrite emptyCostume_eq in Hrun. unfold ret in Hrun.
    inversion Hrun; subst; clear Hrun. rewrite (nonEmpty_false _ Hne).
    split; [reflexivity|]. split.
    + unfold assetPhase. cbn [console compilerCalls zipFiles fsReads failureOf].
      split; [reflexivity|]. split; [reflexivity|].
      split; [intros k; apply has_set_mono|].
      simpl. now rewrite app_nil_r.
    + intros cs Hcs. inversion Hcs; subst. split; [discriminate|].
      split; [|reflexivity].
      intros c [<- | []]. cbn [zipFiles]. unfold placeholderCostume.
      cbn [co_md5ext co_assetId co_dataFormat]. split.
      * apply has_set_same.
      * f_equal.
Qed.

Lemma buildSounds_phase (decls : option (list AssetDecl))
    (w w' : World) (r : Outcome (list SoundEntry)) :
  buildSounds decls w = (r, w') ->
  uidCount w' = uidCount w
  /\ assetPhase (opt_or decls []) w w' (failureOf r)
  /\ forall ss, r = Ok ss ->
       Forall2 (madeFrom soundFrom (zipFiles w')) (opt_or decls []) ss.
Proof.
  intros Hrun. unfold buildSounds in Hrun.
  destruct (nonEmpty decls) eqn:Hne.
  - apply (mapM_assets "sound" soundFrom) in Hrun; [|reflexivity]. exact Hrun.
  - unfold ret in Hrun. inversion Hrun; subst; clear Hrun.
    rewrite (nonEmpty_false _ Hne).
    split; [reflexivity|]. split; [apply assetPhase_nil; reflexivity|].
    intros ss Hss. inversion Hss; subst. constructor.
Qed.

Lemma rekeyAll_phase (table : VarTable) (w : World) :
  exists objs w1,
    rekeyAll table w = (Ok objs, w1) /\ assetPhase [] w w1 None.
Proof.
  destruct (rekeyAll_total table w) as (objs & Hrun).
  eexists. eexists. split; [exact Hrun|]. apply assetPhase_nil; reflexivity.
Qed.

(** What the three steps that build a target leave behind, whatever the
    fields of the target are. *)
Lemma target_phase {A : Type} (table : VarTable) (type : string)
    (costumes sounds : option (list AssetDecl))
    (k : JsMap.t (string * JsValue) * JsMap.t (string * JsValue) ->
         list CostumeEntry -> list SoundEntry -> A)
    (w w' : World) (r : Outcome A) :
  (objs <- rekeyAll table ;;
   cs <- buildCostumes type costumes ;;
   ss <- buildSounds sounds ;;
   ret (k objs cs ss)) w = (r, w') ->
  assetPhase (opt_or costumes [] ++ opt_or sounds []) w w' (failureOf r)
  /\ forall a, r = Ok a ->
       exists objs cs ss,
         a = k objs cs ss
         /\ cs <> []
         /\ (forall c, In c cs ->
             has (zipFiles w') (co_md5ext c) = true
             /\ co_md5ext c
                = String.append (co_assetId c)
                                (String.append "." (co_dataFormat c)))
         /\ (if nonEmpty costumes
             then Forall2 (madeFrom costumeFrom (zipFiles w'))
                          (opt_or costumes []) cs
             else cs = [placeholderCostume])
         /\ Forall2 (madeFrom soundFrom (zipFiles w')) (opt_or sounds []) ss.
Proof.
  intros Hrun. unfold bind in Hrun.
  destruct (rekeyAll_phase table w) as (objs & w1 & Hrk & Hph0).
  rewrite Hrk in Hrun.
  destruct (buildCostumes type costumes w1) as [[cs|e] w2] eqn:Hcos;
    apply buildCostumes_phase in Hcos; destruct Hcos as (_ & Hph1 & Hok1).
  2:{ inversion Hrun; subst; clear Hrun. split; [|intros a Ha; discriminate Ha].
      apply (assetPhase_seq [] _ w w1 w' _ Hph0).
      apply assetPhase_fail. exact Hph1. }
  destruct (buildSounds sounds w2) as [[ss|e] w3] eqn:Hsnd;
    apply buildSounds_phase in Hsnd; destruct Hsnd as (_ & Hph2 & Hok2);
    unfold ret in Hrun; inversion Hrun; subst; clear Hrun.
  - split.
    + apply (assetPhase_seq [] _ w w1 w' _ Hph0).
      apply (assetPhase_seq _ _ w1 w2 w' _ Hph1 Hph2).
    + intros a Ha. inversion Ha; subst. exists objs, cs, ss.
      destruct (Hok1 cs eq_refl) as (Hne & Hst & Hmade).
      destruct Hph2 as (_ & _ & Hmono & _).
      split; [reflexivity|]. split; [assumption|]. split; [|split].
      * intros c Hc. destruct (Hst c Hc). split; auto.
      * destruct (nonEmpty costumes); [|assumption].
        eapply Forall2_impl; [|exact Hmade].
        intros d c Hdc. eapply madeFrom_mono; eauto.
      * apply Hok2. reflexivity.
  - split; [|intros a Ha; discriminate Ha].
    apply (assetPhase_seq [] _ w w1 w' _ Hph0).
    apply (assetPhase_seq _ _ w1 w2 w' _ Hph1 Hph2).
Qed.

End AssetPhase.

Section ManifestPhase.
Import JsMap JsMapFacts.
Context {T : Types} {E : Externals}.

Lemma assetsStored_mono (z z' : JsMap.t string) (mt : ManifestTarget) :
  (forall k, has z k = true -> has z' k = true) ->
  assetsStored z mt -> assetsStored z' mt.
Proof.
  intros Hz (Hne & Hc & Hs). split; [assumption|]. split.
  - intros c Hin. destruct (Hc c Hin). auto.
  - intros s Hin. destruct (Hs s Hin) as (H1 & H2 & H3). auto.
Qed.

Lemma assetsStored_intro (z : JsMap.t string) (mt : ManifestTarget)
    (sounds : list AssetDecl) :
  mt_costumes mt <> [] ->
  (forall c, In c (mt_costumes mt) ->
     has z (co_md5ext c) = true
     /\ co_md5ext c
        = String.append (co_assetId c) (String.append "." (co_dataFormat c))) ->
  Forall2 (madeFrom soundFrom z) sounds (mt_sounds mt) ->
  assetsStored z mt.
Proof.
  intros Hne Hc Hs. split; [assumption|]. split; [assumption|].
  intros s Hin. destruct (Forall2_In_r _ _ _ Hs s Hin) as (d & _ & Hd).
  apply (madeFrom_sound_stored _ d). exact Hd.
Qed.

Lemma buildSpriteTarget_phase (i : nat) (c : CompiledTarget) (w w' : World)
    (r : Outcome ManifestTarget) :
  buildSpriteTarget i c w = (r, w') ->
  assetPhase (targetAssets (c_target c)) w w' (failureOf r)
  /\ forall mt, r = Ok mt ->
       assetsStored (zipFiles w') mt
       /\ mt_isStage mt = false
       /\ mt_name mt = t_name (c_target c)
       /\ mt_blocks mt = c_workspace c
       /\ mt_layerOrder mt
          = opt_or (t_layerOrder (c_target c)) (Z.of_nat i + 1)%Z
       /\ mt_sprite mt <> None.
Proof.
  intros Hrun. unfold buildSpriteTarget in Hrun.
  apply (target_phase (c_variables c) "costume" (t_costumes (c_target c))
           (t_sounds (c_target c))
           (fun objs costumes sounds =>
              mkTarget false (t_name (c_target c)) (fst objs) (snd objs)
                (c_workspace c) (opt_or (t_currentCostume (c_target c)) 0%Z)
                costumes sounds (opt_or (t_volume (c_target c)) 100%Z)
                (opt_or (t_layerOrder (c_target c)) (Z.of_nat i + 1)%Z)
                (opt_or (t_tempo (c_target c)) 60%Z)
                (Some (mkSpriteFields
                         (opt_or (t_visible (c_target c)) true)
                         (opt_or (t_x (c_target c)) 0%Z)
                         (opt_or (t_y (c_target c)) 0%Z)
                         (opt_or (t_size (c_target c)) 100%Z)
                         (opt_or (t_direction (c_target c)) 90%Z)
                         (opt_or (t_draggable (c_target c)) false)
                         (opt_or (t_rotationStyle (c_target c)) "all around")))))
    in Hrun.
  destruct Hrun as (Hph & Hok). split; [exact Hph|].
  intros mt Hmt. destruct (Hok mt Hmt) as (objs & cs & ss & -> & Hne & Hst & _ & Hss).
  split; [|repeat (split; [reflexivity|]); discriminate].
  eapply assetsStored_intro; eauto.
Qed.

Lemma buildStageTarget_phase (stage : StageConfig) (ws : Workspace) (G : VarTable)
    (w w' : World) (r : Outcome ManifestTarget) :
  buildStageTarget stage ws G w = (r, w') ->
  assetPhase (opt_or (s_backdrops stage) [] ++ opt_or (s_sounds stage) []) w w'
             (failureOf r)
  /\ forall mt, r = Ok mt ->
       assetsStored (zipFiles w') mt
       /\ mt_isStage mt = true
       /\ mt_name mt = "Stage"
       /\ mt_blocks mt = ws
       /\ mt_layerOrder mt = 0%Z
       /\ mt_sprite mt = None.
Proof.
  intros Hrun. unfold buildStageTarget in Hrun.
  apply (target_phase G "backdrop" (s_backdrops stage) (s_sounds stage)
           (fun objs costumes sounds =>
              mkTarget true "Stage" (fst objs) (snd objs) ws
                (opt_or (s_currentBackdrop stage) 0%Z) costumes sounds
                (opt_or (s_volume stage) 100%Z) 0%Z
                (opt_or (s_tempo stage) 60%Z) None))
    in Hrun.
  destruct Hrun as (Hph & Hok). split; [exact Hph|].
  intros mt Hmt. destruct (Hok mt Hmt) as (objs & cs & ss & -> & Hne & Hst & _ & Hss).
  split; [|repeat (split; [reflexivity|]); reflexivity].
  eapply assetsStored_intro; eauto.
Qed.

Lemma buildSpriteTargets_phase (cs : list CompiledTarget) :
  forall (i : nat) (w w' : World) (r : Outcome (list ManifestTarget)),
  buildSpriteTargets i cs w = (r, w') ->
  assetPhase (flat_map (fun c => targetAssets (c_target c)) cs) w w' (failureOf r)
  /\ forall ts, r = Ok ts ->
       List.length ts = List.length cs
       /\ Forall (assetsStored (zipFiles w')) ts
       /\ forall j c, nth_error cs j = Some c ->
            exists mt,
              nth_error ts j = Some mt
              /\ mt_isStage mt = false
              /\ mt_name mt = t_name (c_target c)
              /\ mt_blocks mt = c_workspace c
              /\ mt_layerOrder mt
                 = opt_or (t_layerOrder (c_target c)) (Z.of_nat (i + j) + 1)%Z
              /\ mt_sprite mt <> None.
Proof.
  induction cs as [|c cs IH]; intros i w w' r Hrun.
  - simpl in Hrun. unfold ret in Hrun. inversion Hrun; subst.
    split; [apply assetPhase_nil; reflexivity|].
    intros ts Hts. inversion Hts; subst. split; [reflexivity|].
    split; [constructor|]. intros [|j] c' Hj; discriminate Hj.
  - simpl in Hrun. unfold bind in Hrun.
    destruct (buildSpriteTarget i c w) as [[mt|e] w1] eqn:Hone;
      apply buildSpriteTarget_phase in Hone; destruct Hone as (Hph1 & Hok1).
    2:{ inversion Hrun; subst; clear Hrun. split; [|intros ts Hts; discriminate Hts].
        simpl. apply assetPhase_fail. exact Hph1. }
    destruct (buildSpriteTargets (S i) cs w1) as [[ts|e] w2] eqn:Hrest;
      apply IH in Hrest; destruct Hrest as (Hph & Hok);
      unfold ret in Hrun; inversion Hrun; subst; clear Hrun.
    + split; [simpl; eapply assetPhase_seq; eauto|].
      intros ts' Hts. inversion Hts; subst.
      destruct (Hok ts eq_refl) as (Hlen & Hall & Hnth).
      destruct (Hok1 mt eq_refl) as (Hst & Hfields).
      split; [simpl; congruence|]. split.
      * constructor; [|assumption].
        destruct Hph as (_ & _ & Hmono & _).
        eapply assetsStored_mono; eauto.
      * intros [|j] c' Hj; simpl in Hj.
        -- inversion Hj; subst. exists mt. split; [reflexivity|].
           rewrite Nat.add_0_r. exact Hfields.
        -- destruct (Hnth j c' Hj) as (mt' & Hmt' & Hf').
           exists mt'. split; [exact Hmt'|].
           replace (i + S j) with (S i + j) by lia. exact Hf'.
    + split; [simpl; eapply assetPhase_seq; eauto|].
      intros ts' Hts. discriminate Hts.
Qed.

Lemma buildManifest_phase (inputJson : Project)
    (compiled : Workspace * (VarTable * list CompiledTarget))
    (w w' : World) (r : Outcome ProjectJson) :
  buildManifest inputJson compiled w = (r, w') ->
  assetPhase (declaredAssets (p_stage inputJson) (snd (snd compiled))) w w'
             (failureOf r)
  /\ forall pj, r = Ok pj ->
       exists st ts,
         pj = mkProjectJson (st :: ts) (opt_or (p_extensions inputJson) [])
         /\ Forall (assetsStored (zipFiles w')) (st :: ts)
         /\ (mt_isStage st = true /\ mt_name st = "Stage"
             /\ mt_blocks st = fst compiled /\ mt_layerOrder st = 0%Z
             /\ mt_sprite st = None)
         /\ List.length ts = List.length (snd (snd compiled))
         /\ forall j c, nth_error (snd (snd compiled)) j = Some c ->
              exists mt,
                nth_error ts j = Some mt
                /\ mt_isStage mt = false
                /\ mt_name mt = t_name (c_target c)
                /\ mt_blocks mt = c_workspace c
                /\ mt_layerOrder mt
                   = opt_or (t_layerOrder (c_target c)) (Z.of_nat j + 1)%Z
                /\ mt_sprite mt <> None.
Proof.
  intros Hrun. unfold buildManifest, bind in Hrun. unfold declaredAssets.
  destruct (buildStageTarget (p_stage inputJson) (fst compiled) (fst (snd compiled)) w)
    as [[st|e] w1] eqn:Hstage;
    apply buildStageTarget_phase in Hstage; destruct Hstage as (Hph1 & Hok1).
  2:{ inversion Hrun; subst; clear Hrun. split; [|intros pj Hpj; discriminate Hpj].
      apply assetPhase_fail. exact Hph1. }
  destruct (buildSpriteTargets 0 (snd (snd compiled)) w1) as [[ts|e] w2] eqn:Hrest;
    apply buildSpriteTargets_phase in Hrest; destruct Hrest as (Hph & Hok);
    unfold ret in Hrun; inversion Hrun; subst; clear Hrun.
  - split; [eapply assetPhase_seq; eauto|].
    intros pj Hpj. inversion Hpj; subst. exists st, ts.
    destruct (Hok ts eq_refl) as (Hlen & Hall & Hnth).
    destruct (Hok1 st eq_refl) as (Hst & Hfields).
    split; [reflexivity|]. split; [|split; [exact Hfields|split; [exact Hlen|]]].
    + constructor; [|assumption].
      destruct Hph as (_ & _ & Hmono & _). eapply assetsStored_mono; eauto.
    + intros j c Hj. destruct (Hnth j c Hj) as (mt & Hmt & Hf). exists mt.
      split; [exact Hmt | exact Hf].
  - split; [eapply assetPhase_seq; eauto|].
    intros pj Hpj. discriminate Hpj.
Qed.

End ManifestPhase.

(* ===================================================================== *)
(** ** The placeholder image in the archive *)
(* ===================================================================== *)

Section Placeholder.
Import JsMap JsMapFacts.
Context {T : Types} {E : Externals}.

Hypothesis unique : placeholderUnique.

Lemma keepsPlaceholder_refl (w : World) : keepsPlaceholder w w.
Proof. intros H. exact H. Qed.

Lemma keepsPlaceholder_trans (w1 w2 w3 : World) :
  keepsPlaceholder w1 w2 -> keepsPlaceholder w2 w3 -> keepsPlaceholder w1 w3.
Proof. intros H1 H2 H. apply H2, H1, H. Qed.

Lemma processAsset_keeps (p : option string) (type : string) :
  keeps keepsPlaceholder (processAsset p type).
Proof.
  intros w. unfold processAsset. destruct p as [p|]; [|apply keepsPlaceholder_refl].
  unfold bind, fs_read, zip_file, ret.
  destruct (readFileSync (fullPathOf p)) as [data|e] eqn:Hread;
    intros Hget; cbn [snd zipFiles] in *; [|exact Hget].
  rewrite get_set.
  match goal with
  | |- (if String.eqb ?k _ then _ else _) = _ => destruct (String.eqb k _) eqn:Hk
  end; [|exact Hget].
  apply String.eqb_eq in Hk. f_equal. apply (unique p data Hread). exact Hk.
Qed.

Lemma emptyCostume_stores (w : World) :
  get (zipFiles (snd (emptyCostume w))) (co_md5ext placeholderCostume)
  = Some EMPTY_SVG.
Proof.
  rewrite emptyCostume_eq. cbn [snd zipFiles].
  unfold placeholderCostume. cbn [co_md5ext]. apply get_set_same.
Qed.

Lemma buildCostumes_keeps (type : string) (decls : option (list AssetDecl)) :
  keeps keepsPlaceholder (buildCostumes type decls).
Proof.
  intros w. unfold buildCostumes. destruct (nonEmpty decls).
  - apply (mapM_preserves keepsPlaceholder); auto using keepsPlaceholder_refl.
    + exact keepsPlaceholder_trans.
    + intros a w0. unfold costumeOf.
      apply (keeps_bind keepsPlaceholder keepsPlaceholder_trans).
      * apply processAsset_keeps.
      * intros ai. apply keeps_ret. exact keepsPlaceholder_refl.
  - intros _. unfold bind.
    pose proof (emptyCostume_stores w) as Hs.
    destruct (emptyCostume w) as [[c|e] w1]; exact Hs.
Qed.

Lemma buildSounds_keeps (decls : option (list AssetDecl)) :
  keeps keepsPlaceholder (buildSounds decls).
Proof.
  intros w. unfold buildSounds. destruct (nonEmpty decls).
  - apply (mapM_preserves keepsPlaceholder); auto using keepsPlaceholder_refl.
    + exact keepsPlaceholder_trans.
    + intros a w0. unfold soundOf.
      apply (keeps_bind keepsPlaceholder keepsPlaceholder_trans).
      * apply processAsset_keeps.
      * intros ai. apply keeps_ret. exact keepsPlaceholder_refl.
  - apply keepsPlaceholder_refl.
Qed.

Lemma rekeyAll_keeps (table : VarTable) : keeps keepsPlaceholder (rekeyAll table).
Proof.
  intros w. destruct (rekeyAll_total table w) as (objs & Hrun). rewrite Hrun.
  intros H. exact H.
Qed.

(** The three steps that build a target: they keep the placeholder image,
    and store it when no costume is declared. *)
Lemma target_placeholder {A : Type} (table : VarTable) (type : string)
    (costumes sounds : option (list AssetDecl))
    (k : JsMap.t (string * JsValue) * JsMap.t (string * JsValue) ->
         list CostumeEntry -> list SoundEntry -> A)
    (w w' : World) (r : Outcome A) :
  (objs <- rekeyAll table ;;
   cs <- buildCostumes type costumes ;;
   ss <- buildSounds sounds ;;
   ret (k objs cs ss)) w = (r, w') ->
  keepsPlaceholder w w'
  /\ (forall a, r = Ok a -> nonEmpty costumes = false ->
      get (zipFiles w') (co_md5ext placeholderCostume) = Some EMPTY_SVG).
Proof.
  intros Hrun. unfold bind in Hrun.
  pose proof (rekeyAll_keeps table w) as H0.
  destruct (rekeyAll table w) as [[objs|e] w1]; cbn [snd] in H0.
  2:{ inversion Hrun; subst. split; [exact H0|]. intros a Ha. discriminate Ha. }
  pose proof (buildCostumes_keeps type costumes w1) as H1.
  destruct (buildCostumes type costumes w1) as [[cs|e] w2] eqn:Hcos; cbn [snd] in H1.
  2:{ inversion Hrun; subst. split; [|intros a Ha; discriminate Ha].
      eapply keepsPlaceholder_trans; eauto. }
  pose proof (buildSounds_keeps sounds w2) as H2.
  destruct (buildSounds sounds w2) as [[ss|e] w3]; cbn [snd] in H2;
    unfold ret in Hrun; inversion Hrun; subst.
  - split.
    + eapply keepsPlaceholder_trans; [exact H0|].
      eapply keepsPlaceholder_trans; eauto.
    + intros a _ Hno. apply H2.
      unfold buildCostumes in Hcos. rewrite Hno in Hcos. unfold bind in Hcos.
      pose proof (emptyCostume_stores w1) as Hs.
      destruct (emptyCostume w1) as [[c|e] w1']; cbn [snd] in Hs;
        unfold ret in Hcos; inversion Hcos; subst. exact Hs.
  - split; [|intros a Ha; discriminate Ha].
    eapply keepsPlaceholder_trans; [exact H0|].
    eapply keepsPlaceholder_trans; eauto.
Qed.

Lemma buildSpriteTargets_keeps (cs : list CompiledTarget) :
  forall i, keeps keepsPlaceholder (buildSpriteTargets i cs).
Proof.
  induction cs as [|c cs IH]; intros i w; cbn [buildSpriteTargets].
  - apply keepsPlaceholder_refl.
  - unfold bind at 1.
    destruct (buildSpriteTarget i c w) as [[mt|e] w1] eqn:Hone;
      unfold buildSpriteTarget in Hone; apply target_placeholder in Hone;
      destruct Hone as [Hk _]; cbn [snd]; [|exact Hk].
    unfold bind. specialize (IH (S i) w1).
    destruct (buildSpriteTargets (S i) cs w1) as [[ts|e] w2]; cbn [snd] in *;
      eapply keepsPlaceholder_trans; eauto.
Qed.

Lemma buildSpriteTargets_placeholder (cs : list CompiledTarget) :
  forall i w ts w',
  buildSpriteTargets i cs w = (Ok ts, w') ->
  forall j c, nth_error cs j = Some c ->
  nonEmpty (t_costumes (c_target c)) = false ->
  get (zipFiles w') (co_md5ext placeholderCostume) = Some EMPTY_SVG.
Proof.
  induction cs as [|c cs IH]; intros i w ts w' Hrun j c0 Hj Hno.
  - destruct j; discriminate Hj.
  - cbn [buildSpriteTargets] in Hrun. unfold bind at 1 in Hrun.
    destruct (buildSpriteTarget i c w) as [[mt|e] w1] eqn:Hone; [|discriminate].
    unfold bind in Hrun.
    pose proof (buildSpriteTargets_keeps cs (S i) w1) as Hrest.
    destruct (buildSpriteTargets (S i) cs w1) as [[ts'|e] w2] eqn:Htail;
      [|discriminate].
    unfold ret in Hrun. inversion Hrun; subst. cbn [snd] in Hrest.
    destruct j as [|j]; simpl in Hj.
    + inversion Hj; subst c0. apply Hrest.
      unfold buildSpriteTarget in Hone. apply target_placeholder in Hone.
      destruct Hone as [_ Hstore]. apply (Hstore mt eq_refl Hno).
    + eapply IH; eauto.
Qed.

Lemma buildManifest_placeholder (inputJson : Project)
    (compiled : Workspace * (VarTable * list CompiledTarget))
    (w w' : World) (pj : ProjectJson) :
  buildManifest inputJson compiled w = (Ok pj, w') ->
  (nonEmpty (s_backdrops (p_stage inputJson)) = false ->
   get (zipFiles w') (co_md5ext placeholderCostume) = Some EMPTY_SVG)
  /\ (forall j c, nth_error (snd (snd compiled)) j = Some c ->
      nonEmpty (t_costumes (c_target c)) = false ->
      get (zipFiles w') (co_md5ext placeholderCostume) = Some EMPTY_SVG).
Proof.
  intros Hrun. unfold buildManifest, bind in Hrun.
  destruct (buildStageTarget (p_stage inputJson) (fst compiled) (fst (snd compiled)) w)
    as [[st|e] w1] eqn:Hstage; [|discriminate].
  pose proof (buildSpriteTargets_keeps (snd (snd compiled)) 0 w1) as Hrest.
  destruct (buildSpriteTargets 0 (snd (snd compiled)) w1) as [[ts|e] w2] eqn:Hts;
    [|discriminate].
  unfold ret in Hrun. inversion Hrun; subst. cbn [snd] in Hrest. split.
  - intros Hno. apply Hrest.
    unfold buildStageTarget in Hstage. apply target_placeholder in Hstage.
    destruct Hstage as [_ Hstore]. apply (Hstore st eq_refl Hno).
  - intros j c Hj Hno. eapply buildSpriteTargets_placeholder; eauto.
Qed.

End Placeholder.

Section DefaultCostume.
Import JsMap JsMapFacts.
Context {T : Types} {E : Externals}.

(** C6.  In the manifest, the stage target of a stage without backdrops and
    the target of every sprite without costumes have exactly one costume
    entry, the placeholder: its storage key is the MD5 of the fixed SVG text
    followed by [.svg], the same for every run, and the archive has an entry
    under that key.  The bytes of that entry are the fixed SVG text, unless
    a file that can be read is stored under the same key with other bytes,
    which takes a collision of the hash. *)
Theorem default_costume (inputJson : Project)
    (compiled : Workspace * (VarTable * list CompiledTarget))
    (w w' : World) (pj : ProjectJson) :
  buildManifest inputJson compiled w = (Ok pj, w') ->
  placeholderCostume
    = mkCostume "541d70f4d5200bdd4f0bdff36b062ccd" (Some "empty")
                "541d70f4d5200bdd4f0bdff36b062ccd.svg" "svg" 0%Z 0%Z
  /\ co_md5ext placeholderCostume = String.append (md5Bytes EMPTY_SVG) ".svg"
  /\ (nonEmpty (s_backdrops (p_stage inputJson)) = false ->
      exists mt,
        nth_error (pj_targets pj) 0 = Some mt
        /\ mt_isStage mt = true
        /\ mt_costumes mt = [placeholderCostume]
        /\ has (zipFiles w') (co_md5ext placeholderCostume) = true
        /\ (placeholderUnique ->
            get (zipFiles w') (co_md5ext placeholderCostume) = Some EMPTY_SVG))
  /\ (forall j c,
        nth_error (snd (snd compiled)) j = Some c ->
        nonEmpty (t_costumes (c_target c)) = false ->
        exists mt,
          nth_error (pj_targets pj) (S j) = Some mt
          /\ mt_isStage mt = false
          /\ mt_name mt = t_name (c_target c)
          /\ mt_costumes mt = [placeholderCostume]
          /\ has (zipFiles w') (co_md5ext placeholderCostume) = true
          /\ (placeholderUnique ->
              get (zipFiles w') (co_md5ext placeholderCostume)
              = Some EMPTY_SVG)).
Proof.
  intros Hrun.
  destruct (buildManifest_inv _ _ _ _ _ Hrun) as (st & w1 & ts & Hst & Hts & Hpj).
  split; [vm_compute; reflexivity|]. split; [reflexivity|]. split.
  - intros Hno. exists st. rewrite Hpj. split; [reflexivity|].
    destruct (buildStageTarget_inv _ _ _ _ _ _ Hst)
      as (objs & wa & cos & wb & _ & Hb & _ & [_ Hz] & Hstage & _ & _ & _ & Hcos).
    destruct (buildCostumes_default "backdrop" _ wa Hno) as (wb' & Hd & _ & Hin).
    rewrite Hd in Hb. injection Hb as Hc1 Hc2.
    rewrite <- Hc1 in Hcos. rewrite Hc2 in Hin.
    split; [exact Hstage|]. split; [exact Hcos|]. split.
    + eapply buildSpriteTargets_zip; [exact Hts|]. apply Hz, Hin.
    + intros Hu.
      destruct (buildManifest_placeholder Hu _ _ _ _ _ Hrun) as [Hs _].
      apply Hs, Hno.
  - intros j c Hnth Hno.
    destruct (buildSpriteTargets_nth _ _ _ _ _ Hts j c Hnth)
      as (mt & wj & wj' & Hn & Hb & _ & Hz).
    exists mt. rewrite Hpj. split; [exact Hn|].
    destruct (buildSpriteTarget_inv _ _ _ _ _ Hb)
      as (objs & wa & cos & wb & _ & Hbc & _ & [_ Hz'] & Hsp & Hname & _ & _ & Hcos).
    destruct (buildCostumes_default "costume" _ wa Hno) as (wb' & Hd & _ & Hin).
    rewrite Hd in Hbc. injection Hbc as Hc1 Hc2.
    rewrite <- Hc1 in Hcos. rewrite Hc2 in Hin.
    split; [exact Hsp|]. split; [exact Hname|]. split; [exact Hcos|]. split.
    + apply Hz, Hz', Hin.
    + intros Hu.
      destruct (buildManifest_placeholder Hu _ _ _ _ _ Hrun) as [_ Hs].
      apply (Hs j c Hnth Hno).
Qed.

End DefaultCostume.

(** In the demo no file that can be read has the hash of the fixed SVG
    text. *)
Lemma demo_placeholderUnique :
  placeholderUnique (T := Demo.types) (E := Demo.externals).
Proof.
  intros p data Hread Hkey.
  unfold assetInfoOf in Hkey. cbn [md5ext] in Hkey.
  generalize dependent (Path.slice1 (Path.extname p)). intros ext Hkey.
  cbn [readFileSync Demo.externals] in Hread.
  generalize dependent (fullPathOf (T := Demo.types) (E := Demo.externals) p).
  intros q Hread. unfold Demo.files in Hread. cbn [JsMap.get] in Hread.
  repeat match type of Hread with
         | context [if ?b then _ else _] => destruct b
         end;
    cbn in Hread; try discriminate Hread;
    injection Hread as <-; vm_compute in Hkey; discriminate Hkey.
Qed.

Lemma default_costume_witness :
  exists pj w',
    buildManifest Demo.project Demo.compiled Demo.world1 = (Ok pj, w')
    /\ nonEmpty (s_backdrops (p_stage Demo.project)) = false
    /\ exists mt,
         nth_error (pj_targets pj) 0 = Some mt
         /\ mt_isStage mt = true
         /\ mt_costumes mt
            = [mkCostume "541d70f4d5200bdd4f0bdff36b062ccd" (Some "empty")
                         "541d70f4d5200bdd4f0bdff36b062ccd.svg" "svg" 0%Z 0%Z]
         /\ JsMap.has (zipFiles w') "541d70f4d5200bdd4f0bdff36b062ccd.svg" = true
         /\ JsMap.get (zipFiles w') "541d70f4d5200bdd4f0bdff36b062ccd.svg"
            = Some EMPTY_SVG.
Proof.
  destruct (buildManifest Demo.project Demo.compiled Demo.world1)
    as [[pj|e] w'] eqn:Hrun; [|vm_compute in Hrun; discriminate Hrun].
  exists pj, w'. split; [reflexivity|]. split; [reflexivity|].
  destruct (default_costume (E := Demo.externals) _ _ _ _ _ Hrun)
    as (Hp & _ & Hstage & _).
  destruct (Hstage eq_refl) as (mt & Hn & Hs & Hc & Hz & Hbytes).
  exists mt. rewrite <- Hp. split; [exact Hn|]. split; [exact Hs|].
  split; [exact Hc|]. rewrite Hp in Hz, Hbytes. split; [exact Hz|].
  exact (Hbytes demo_placeholderUnique).
Defined.

Section ManifestShape.
Import JsMap JsMapFacts.
Context {T : Types} {E : Externals}.

(** X9.  The manifest has exactly one stage target and it comes first: it
    is called `Stage`, lies on layer 0, holds the stage's blocks and has no
    sprite fields.  Then comes one target per compiled sprite, in the
    declared order: it is not a stage, it has the sprite's name and blocks,
    and its layer is the declared [layerOrder] or, by default, its position
    in the list counted from 1.  The extensions are the declared ones, or
    none. *)
Theorem manifest_shape (inputJson : Project)
    (compiled : Workspace * (VarTable * list CompiledTarget))
    (w w' : World) (pj : ProjectJson) :
  buildManifest inputJson compiled w = (Ok pj, w') ->
  pj_extensions pj = opt_or (p_extensions inputJson) []
  /\ exists st ts,
       pj_targets pj = st :: ts
       /\ mt_isStage st = true /\ mt_name st = "Stage"
       /\ mt_blocks st = fst compiled /\ mt_layerOrder st = 0%Z
       /\ mt_sprite st = None
       /\ List.length ts = List.length (snd (snd compiled))
       /\ Forall (fun mt => mt_isStage mt = false) ts
       /\ forall j c, nth_error (snd (snd compiled)) j = Some c ->
            exists mt,
              nth_error ts j = Some mt
              /\ mt_name mt = t_name (c_target c)
              /\ mt_blocks mt = c_workspace c
              /\ mt_layerOrder mt
                 = opt_or (t_layerOrder (c_target c)) (Z.of_nat j + 1)%Z
              /\ mt_sprite mt <> None.
Proof.
  intros Hrun. apply buildManifest_phase in Hrun. destruct Hrun as (_ & Hok).
  destruct (Hok pj eq_refl)
    as (st & ts & -> & _ & (Hs1 & Hs2 & Hs3 & Hs4 & Hs5) & Hlen & Hnth).
  split; [reflexivity|]. exists st, ts. cbn [pj_targets].
  repeat (split; [first [reflexivity | assumption]|]). split.
  - apply Forall_forall. intros mt Hin.
    apply In_nth_error in Hin. destruct Hin as [j Hj].
    assert (Hlt : j < List.length (snd (snd compiled))).
    { rewrite <- Hlen. apply nth_error_Some. congruence. }
    destruct (nth_error (snd (snd compiled)) j) as [c|] eqn:Hc.
    + destruct (Hnth j c Hc) as (mt0 & Hmt0 & Hst & _). congruence.
    + apply nth_error_None in Hc. lia.
  - intros j c Hj. destruct (Hnth j c Hj) as (mt & Hmt & _ & Hf). exists mt.
    split; [exact Hmt | exact Hf].
Qed.

(** X10.  Referential integrity of the archive that [main] builds: it
    holds [project.json], whose content is the serialized manifest, and
    every costume and every sound that a target of the manifest names is in
    the archive under its [md5ext], which is the asset id, a dot and the
    data format.  Every target has at least one costume. *)
Theorem main_archive_complete (baseModules : option (list string) -> M ModuleDefs)
    (JSON_stringify : ProjectJson -> string) (inputJson : Project)
    (w w' : World) (pj : ProjectJson) :
  main baseModules JSON_stringify inputJson w = (Ok pj, w') ->
  get (zipFiles w') "project.json" = Some (JSON_stringify pj)
  /\ Forall (assetsStored (zipFiles w')) (pj_targets pj).
Proof.
  intros Hrun. unfold main, bind in Hrun.
  destruct (baseModules (p_types inputJson) w) as [[base|e] w0]; [|discriminate].
  destruct (compileAll (p_stage inputJson) (p_targets inputJson) base w0)
    as [[compiled|e] w1]; [|discriminate].
  destruct (buildManifest inputJson compiled w1) as [[pj'|e] w2] eqn:Hm;
    [|discriminate].
  unfold zip_file, ret in Hrun. inversion Hrun; subst; clear Hrun.
  cbn [zipFiles]. split; [apply get_set_same|].
  apply buildManifest_phase in Hm. destruct Hm as (_ & Hok).
  destruct (Hok pj eq_refl) as (st & ts & -> & Hall & _). cbn [pj_targets].
  eapply Forall_impl; [|exact Hall].
  intros mt Hmt. eapply assetsStored_mono; [|exact Hmt].
  intros k. apply has_set_mono.
Qed.

(** X11.  When costumes (or backdrops) are declared, the target gets
    exactly one entry per declaration, in the declared order, and no
    placeholder: each declaration has a path whose file was read, and its
    entry carries the declared name, the MD5 of the bytes as asset id, the
    extension of the declared path as data format, the declared rotation
    centre with 0 for a missing coordinate, and a key that is in the
    archive. *)
Theorem declared_costumes_listed (type : string) (d : AssetDecl)
    (ds : list AssetDecl) (w w' : World) (cs : list CostumeEntry) :
  buildCostumes type (Some (d :: ds)) w = (Ok cs, w') ->
  Forall2
    (fun decl c =>
       exists path data,
         a_path decl = Some path
         /\ readFileSync (fullPathOf path) = Ok data
         /\ c = mkCostume (md5Bytes data) (a_name decl)
                  (String.append (md5Bytes data)
                     (String.append "." (Path.slice1 (Path.extname path))))
                  (Path.slice1 (Path.extname path))
                  (opt_or (a_x decl) 0%Z) (opt_or (a_y decl) 0%Z)
         /\ has (zipFiles w') (co_md5ext c) = true)
    (d :: ds) cs.
Proof.
  intros Hrun. apply buildCostumes_phase in Hrun. destruct Hrun as (_ & _ & Hok).
  destruct (Hok cs eq_refl) as (_ & _ & Hmade). simpl in Hmade.
  eapply Forall2_impl; [|exact Hmade].
  intros decl c (path & data & Hp & Hr & Hc & Hh). exists path, data.
  split; [assumption|]. split; [assumption|]. split; [exact Hc|].
  subst c. exact Hh.
Qed.

(** X12.  A manifest phase that succeeds has read the file of every
    declared asset once, in the order stage backdrops, stage sounds, and
    then costumes and sounds sprite by sprite; it has printed nothing and
    called no compiler. *)
Theorem manifest_reads (inputJson : Project)
    (compiled : Workspace * (VarTable * list CompiledTarget))
    (w w' : World) (pj : ProjectJson) :
  buildManifest inputJson compiled w = (Ok pj, w') ->
  fsReads w'
  = fsReads w
    ++ flat_map attempted (declaredAssets (p_stage inputJson) (snd (snd compiled)))
  /\ console w' = console w
  /\ compilerCalls w' = compilerCalls w.
Proof.
  intros Hrun. apply buildManifest_phase in Hrun.
  destruct Hrun as ((Hc & Hm & _ & Hf) & _). simpl in Hf. auto.
Qed.

(** X13.  The manifest phase can fail for one reason only: a declared
    asset without a [path], or one whose file cannot be read.  It then has
    read the assets declared before that one and, if it has a path, that
    one, and none of the later ones; nothing is printed.  The error is the
    one that [path.isAbsolute] throws for a missing [path], and the one of
    the read otherwise. *)
Theorem manifest_failure (inputJson : Project)
    (compiled : Workspace * (VarTable * list CompiledTarget))
    (w w' : World) (e : Error) :
  buildManifest inputJson compiled w = (Throw e, w') ->
  console w' = console w
  /\ exists pre d post,
       declaredAssets (p_stage inputJson) (snd (snd compiled)) = pre ++ d :: post
       /\ ((a_path d = None
            /\ e = pathTypeError)
           \/ (exists p, a_path d = Some p
                         /\ readFileSync (fullPathOf p) = Throw e))
       /\ fsReads w' = fsReads w ++ flat_map attempted (pre ++ [d]).
Proof.
  intros Hrun. apply buildManifest_phase in Hrun.
  destruct Hrun as ((Hc & _ & _ & Hf) & _). simpl in Hf. auto.
Qed.

End ManifestShape.

Lemma manifest_shape_witness :
  exists pj w',
    buildManifest Demo.artProject Demo.artCompiled Demo.world0 = (Ok pj, w')
    /\ pj_extensions pj = ["pen"]
    /\ exists st cat dot,
         pj_targets pj = [st; cat; dot]
         /\ mt_name st = "Stage" /\ mt_layerOrder st = 0%Z
         /\ mt_name cat = "Cat" /\ mt_layerOrder cat = 5%Z
         /\ mt_name dot = "Dot" /\ mt_layerOrder dot = 2%Z.
Proof.
  destruct (buildManifest (T := Demo.types) Demo.artProject Demo.artCompiled
              Demo.world0) as [[pj|e] w'] eqn:Hrun;
    [|vm_compute in Hrun; discriminate Hrun].
  exists pj, w'. split; [reflexivity|].
  destruct (manifest_shape (T := Demo.types) (E := Demo.externals)
              Demo.artProject Demo.artCompiled Demo.world0 w' pj Hrun)
    as (Hext & st & ts & Hts & _ & Hn & _ & Hl & _ & Hlen & _ & Hnth).
  split; [exact Hext|].
  destruct (Hnth 0 _ eq_refl) as (cat & Hcat & Hcn & _ & Hcl & _).
  destruct (Hnth 1 _ eq_refl) as (dot & Hdot & Hdn & _ & Hdl & _).
  destruct ts as [|t0 [|t1 [|t2 ts]]]; try discriminate Hlen.
  simpl in Hcat, Hdot. inversion Hcat; inversion Hdot; subst.
  exists st, cat, dot. repeat (split; [assumption|]). assumption.
Defined.

Lemma main_archive_complete_witness :
  exists pj w',
    main (fun _ => ret tt) (fun _ => "{...}") Demo.project Demo.world0 = (Ok pj, w')
    /\ JsMap.get (zipFiles w') "project.json" = Some "{...}"
    /\ Forall (assetsStored (zipFiles w')) (pj_targets pj).
Proof.
  destruct (main (T := Demo.types) (fun _ => ret tt) (fun _ => "{...}")
              Demo.project Demo.world0) as [[pj|e] w'] eqn:Hrun;
    [|vm_compute in Hrun; discriminate Hrun].
  exists pj, w'. split; [reflexivity|].
  exact (main_archive_complete (T := Demo.types) (E := Demo.externals)
           (fun _ => ret tt) (fun _ => "{...}") Demo.project Demo.world0 w' pj Hrun).
Defined.

Lemma declared_costumes_listed_witness :
  exists cs w',
    buildCostumes "costume" (t_costumes Demo.artSprite) Demo.world0 = (Ok cs, w')
    /\ List.length cs = 2
    /\ Forall2
         (fun decl c =>
            exists path data,
              a_path decl = Some path
              /\ readFileSync (fullPathOf path) = Ok data
              /\ c = mkCostume (md5Bytes data) (a_name decl)
                       (String.append (md5Bytes data)
                          (String.append "." (Path.slice1 (Path.extname path))))
                       (Path.slice1 (Path.extname path))
                       (opt_or (a_x decl) 0%Z) (opt_or (a_y decl) 0%Z)
              /\ JsMap.has (zipFiles w') (co_md5ext c) = true)
         [Demo.decl "photo.jpg" "front";
          mkAssetDecl (Some "copy.png") (Some "side") (Some 4%Z) None]
         cs.
Proof.
  destruct (buildCostumes (T := Demo.types) "costume" (t_costumes Demo.artSprite)
              Demo.world0) as [[cs|e] w'] eqn:Hrun;
    [|vm_compute in Hrun; discriminate Hrun].
  exists cs, w'. split; [reflexivity|].
  pose proof (declared_costumes_listed (T := Demo.types) (E := Demo.externals)
                "costume" _ _ Demo.world0 w' cs Hrun) as H.
  split; [|exact H].
  apply Forall2_length in H. simpl in H. congruence.
Defined.

Lemma manifest_reads_witness :
  exists pj w',
    buildManifest Demo.artProject Demo.artCompiled Demo.world0 = (Ok pj, w')
    /\ fsReads w'
       = ["proj/cat.png"; "proj/photo.jpg"; "proj/copy.png"; "proj/meow.wav"]
    /\ console w' = [].
Proof.
  destruct (buildManifest (T := Demo.types) Demo.artProject Demo.artCompiled
              Demo.world0) as [[pj|e] w'] eqn:Hrun;
    [|vm_compute in Hrun; discriminate Hrun].
  exists pj, w'. split; [reflexivity|].
  destruct (manifest_reads (T := Demo.types) (E := Demo.externals)
              Demo.artProject Demo.artCompiled Demo.world0 w' pj Hrun)
    as (Hf & Hc & _).
  split; [rewrite Hf | rewrite Hc]; reflexivity.
Defined.

Lemma manifest_failure_witness :
  exists e w',
    buildManifest Demo.artProject Demo.lostCompiled Demo.world0 = (Throw e, w')
    /\ console w' = []
    /\ exists pre d post,
         declaredAssets Demo.artStage (snd (snd Demo.lostCompiled))
           = pre ++ d :: post
         /\ ((a_path d = None
              /\ e = pathTypeError)
             \/ (exists p, a_path d = Some p
                           /\ readFileSync (fullPathOf p) = Throw e))
         /\ fsReads w' = fsReads Demo.world0 ++ flat_map attempted (pre ++ [d]).
Proof.
  destruct (buildManifest (T := Demo.types) Demo.artProject Demo.lostCompiled
              Demo.world0) as [[pj|e] w'] eqn:Hrun;
    [vm_compute in Hrun; discriminate Hrun|].
  exists e, w'. split; [reflexivity|].
  exact (manifest_failure (T := Demo.types) (E := Demo.externals)
           Demo.artProject Demo.lostCompiled Demo.world0 w' e Hrun).
Defined.

(* ===================================================================== *)
(** ** The decompiler: extraction *)
(* ===================================================================== *)

Section Extraction.
Import JsMap JsMapFacts.
Context {T : DTypes} {E : DExternals}.
Variable zip : JsMap.t ZipObject.
Variable assetsDir : string.

(** Every file that the run is asked to write can be written. *)
Hypothesis writes_ok : forall p data, writeFileSync p data = Ok tt.

Lemma extractAsset_spec (md5ext newName : string) (w : DWorld) :
  extractAsset zip assetsDir md5ext newName w
  = match zip_get zip md5ext with
    | Some file =>
        (Ok (Some md5ext),
         mkDWorld (d_console w)
                  (d_writes w ++ [(d_path_join assetsDir md5ext, zo_data file)])
                  (set (assetMapping w) md5ext md5ext) (d_state w))
    | None => (Ok None, w)
    end.
Proof.
  unfold extractAsset. destruct (zip_get zip md5ext) as [file|]; [|reflexivity].
  unfold bind, fs_write, assetMapping_set, ret. rewrite writes_ok. reflexivity.
Qed.

Lemma foldM_ext {W A S : Type} (f g : S -> A -> St W S) (l : list A) :
  (forall s a w, f s a w = g s a w) ->
  forall s w, foldM f l s w = foldM g l s w.
Proof.
  intros Hfg. induction l as [|a l IH]; intros s w; simpl; auto.
  unfold bind. rewrite Hfg. destruct (g s a w) as [[s'|e] w']; auto.
Qed.

Lemma extract_loop (step : list AssetConfig -> Sb3Asset -> DM (list AssetConfig))
    (config : Sb3Asset -> AssetConfig) (prefix : string) :
  (forall acc a w,
     step acc a w
     = (fileName <- extractAsset zip assetsDir (sa_md5ext a)
                      (String.append prefix (sa_name a)) ;;
        if truthy fileName
        then ret (acc ++ [mkAssetConfig (ac_name (config a))
                            (String.append "assets/" (opt_or fileName ""))
                            (ac_x (config a)) (ac_y (config a))])
        else ret acc) w) ->
  (forall a, config a
             = mkAssetConfig (ac_name (config a))
                             (String.append "assets/" (sa_md5ext a))
                             (ac_x (config a)) (ac_y (config a))) ->
  forall (assets : list Sb3Asset) (acc : list AssetConfig) (w : DWorld),
  exists w',
    foldM step assets acc w
    = (Ok (acc ++ map config (filter (isListed zip) assets)), w')
    /\ d_writes w' = d_writes w ++ extractedFiles zip assetsDir assets
    /\ d_console w' = d_console w /\ d_state w' = d_state w.
Proof.
  intros Hstep Hconfig. induction assets as [|a assets IH]; intros acc w.
  - exists w. simpl. unfold ret. rewrite !app_nil_r.
    repeat (split; [reflexivity|]). reflexivity.
  - cbn [foldM]. unfold bind at 1. rewrite Hstep. unfold bind at 1.
    rewrite extractAsset_spec. unfold isListed, extractedFiles. cbn [filter flat_map].
    fold (isListed zip). fold (extractedFiles zip assetsDir assets).
    destruct (zip_get zip (sa_md5ext a)) as [file|] eqn:Hget.
    + cbn [truthy opt_or].
      destruct (String.eqb (sa_md5ext a) "") eqn:Hempty; cbn [negb]; unfold ret at 1.
      * match goal with
        | |- context [foldM step assets acc ?w1] =>
            destruct (IH acc w1) as (w' & Hrun & Hw & Hc & Hs)
        end.
        exists w'. split; [exact Hrun|].
        cbn [d_writes d_console d_state] in *.
        split; [rewrite Hw, <- app_assoc; reflexivity|].
        split; assumption.
      * match goal with
        | |- context [foldM step assets ?acc1 ?w1] =>
            destruct (IH acc1 w1) as (w' & Hrun & Hw & Hc & Hs)
        end.
        exists w'. split.
        -- rewrite Hrun. rewrite <- app_assoc. cbn [app map].
           rewrite <- (Hconfig a). reflexivity.
        -- cbn [d_writes d_console d_state] in *.
           split; [rewrite Hw, <- app_assoc; reflexivity|].
           split; assumption.
    + cbn [truthy]. unfold ret at 1.
      destruct (IH acc w) as (w' & Hrun & Hw & Hc & Hs).
      exists w'. split; [exact Hrun|]. split; [|split; assumption].
      rewrite Hw. reflexivity.
Qed.

Lemma extractCostumes_ok (prefix : string) (assets : list Sb3Asset)
    (acc : list AssetConfig) (w : DWorld) :
  exists w',
    foldM (extractCostume zip assetsDir prefix) assets acc w
    = (Ok (acc ++ map costumeConfig (filter (isListed zip) assets)), w')
    /\ d_writes w' = d_writes w ++ extractedFiles zip assetsDir assets
    /\ d_console w' = d_console w /\ d_state w' = d_state w.
Proof.
  apply (extract_loop (extractCostume zip assetsDir prefix) costumeConfig prefix);
    reflexivity.
Qed.

Lemma extractSounds_ok (prefix : string) (assets : list Sb3Asset)
    (acc : list AssetConfig) (w : DWorld) :
  exists w',
    foldM (extractSound zip assetsDir prefix) assets acc w
    = (Ok (acc ++ map soundConfig (filter (isListed zip) assets)), w')
    /\ d_writes w' = d_writes w ++ extractedFiles zip assetsDir assets
    /\ d_console w' = d_console w /\ d_state w' = d_state w.
Proof.
  apply (extract_loop (extractSound zip assetsDir prefix) soundConfig prefix);
    reflexivity.
Qed.

(** X14.  When the files can be written, a loop that extracts the costumes
    (or the sounds) of a target returns one block per asset that the archive
    holds, in the order of the target, with the asset's name and the path
    [assets/<md5ext>]; a costume block carries the rotation centre, where a
    missing or zero coordinate is 0.  The files written are the bytes of
    those assets, each under its [md5ext] in the assets directory.  The
    descriptive name computed for the asset ([costume_<sprite>_<name>] and
    the like) has no effect: the result does not depend on the prefix. *)
Theorem extraction_listing (prefix : string) (assets : list Sb3Asset)
    (w : DWorld) :
  (exists w',
     extractCostumes zip assetsDir prefix assets w
     = (Ok (map costumeConfig (filter (isListed zip) assets)), w')
     /\ d_writes w' = d_writes w ++ extractedFiles zip assetsDir assets
     /\ d_console w' = d_console w /\ d_state w' = d_state w)
  /\ (exists w',
        extractSounds zip assetsDir prefix assets w
        = (Ok (map soundConfig (filter (isListed zip) assets)), w')
        /\ d_writes w' = d_writes w ++ extractedFiles zip assetsDir assets
        /\ d_console w' = d_console w /\ d_state w' = d_state w)
  /\ (forall prefix',
        extractCostumes zip assetsDir prefix' assets w
        = extractCostumes zip assetsDir prefix assets w
        /\ extractSounds zip assetsDir prefix' assets w
           = extractSounds zip assetsDir prefix assets w).
Proof.
  split; [exact (extractCostumes_ok prefix assets [] w)|].
  split; [exact (extractSounds_ok prefix assets [] w)|].
  intros prefix'. unfold extractCostumes, extractSounds.
  split; apply foldM_ext; intros; reflexivity.
Qed.

End Extraction.

Lemma extraction_listing_witness :
  exists w',
    extractCostumes Demo.sb3Zip "out/assets" "costume_A_"
                    [mkSb3Asset "x.svg" "c1" None None;
                     mkSb3Asset "y.svg" "c2" None None] Demo.dworld0
    = (Ok [mkAssetConfig "c1" "assets/x.svg" (Some 0%Z) (Some 0%Z)], w')
    /\ d_writes w' = [("out/assets/x.svg", "<svg/>")]
    /\ d_console w' = [].
Proof.
  destruct (extraction_listing (T := Demo.dtypes) (E := Demo.dexternals)
              Demo.sb3Zip "out/assets" (fun _ _ => eq_refl) "costume_A_"
              [mkSb3Asset "x.svg" "c1" None None;
               mkSb3Asset "y.svg" "c2" None None] Demo.dworld0)
    as ((w' & Hrun & Hw & Hc & _) & _).
  exists w'. split; [exact Hrun|]. split; [rewrite Hw | rewrite Hc]; reflexivity.
Defined.

(* ===================================================================== *)
(** ** The decompiler: scripts and the project file *)
(* ===================================================================== *)

Section RoundTrip.
Import JsMap JsMapFacts.
Context {T : Types} {E : Externals} {DT : DTypes} {DE : DExternals}.

(** X15.  An asset survives the round trip byte for byte, and keeps its
    storage name rather than its declared one: when [processAsset] has
    stored the file of a declared asset, and the decompiler opens an archive
    that holds what was stored, [extractAsset] on the asset's [md5ext]
    writes the bytes that were read from the declared path to the file
    [<assets directory>/<md5ext>] and returns [md5ext]; the extension of the
    declared path is the extension of the extracted file. *)
Theorem asset_round_trip (p type data : string) (w : World)
    (zip : JsMap.t ZipObject) (assetsDir newName : string) (dw : DWorld) :
  readFileSync (fullPathOf p) = Ok data ->
  (forall path content, writeFileSync path content = Ok tt) ->
  exists a w1,
    processAsset (Some p) type w = (Ok a, w1)
    /\ md5ext a
       = String.append (md5Bytes data)
                       (String.append "." (Path.slice1 (Path.extname p)))
    /\ (readsBack (zipFiles w1) zip ->
        extractAsset zip assetsDir (md5ext a) newName dw
        = (Ok (Some (md5ext a)),
           mkDWorld (d_console dw)
                    (d_writes dw ++ [(d_path_join assetsDir (md5ext a), data)])
                    (set (assetMapping dw) (md5ext a) (md5ext a))
                    (d_state dw))).
Proof.
  intros Hread Hwrite. rewrite (processAsset_read p type data w Hread).
  eexists. eexists. split; [reflexivity|]. cbn [md5ext zipFiles].
  split; [reflexivity|]. intros Hback.
  rewrite (extractAsset_spec zip assetsDir Hwrite).
  unfold zip_get. rewrite Hback, get_set_same. reflexivity.
Qed.

End RoundTrip.

Section NeverThrows.
Context {T : DTypes} {E : DExternals}.

Lemma sameFiles_refl (w : DWorld) : sameFiles w w.
Proof. split; reflexivity. Qed.

Lemma sameFiles_trans (w1 w2 w3 : DWorld) :
  sameFiles w1 w2 -> sameFiles w2 w3 -> sameFiles w1 w3.
Proof. intros [H1 H2] [H3 H4]. split; congruence. Qed.

Lemma sameFiles_d_log (l : DLog) : keeps sameFiles (d_log l).
Proof. intros w. split; reflexivity. Qed.

Lemma sameFiles_call {A : Type} (f : DState -> Outcome A * DState) :
  keeps sameFiles (call f).
Proof.
  intros w. unfold call. destruct (f (d_state w)) as [r s]. split; reflexivity.
Qed.

Lemma sameFiles_generated : keeps sameFiles generatedModuleNodes.
Proof. intros w. apply sameFiles_refl. Qed.

Ltac same_files :=
  pose proof sameFiles_refl as Hrefl;
  pose proof sameFiles_trans as Htrans;
  repeat first
    [ apply keeps_try_catch; auto; intros
    | apply keeps_bind; auto; intros
    | apply keeps_foldM; auto; intros
    | apply keeps_ret; auto
    | apply keeps_lift; auto
    | apply sameFiles_call
    | apply sameFiles_generated
    | apply sameFiles_d_log
    | match goal with
      | |- keeps _ (match ?x with _ => _ end) => destruct x
      end ].

Ltac after_error :=
  unfold afterError; cbn [d_console d_writes assetMapping d_state];
  rewrite <- app_assoc; reflexivity.

Ltac source_case Hsame :=
  unfold lift, ret;
  match goal with
  | |- context [toSource ?ns] =>
      let Hsrc := fresh "Hsrc" in
      destruct (toSource ns) as [src|e] eqn:Hsrc;
      [ eexists; eexists; split; [reflexivity|]; split; [exact Hsame|];
        split; [intros; discriminate|];
        let Hn := fresh "Hn" in
        let Hthrow := fresh "Hthrow" in
        intros nodes w2 e' Hn _ Hthrow; inversion Hn; subst;
        cbn [fst snd] in Hthrow; congruence
      | eexists; eexists; split; [reflexivity|]; split;
        [ destruct Hsame; split; assumption
        | split; [intros; discriminate|];
          let Hn := fresh "Hn" in
          let Hthrow := fresh "Hthrow" in
          intros nodes w2 e' Hn _ Hthrow; inversion Hn; subst;
          cbn [fst snd] in Hthrow; rewrite Hsrc in Hthrow;
          inversion Hthrow; subst; split; [reflexivity|]; after_error ] ]
  end.

Lemma targetNodes_sameFiles (target : Sb3Target) (modules : DModules) :
  keeps sameFiles (targetNodes target modules).
Proof.
  unfold targetNodes, decompileVariables, decompileFunctions, decompileScripts.
  same_files.
Qed.

Lemma stageNodes_sameFiles (stageTarget : Sb3Target) (modules : DModules)
    (decls : list (FuseVariable * JsValue)) :
  keeps sameFiles (stageNodes stageTarget modules decls).
Proof.
  unfold stageNodes, decompileVariables, decompileFunctions, decompileScripts.
  same_files.
Qed.

Lemma decompileTarget_returns (target : Sb3Target) (modules : DModules)
    (w : DWorld) :
  exists r w', decompileTarget target modules w = (Ok r, w') /\ sameFiles w w'.
Proof.
  assert (Hkeep : keeps sameFiles (decompileTarget target modules)).
  { unfold decompileTarget. pose proof (targetNodes_sameFiles target modules).
    same_files. }
  specialize (Hkeep w).
  assert (Hok : exists r w', decompileTarget target modules w = (Ok r, w')).
  { unfold decompileTarget, try_catch, bind.
    destruct (targetNodes target modules w) as [[[mn an]|e] w1]; cbn [fst snd].
    - destruct mn as [|m mn]; [destruct an as [|a an]|]; unfold lift, ret;
        try (eexists; eexists; reflexivity);
        match goal with
        | |- context [toSource ?ns] => destruct (toSource ns)
        end; eexists; eexists; reflexivity.
    - eexists. eexists. reflexivity. }
  destruct Hok as (r & w' & Hrun). rewrite Hrun in Hkeep.
  exists r, w'. split; [exact Hrun | exact Hkeep].
Qed.


(** X16.  [decompileTarget] and [decompileStage] never throw and never
    touch the output files: whatever the collaborators do, the call returns
    a source text or [null].  When a step outside the per-unit guards
    throws - deserializing the blocks, creating the decompiler, decompiling
    a variable declaration - or printing the program throws, the result is
    [null] and the console gets the two lines of the [catch] block, after
    what had been printed before. *)
Theorem decompile_never_throws (target : Sb3Target) (modules : DModules)
    (decls : list (FuseVariable * JsValue)) (w : DWorld) :
  (exists r w',
     decompileTarget target modules w = (Ok r, w')
     /\ sameFiles w w'
     /\ (forall e w1,
           targetNodes target modules w = (Throw e, w1) ->
           r = None /\ w' = afterError w1 (ErrorTarget e) (ErrorLine e))
     /\ (forall nodes w1 e,
           targetNodes target modules w = (Ok nodes, w1) ->
           fst nodes ++ snd nodes <> [] ->
           toSource (fst nodes ++ snd nodes) = Throw e ->
           r = None /\ w' = afterError w1 (ErrorTarget e) (ErrorLine e)))
  /\ (exists r w',
        decompileStage target modules decls w = (Ok r, w')
        /\ sameFiles w w'
        /\ (forall e w1,
              stageNodes target modules decls w = (Throw e, w1) ->
              r = None /\ w' = afterError w1 (ErrorStage e) (ErrorLine e))
        /\ (forall nodes w1 e,
              stageNodes target modules decls w = (Ok nodes, w1) ->
              toSource (fst nodes ++ snd nodes) = Throw e ->
              r = None /\ w' = afterError w1 (ErrorStage e) (ErrorLine e))).
Proof.
  split.
  - pose proof (targetNodes_sameFiles target modules w) as Hsame.
    unfold decompileTarget, try_catch, bind.
    destruct (targetNodes target modules w) as [[[mn an]|e] w1]; cbn [fst snd] in *.
    + destruct mn as [|m mn]; [destruct an as [|a an]|].
      * unfold ret. eexists. eexists. split; [reflexivity|]. split; [exact Hsame|].
        split; [intros; discriminate|].
        intros nodes w2 e Hn Hne. inversion Hn; subst. simpl in Hne. congruence.
      * source_case Hsame.
      * source_case Hsame.
    + eexists. eexists. split; [reflexivity|]. split.
      * destruct Hsame. split; assumption.
      * split.
        -- intros e' w2 Heq. inversion Heq; subst. split; [reflexivity|]. after_error.
        -- intros; discriminate.
  - pose proof (stageNodes_sameFiles target modules decls w) as Hsame.
    unfold decompileStage, try_catch, bind.
    destruct (stageNodes target modules decls w) as [[nodes|e] w1]; cbn [fst snd] in *.
    + unfold lift, ret.
      destruct (toSource (fst nodes ++ snd nodes)) as [src|e] eqn:Hsrc.
      * eexists. eexists. split; [reflexivity|]. split; [exact Hsame|].
        split; [intros; discriminate|].
        intros nodes' w2 e Hn Hthrow. inversion Hn; subst. congruence.
      * eexists. eexists. split; [reflexivity|]. split.
        -- destruct Hsame. split; assumption.
        -- split; [intros; discriminate|].
           intros nodes' w2 e' Hn Hthrow. inversion Hn; subst.
           rewrite Hsrc in Hthrow. inversion Hthrow; subst. split; [reflexivity|]. after_error.
    + eexists. eexists. split; [reflexivity|]. split.
      * destruct Hsame. split; assumption.
      * split.
        -- intros e' w2 Heq. inversion Heq; subst. split; [reflexivity|]. after_error.
        -- intros; discriminate.
Qed.

End NeverThrows.

Lemma asset_round_trip_witness :
  exists w1,
    processAsset (Some "cat.png") "costume" Demo.world0
    = (Ok (mkAssetInfo "0b75926ab9a9f9fe7d6008245c09352e"
                       "0b75926ab9a9f9fe7d6008245c09352e.png" "png"), w1)
    /\ extractAsset Demo.pngZip "out/assets"
                    "0b75926ab9a9f9fe7d6008245c09352e.png" "costume_Cat_front"
                    Demo.dworld0
       = (Ok (Some "0b75926ab9a9f9fe7d6008245c09352e.png"),
          mkDWorld []
                   [("out/assets/0b75926ab9a9f9fe7d6008245c09352e.png", "PNGDATA")]
                   [("0b75926ab9a9f9fe7d6008245c09352e.png",
                     "0b75926ab9a9f9fe7d6008245c09352e.png")] 0).
Proof.
  destruct (asset_round_trip (T := Demo.types) (E := Demo.externals)
              (DT := Demo.dtypes) (DE := Demo.dexternals)
              "cat.png" "costume" "PNGDATA" Demo.world0 Demo.pngZip "out/assets"
              "costume_Cat_front" Demo.dworld0 eq_refl (fun _ _ => eq_refl))
    as (a & w1 & Hrun & _ & Hback).
  vm_compute in Hrun. inversion Hrun; subst a w1. clear Hrun.
  eexists. split; [vm_compute; reflexivity|].
  cbn [md5ext zipFiles] in Hback. rewrite Hback; [reflexivity|].
  intros k. unfold Demo.pngZip. cbn [JsMap.get].
  destruct (String.eqb "0b75926ab9a9f9fe7d6008245c09352e.png" k); reflexivity.
Defined.

Lemma decompile_never_throws_witness :
  decompileTarget (E := Demo.brokenExternals) Demo.sb3Sprite tt Demo.dworld0
  = (Ok None,
     mkDWorld [ErrorTarget "bad blocks"; ErrorLine "bad blocks"] [] [] 0)
  /\ decompileStage (E := Demo.brokenExternals) Demo.sb3Stage tt [] Demo.dworld0
     = (Ok None,
        mkDWorld [ErrorStage "bad blocks"; ErrorLine "bad blocks"] [] [] 0).
Proof.
  destruct (decompile_never_throws (T := Demo.dtypes) (E := Demo.brokenExternals)
              Demo.sb3Sprite tt [] Demo.dworld0)
    as ((r & w' & Hrun & _ & Hthrow & _) & _).
  destruct (Hthrow "bad blocks" Demo.dworld0 eq_refl) as [Hr Hw].
  destruct (decompile_never_throws (T := Demo.dtypes) (E := Demo.brokenExternals)
              Demo.sb3Stage tt [] Demo.dworld0)
    as (_ & (r2 & w2 & Hrun2 & _ & Hthrow2 & _)).
  destruct (Hthrow2 "bad blocks" Demo.dworld0 eq_refl) as [Hr2 Hw2].
  split.
  - rewrite Hrun, Hr, Hw. reflexivity.
  - rewrite Hrun2, Hr2, Hw2. reflexivity.
Defined.

Section SpriteConfig.
Import JsMap JsMapFacts.
Context {T : DTypes} {E : DExternals}.
Variable zip : JsMap.t ZipObject.
Variables outputDir assetsDir scriptsDir : string.

Hypothesis writes_ok : forall p data, writeFileSync p data = Ok tt.

Lemma fs_write_ok (p data : string) (w : DWorld) :
  fs_write p data w
  = (Ok tt, mkDWorld (d_console w) (d_writes w ++ [(p, data)]) (assetMapping w)
                     (d_state w)).
Proof. unfold fs_write. rewrite writes_ok. reflexivity. Qed.

(** One turn of the sprite loop, when the target has its two arrays and
    the files can be written. *)
Lemma processSprite_ok (modules : DModules) (acc : list TargetOut)
    (target : Sb3Target) (cs ss : list Sb3Asset) (w : DWorld) :
  st_costumes target = Some cs ->
  st_sounds target = Some ss ->
  exists out w',
    processSprite zip assetsDir scriptsDir modules acc target w
    = (Ok (acc ++ [out]), w')
    /\ configOf zip target out
    /\ (exists ws,
          d_writes w'
          = d_writes w ++ extractedFiles zip assetsDir cs
            ++ extractedFiles zip assetsDir ss ++ ws
          /\ match to_entry out with
             | Some _ =>
                 exists src,
                   ws = [(d_path_join scriptsDir
                            (String.append (safeNameOf (st_name target)) ".fuse"),
                          src)]
             | None => ws = []
             end)
    /\ (hasBlocks target = false ->
        d_state w' = d_state w
        /\ d_console w' = d_console w ++ [Info "Processing sprite"]).
Proof.
  intros Hcs Hss.
  unfold processSprite. rewrite Hcs, Hss. unfold arrayOf.
  unfold bind at 1. unfold d_log at 1.
  unfold bind at 1. unfold ret at 1.
  unfold bind at 1.
  unfold extractCostumes, extractSounds.
  match goal with
  | |- context [foldM (extractCostume zip assetsDir ?p) ?l [] ?w1] =>
      destruct (extractCostumes_ok zip assetsDir writes_ok p l [] w1)
        as (w2 & Hc & Hcw & Hcc & Hcs')
  end.
  rewrite Hc. unfold bind at 1. unfold ret at 1. unfold bind at 1.
  match goal with
  | |- context [foldM (extractSound zip assetsDir ?p) ?l [] ?w1] =>
      destruct (extractSounds_ok zip assetsDir writes_ok p l [] w1)
        as (w3 & Hs & Hsw & Hsc & Hss')
  end.
  rewrite Hs. cbn [d_writes d_console d_state] in *.
  assert (Hw3 : d_writes w3
                = d_writes w ++ extractedFiles zip assetsDir cs
                  ++ extractedFiles zip assetsDir ss).
  { rewrite Hsw, Hcw, <- app_assoc. reflexivity. }
  assert (Hcfg : forall entry,
            (entry = None \/ entry = Some (scriptEntry (st_name target))) ->
            (hasBlocks target = false -> entry = None) ->
            configOf zip target
              (mkTargetOut (st_name target)
                 (num_or (st_currentCostume target) 0%Z)
                 (str_or (st_rotationStyle target) "all around")
                 (num_or (st_layerOrder target) 0%Z)
                 (match st_visible target with Some false => false | _ => true end)
                 (num_or (st_x target) 0%Z)
                 (num_or (st_y target) 0%Z)
                 (num_or (st_size target) 100%Z)
                 (num_or (st_direction target) 90%Z)
                 (opt_or (st_draggable target) false)
                 (num_or (st_volume target) 100%Z)
                 ([] ++ map costumeConfig (filter (isListed zip) cs))
                 ([] ++ map soundConfig (filter (isListed zip) ss)) entry)).
  { intros entry H1 H2. unfold configOf. rewrite Hcs, Hss. cbn.
    repeat (split; [reflexivity|]). split; assumption. }
  destruct (hasBlocks target) eqn:Hblocks.
  - unfold bind at 1. unfold bind at 1.
    destruct (decompileTarget_returns target modules w3)
      as (r & w4 & Hrun & Hsame & _).
    rewrite Hrun.
    destruct r as [src|]; cbn [truthy].
    + destruct (String.eqb src "") eqn:Hsrc; cbn [negb].
      * unfold ret. eexists. eexists. split; [reflexivity|].
        split; [apply Hcfg; [left; reflexivity | intros; reflexivity]|].
        split; [|intros Hb; discriminate Hb].
        exists []. cbn [to_entry]. rewrite app_nil_r. split; [congruence | reflexivity].
      * unfold bind. rewrite fs_write_ok. unfold d_log, ret. cbn [opt_or].
        eexists. eexists. split; [reflexivity|].
        split; [apply Hcfg; [right; reflexivity | intros Hb; discriminate Hb]|].
        split; [|intros Hb; discriminate Hb].
        cbn [d_writes to_entry].
        exists [(d_path_join scriptsDir
                   (String.append (safeNameOf (st_name target)) ".fuse"), src)].
        split.
        -- rewrite Hsame, Hw3, <- !app_assoc. reflexivity.
        -- exists src. reflexivity.
    + unfold ret. eexists. eexists. split; [reflexivity|].
      split; [apply Hcfg; [left; reflexivity | intros; reflexivity]|].
      split; [|intros Hb; discriminate Hb].
      exists []. cbn [to_entry]. rewrite app_nil_r. split; [congruence | reflexivity].
  - unfold bind, ret. eexists. eexists. split; [reflexivity|].
    split; [apply Hcfg; [left; reflexivity | intros; reflexivity]|].
    split.
    + exists []. cbn [to_entry]. rewrite app_nil_r. split; [exact Hw3 | reflexivity].
    + intros _. split; congruence.
Qed.

(** One turn of the sprite loop for a target that lacks an array: the
    turn throws where the length of the array is read, before the costumes
    when that array is missing, after them when only the sounds are. *)
Lemma processSprite_missing (modules : DModules) (acc : list TargetOut)
    (target : Sb3Target) (w : DWorld) :
  match st_costumes target, st_sounds target with
  | Some _, Some _ => True
  | Some cs, None =>
      exists w',
        processSprite zip assetsDir scriptsDir modules acc target w
        = (Throw lengthOfUndefined, w')
        /\ d_state w' = d_state w
        /\ d_console w' = d_console w ++ [Info "Processing sprite"]
        /\ d_writes w' = d_writes w ++ extractedFiles zip assetsDir cs
  | None, _ =>
      processSprite zip assetsDir scriptsDir modules acc target w
      = (Throw lengthOfUndefined,
         mkDWorld (d_console w ++ [Info "Processing sprite"]) (d_writes w)
                  (assetMapping w) (d_state w))
  end.
Proof.
  unfold processSprite.
  destruct (st_costumes target) as [cs|]; [|reflexivity].
  destruct (st_sounds target) as [ss|]; [exact I|].
  unfold arrayOf.
  unfold bind at 1. unfold d_log at 1.
  unfold bind at 1. unfold ret at 1.
  unfold bind at 1.
  unfold extractCostumes.
  match goal with
  | |- context [foldM (extractCostume zip assetsDir ?p) ?l [] ?w1] =>
      destruct (extractCostumes_ok zip assetsDir writes_ok p l [] w1)
        as (w2 & Hc & Hcw & Hcc & Hcs')
  end.
  rewrite Hc. unfold bind, throw. exists w2.
  cbn [d_writes d_console d_state] in *. auto.
Qed.






(** X18.  A sprite without blocks is listed without running the
    decompiler.  When the files can be written and the target has its
    [costumes] and [sounds] arrays, the turn of the sprite loop succeeds,
    the block it adds has no [entry], the state of the decompiler and of
    the shared name manager is untouched, the console gets the progress
    line only, and the files written are the sprite's assets.  When an
    array is missing the turn throws the [TypeError] of reading [length] of
    [undefined]: at once when it is [costumes], after the costumes are
    extracted when it is [sounds]. *)
Theorem sprite_without_blocks (modules : DModules) (acc : list TargetOut)
    (target : Sb3Target) (w : DWorld) :
  hasBlocks target = false ->
  let run := processSprite zip assetsDir scriptsDir modules acc target w in
  match st_costumes target, st_sounds target with
  | Some cs, Some ss =>
      exists out w',
        run = (Ok (acc ++ [out]), w')
        /\ to_name out = st_name target
        /\ to_entry out = None
        /\ d_state w' = d_state w
        /\ d_console w' = d_console w ++ [Info "Processing sprite"]
        /\ d_writes w'
           = d_writes w ++ extractedFiles zip assetsDir cs
             ++ extractedFiles zip assetsDir ss
  | Some cs, None =>
      exists w',
        run = (Throw lengthOfUndefined, w')
        /\ d_state w' = d_state w
        /\ d_console w' = d_console w ++ [Info "Processing sprite"]
        /\ d_writes w' = d_writes w ++ extractedFiles zip assetsDir cs
  | None, _ =>
      run
      = (Throw lengthOfUndefined,
         mkDWorld (d_console w ++ [Info "Processing sprite"]) (d_writes w)
                  (assetMapping w) (d_state w))
  end.
Proof.
  intros Hblocks. cbv zeta.
  pose proof (processSprite_missing modules acc target w) as Hmiss.
  destruct (st_costumes target) as [cs|] eqn:Hcs; [|exact Hmiss].
  destruct (st_sounds target) as [ss|] eqn:Hss; [|exact Hmiss].
  destruct (processSprite_ok modules acc target cs ss w Hcs Hss)
    as (out & w' & Hrun & Hcfg & (ws & Hw & Hws) & Hnone).
  exists out, w'. split; [exact Hrun|].
  destruct Hcfg as (Hname & Hrest).
  assert (Hentry : to_entry out = None).
  { repeat match type of Hrest with _ /\ _ => destruct Hrest as [_ Hrest] end.
    apply Hrest. exact Hblocks. }
  destruct (Hnone Hblocks) as [Hst Hcon].
  split; [exact Hname|]. split; [exact Hentry|]. split; [exact Hst|].
  split; [exact Hcon|].
  rewrite Hentry in Hws. subst ws. rewrite Hw, app_nil_r. reflexivity.
Qed.


End SpriteConfig.


Lemma sprite_without_blocks_witness :
  (exists out w',
     processSprite Demo.sb3Zip "out/assets" "out/scripts" tt [] Demo.sb3Dot
                   Demo.dworld0 = (Ok ([] ++ [out]), w')
     /\ to_name out = "Dot" /\ to_entry out = None
     /\ d_state w' = 0
     /\ d_writes w' = [("out/assets/x.svg", "<svg/>")])
  /\ (exists w',
        processSprite Demo.sb3Zip "out/assets" "out/scripts" tt [] Demo.sb3Mute
                      Demo.dworld0 = (Throw lengthOfUndefined, w')
        /\ d_writes w' = [("out/assets/x.svg", "<svg/>")])
  /\ processSprite Demo.sb3Zip "out/assets" "out/scripts" tt [] Demo.sb3Bare
                   Demo.dworld0
     = (Throw lengthOfUndefined,
        mkDWorld [Info "Processing sprite"] [] JsMap.empty 0).
Proof.
  split; [|split].
  - pose proof (sprite_without_blocks (T := Demo.dtypes) (E := Demo.dexternals)
                  Demo.sb3Zip "out/assets" "out/scripts" (fun _ _ => eq_refl) tt []
                  Demo.sb3Dot Demo.dworld0 eq_refl) as H.
    cbv zeta in H.
    change (st_costumes Demo.sb3Dot)
      with (Some [mkSb3Asset "x.svg" "dot" None None]) in H.
    change (st_sounds Demo.sb3Dot) with (Some (@nil Sb3Asset)) in H.
    cbv beta iota in H.
    destruct H as (out & w' & Hrun & Hname & Hentry & Hst & _ & Hw).
    exists out, w'. split; [exact Hrun|]. split; [exact Hname|].
    split; [exact Hentry|]. split; [exact Hst|]. rewrite Hw. reflexivity.
  - pose proof (sprite_without_blocks (T := Demo.dtypes) (E := Demo.dexternals)
                  Demo.sb3Zip "out/assets" "out/scripts" (fun _ _ => eq_refl) tt []
                  Demo.sb3Mute Demo.dworld0 eq_refl) as H.
    cbv zeta in H.
    change (st_costumes Demo.sb3Mute)
      with (Some [mkSb3Asset "x.svg" "m" None None]) in H.
    change (st_sounds Demo.sb3Mute) with (@None (list Sb3Asset)) in H.
    cbv beta iota in H.
    destruct H as (w' & Hrun & _ & _ & Hw).
    exists w'. split; [exact Hrun|]. rewrite Hw. reflexivity.
  - exact (sprite_without_blocks (T := Demo.dtypes) (E := Demo.dexternals)
             Demo.sb3Zip "out/assets" "out/scripts" (fun _ _ => eq_refl) tt []
             Demo.sb3Bare Demo.dworld0 eq_refl).
Defined.


(* ===================================================================== *)
(** ** Round trips between the two drivers *)
(* ===================================================================== *)

Lemma word_is_ascii (c : ascii) :
  isWordChar c = true -> safeUnits c = String c EmptyString /\ unitsAt c = 1.
Proof.
  destruct c as [[] [] [] [] [] [] [] []]; intros H; vm_compute in H;
    try discriminate H; split; reflexivity.
Qed.

Lemma safeUnits_cases (c : ascii) :
  (exists x, safeUnits c = String x EmptyString /\ isWordChar x = true
             /\ unitsAt c = 1
             /\ (isWordChar c = true -> x = c))
  \/ (safeUnits c = EmptyString /\ unitsAt c = 0 /\ isWordChar c = false)
  \/ (safeUnits c = "__" /\ unitsAt c = 2 /\ isWordChar c = false).
Proof.
  destruct c as [[] [] [] [] [] [] [] []];
    first [ left; eexists; split; [reflexivity|]; split; [reflexivity|];
            split; [reflexivity|]; intros H; vm_compute in H;
            first [discriminate H | reflexivity]
          | right; left; split; [reflexivity|]; split; reflexivity
          | right; right; split; [reflexivity|]; split; reflexivity ].
Qed.

Lemma ascii_units (c : ascii) : nat_of_ascii c < 128 -> unitsAt c = 1.
Proof.
  intros H. unfold unitsAt. cbv zeta.
  destruct (Nat.ltb_spec (nat_of_ascii c) 128) as [_|Hge]; [reflexivity | lia].
Qed.

(** X20.  The sanitized name of a sprite has as many characters as the
    name has UTF-16 code units, which is its length for a name in ASCII,
    and consists of letters, digits and underscores only; sanitizing is
    idempotent, and a name that is already made of such characters is left
    as it is. *)
Theorem safeNameOf_sanitizes (name : string) :
  String.length (safeNameOf name) = utf16Length name
  /\ Forall (fun c => isWordChar c = true) (list_ascii_of_string (safeNameOf name))
  /\ safeNameOf (safeNameOf name) = safeNameOf name
  /\ (Forall (fun c => isWordChar c = true) (list_ascii_of_string name) ->
      safeNameOf name = name)
  /\ (Forall (fun c => nat_of_ascii c < 128) (list_ascii_of_string name) ->
      String.length (safeNameOf name) = String.length name).
Proof.
  induction name as [|c r (Hlen & Hall & Hidem & Hfix & Hascii)];
    cbn [safeNameOf utf16Length list_ascii_of_string String.length].
  - repeat split; auto.
  - destruct (safeUnits_cases c)
      as [(x & Hx & Hword & Hu & Hsame) | [(Hx & Hu & Hno) | (Hx & Hu & Hno)]];
      rewrite Hx, Hu;
      cbn [String.append String.length list_ascii_of_string safeNameOf Nat.add].
    + destruct (word_is_ascii x Hword) as [Hxx _]. rewrite Hxx.
      cbn [String.append].
      split; [now rewrite Hlen|]. split; [constructor; assumption|].
      split; [now rewrite Hidem|]. split.
      * intros Hw. inversion Hw as [|? ? Hc Hr]; subst.
        rewrite (Hsame Hc), (Hfix Hr). reflexivity.
      * intros Ha. inversion Ha as [|? ? Hc Hr]; subst.
        rewrite (Hascii Hr). reflexivity.
    + split; [exact Hlen|]. split; [exact Hall|]. split; [exact Hidem|]. split.
      * intros Hw. inversion Hw as [|? ? Hc Hr]; subst. congruence.
      * intros Ha. inversion Ha as [|? ? Hc Hr]; subst.
        apply ascii_units in Hc. congruence.
    + split; [now rewrite Hlen|].
      split; [repeat constructor; exact Hall|].
      change (safeUnits "_"%char) with "_".
      cbn [String.append]. split; [now rewrite Hidem|]. split.
      * intros Hw. inversion Hw as [|? ? Hc Hr]; subst. congruence.
      * intros Ha. inversion Ha as [|? ? Hc Hr]; subst.
        apply ascii_units in Hc. congruence.
Qed.

Lemma safeNameOf_sanitizes_witness :
  safeNameOf "My cat-2!" = "My_cat_2_"
  /\ String.length (safeNameOf "My cat-2!") = 9
  /\ safeNameOf "ok_1" = "ok_1"
  /\ String.length Demo.cafe = 5
  /\ safeNameOf Demo.cafe = "Caf_"
  /\ String.length (safeNameOf Demo.cafe) = 4
  /\ safeNameOf Demo.face = "__".
Proof.
  destruct (safeNameOf_sanitizes "My cat-2!") as (_ & _ & _ & _ & Hlen).
  destruct (safeNameOf_sanitizes "ok_1") as (_ & _ & _ & Hfix & _).
  destruct (safeNameOf_sanitizes Demo.cafe) as (Hunits & _).
  split; [reflexivity|]. split.
  { rewrite Hlen; [reflexivity|]. repeat constructor. }
  split; [apply Hfix; repeat constructor|].
  split; [reflexivity|]. split; [reflexivity|].
  split; [rewrite Hunits; reflexivity | reflexivity].
Defined.

Section VariableRoundTrip.
Import JsMap JsMapFacts.
Context {T : Types} {E : Externals}.

Hypothesis uid_fresh : forall i j, uid_at i = uid_at j -> i = j.

Lemma values_app {V : Type} (m1 m2 : JsMap.t V) :
  values (m1 ++ m2) = values m1 ++ values m2.
Proof. unfold values. apply map_app. Qed.

Lemma foldM_rekey_values (l : list (FuseVariable * JsValue)) :
  forall (V0 L0 : JsMap.t (string * JsValue)) (w : World),
  (forall i, i < List.length l ->
     has V0 (uid_at (uidCount w + i)) = false
     /\ has L0 (uid_at (uidCount w + i)) = false) ->
  exists V L w',
    foldM rekey l (V0, L0) w = (Ok (V, L), w')
    /\ values V
       = values V0
         ++ map (fun vd => (displayName (fst vd),
                            nullish_or (snd vd) (JPrim (PNum 0))))
                (filter (fun vd => negb (String.eqb (v_type (fst vd)) "list")) l)
    /\ values L
       = values L0
         ++ map (fun vd => (displayName (fst vd), array_or_empty (snd vd)))
                (filter (fun vd => String.eqb (v_type (fst vd)) "list") l).
Proof.
  induction l as [|[v d] r IH]; intros V0 L0 w Hfresh.
  - exists V0, L0, w. simpl. rewrite !app_nil_r. auto.
  - destruct (Hfresh 0 ltac:(simpl; lia)) as [HV0 HL0].
    rewrite Nat.add_0_r in HV0, HL0.
    assert (Hne : forall i, String.eqb (uid_at (uidCount w)) (uid_at (S (uidCount w + i))) = false).
    { intros i. apply String.eqb_neq. intros Heq. apply uid_fresh in Heq. lia. }
    assert (Hrest : forall i, i < List.length r ->
              has V0 (uid_at (S (uidCount w + i))) = false
              /\ has L0 (uid_at (S (uidCount w + i))) = false).
    { intros i Hi. specialize (Hfresh (S i) ltac:(simpl; lia)).
      now rewrite Nat.add_succ_r in Hfresh. }
    cbn [foldM]. unfold bind at 1. unfold rekey at 1. unfold bind, uid, ret.
    cbn [filter fst snd]. 
    destruct (String.eqb (v_type v) "list") eqn:Hty; cbn [negb].
    + set (x := (displayName v, array_or_empty d)).
      set (w1 := mkWorld (console w) (fsReads w) (compilerCalls w) (zipFiles w)
                         (S (uidCount w))).
      destruct (IH V0 (set L0 (uid_at (uidCount w)) x) w1) as (V & L & w' & Hrun & HV & HL).
      { intros i Hi. simpl. destruct (Hrest i Hi) as [H1 H2].
        split; auto. rewrite has_set, Hne, H2. reflexivity. }
      exists V, L, w'. rewrite Hrun. split; [reflexivity|]. split; [exact HV|].
      rewrite HL, set_fresh by assumption. rewrite values_app, <- app_assoc.
      reflexivity.
    + set (x := (displayName v, nullish_or d (JPrim (PNum 0)))).
      set (w1 := mkWorld (console w) (fsReads w) (compilerCalls w) (zipFiles w)
                         (S (uidCount w))).
      destruct (IH (set V0 (uid_at (uidCount w)) x) L0 w1) as (V & L & w' & Hrun & HV & HL).
      { intros i Hi. simpl. destruct (Hrest i Hi) as [H1 H2].
        split; auto. rewrite has_set, Hne, H1. reflexivity. }
      exists V, L, w'. rewrite Hrun. split; [reflexivity|]. split; [|exact HL].
      rewrite HV, set_fresh by assumption. rewrite values_app, <- app_assoc.
      reflexivity.
Qed.

(** X21.  Variables survive the round trip by display name, in order: when
    [uid()] never repeats, the declarations that the decompiler rebuilds
    from the [variables] and [lists] objects which the compiler made of a
    table (read back with their entries in the same order) are, in the
    order of the table, one scalar per variable whose
    type is not [list] and one list per variable whose type is [list]; each
    is named by the export name of the variable if it has one and by its
    name otherwise, has no export name, and carries the default value
    (0 for a missing scalar default, the empty list for a list default
    that is not an array). *)
Theorem variables_round_trip (table : VarTable) (isGlobal : bool) (w w' : World)
    (V L : JsMap.t (string * JsValue)) :
  rekeyAll table w = (Ok (V, L), w') ->
  declarationsOf "scalar" isGlobal (Some V)
  = map (fun vd => (mkVariable "scalar" (displayName (fst vd)) isGlobal None,
                    nullish_or (snd vd) (JPrim (PNum 0))))
        (filter (fun vd => negb (String.eqb (v_type (fst vd)) "list"))
                (values table))
  /\ declarationsOf "list" isGlobal (Some L)
     = map (fun vd => (mkVariable "list" (displayName (fst vd)) isGlobal None,
                       array_or_empty (snd vd)))
           (filter (fun vd => String.eqb (v_type (fst vd)) "list") (values table)).
Proof.
  intros Hrun. unfold rekeyAll in Hrun.
  destruct (foldM_rekey_values (values table) empty empty w)
    as (V' & L' & w1 & Hrun' & HV & HL).
  { intros i _. split; reflexivity. }
  rewrite Hrun in Hrun'. inversion Hrun'; subst V' L' w1.
  unfold declarationsOf. cbn [opt_or]. simpl in HV, HL.
  rewrite HV, HL, !map_map. split; reflexivity.
Qed.

End VariableRoundTrip.

Lemma variables_round_trip_witness :
  let table : VarTable :=
    [ ("speed", (mkVariable "scalar" "speed" false (Some "velocity"), JNull));
      ("names", (mkVariable "list" "names" false None, JPrim (PNum 3)));
      ("n", (mkVariable "scalar" "n" false None, JPrim (PNum 7))) ] in
  exists V L w',
    rekeyAll table Demo.world0 = (Ok (V, L), w')
    /\ declarationsOf "scalar" false (Some V)
       = [ (mkVariable "scalar" "velocity" false None, JPrim (PNum 0));
           (mkVariable "scalar" "n" false None, JPrim (PNum 7)) ]
    /\ declarationsOf "list" false (Some L)
       = [ (mkVariable "list" "names" false None, JArr []) ].
Proof.
  intros table.
  destruct (rekeyAll (T := Demo.types) table Demo.world0) as [[[V L]|e] w'] eqn:Hrun;
    [|vm_compute in Hrun; discriminate Hrun].
  exists V, L, w'. split; [reflexivity|].
  exact (variables_round_trip (T := Demo.types) (E := Demo.externals)
           demo_uid_fresh table false Demo.world0 w' V L Hrun).
Defined.

Section PresentationRoundTrip.
Context {T : Types} {E : Externals} {DT : DTypes} {DE : DExternals}.

Lemma num_or_zero (o : option Z) : num_or o 0%Z = opt_or o 0%Z.
Proof.
  destruct o as [n|]; simpl; auto.
  destruct (n =? 0)%Z eqn:Hn; auto. apply Z.eqb_eq in Hn. now subst.
Qed.

Lemma num_or_some (n : Z) : num_or (Some n) n = n.
Proof. simpl. now destruct (n =? 0)%Z. Qed.

(** The block that a turn of the sprite loop adds, whatever the files do. *)
Lemma processSprite_fields (zip : JsMap.t ZipObject)
    (assetsDir scriptsDir : string) (modules : DModules)
    (acc outs : list TargetOut) (target : Sb3Target) (w w' : DWorld) :
  processSprite zip assetsDir scriptsDir modules acc target w = (Ok outs, w') ->
  exists costumes sounds entry,
    outs
    = acc ++ [mkTargetOut (st_name target)
                (num_or (st_currentCostume target) 0%Z)
                (str_or (st_rotationStyle target) "all around")
                (num_or (st_layerOrder target) 0%Z)
                (match st_visible target with Some false => false | _ => true end)
                (num_or (st_x target) 0%Z)
                (num_or (st_y target) 0%Z)
                (num_or (st_size target) 100%Z)
                (num_or (st_direction target) 90%Z)
                (opt_or (st_draggable target) false)
                (num_or (st_volume target) 100%Z)
                costumes sounds entry].
Proof.
  intros Hrun. unfold processSprite in Hrun.
  unfold bind at 1 in Hrun. unfold d_log at 1 in Hrun.
  destruct (st_costumes target) as [cs|];
    [|unfold arrayOf, bind, throw in Hrun; discriminate Hrun].
  unfold arrayOf at 1 in Hrun.
  unfold bind at 1 in Hrun. unfold ret at 1 in Hrun.
  unfold bind at 1 in Hrun.
  match type of Hrun with
  | context [extractCostumes zip assetsDir ?p ?l ?w1] =>
      destruct (extractCostumes zip assetsDir p l w1) as [[costumes|e] w2];
      [|discriminate]
  end.
  destruct (st_sounds target) as [ss|];
    [|unfold arrayOf, bind, throw in Hrun; discriminate Hrun].
  unfold arrayOf at 1 in Hrun.
  unfold bind at 1 in Hrun. unfold ret at 1 in Hrun.
  unfold bind at 1 in Hrun.
  match type of Hrun with
  | context [extractSounds zip assetsDir ?p ?l ?w1] =>
      destruct (extractSounds zip assetsDir p l w1) as [[sounds|e] w3];
      [|discriminate]
  end.
  unfold bind at 1 in Hrun.
  match type of Hrun with
  | (match ?m w3 with pair _ _ => _ end) = _ =>
      destruct (m w3) as [[entry|e] w4]; [|discriminate]
  end.
  unfold ret in Hrun. inversion Hrun; subst.
  exists costumes, sounds, entry. reflexivity.
Qed.

(** X22.  The presentation fields of a sprite survive the round trip
    through [project.json], except where the decompiler takes a zero for a
    missing value.  When the decompiler reads the target that the compiler
    built for a declared sprite, the block it writes has the sprite's name
    and the declared position, costume index, layer, visibility and
    draggability (or their defaults: 0, 0, 0, the position in the list
    counted from 1, visible, not draggable); but a declared size, direction
    or volume of 0 comes back as the default 100, 90 or 100, and an empty
    rotation style as `all around`. *)
Theorem presentation_round_trip (i : nat) (c : CompiledTarget) (w w1 : World)
    (mt : ManifestTarget) (zip : JsMap.t ZipObject)
    (assetsDir scriptsDir : string) (modules : DModules)
    (acc : list TargetOut) (s : Sb3Target) (dw dw' : DWorld) (out : TargetOut) :
  buildSpriteTarget i c w = (Ok mt, w1) ->
  readsTarget mt s ->
  processSprite zip assetsDir scriptsDir modules acc s dw
    = (Ok (acc ++ [out]), dw') ->
  let t := c_target c in
  to_name out = t_name t
  /\ to_x out = opt_or (t_x t) 0%Z
  /\ to_y out = opt_or (t_y t) 0%Z
  /\ to_currentCostume out = opt_or (t_currentCostume t) 0%Z
  /\ to_layerOrder out = opt_or (t_layerOrder t) (Z.of_nat i + 1)%Z
  /\ to_visible out = opt_or (t_visible t) true
  /\ to_draggable out = opt_or (t_draggable t) false
  /\ to_size out = zeroAsDefault (t_size t) 100%Z
  /\ to_direction out = zeroAsDefault (t_direction t) 90%Z
  /\ to_volume out = zeroAsDefault (t_volume t) 100%Z
  /\ to_rotationStyle out = str_or (t_rotationStyle t) "all around".
Proof.
  intros Hbuild Hreads Hrun t.
  apply processSprite_fields in Hrun.
  destruct Hrun as (costumes & sounds & entry & Hout).
  apply app_inv_head in Hout. inversion Hout as [Ho]. clear Hout.
  unfold buildSpriteTarget, bind, ret in Hbuild.
  destruct (rekeyAll (c_variables c) w) as [[objs|e] w2]; [|discriminate].
  destruct (buildCostumes "costume" (t_costumes (c_target c)) w2)
    as [[cs|e] w3]; [|discriminate].
  destruct (buildSounds (t_sounds (c_target c)) w3) as [[ss|e] w4]; [|discriminate].
  inversion Hbuild as [[Hmt Hw]]. clear Hbuild.
  destruct Hreads as (Hn & Hcc & Hlo & Hvol & sp & Hsp & Hvis & Hx & Hy & Hsz & Hdir
                      & Hdr & Hrs).
  rewrite <- Hmt in Hn, Hcc, Hlo, Hvol, Hsp. cbn in Hn, Hcc, Hlo, Hvol, Hsp.
  inversion Hsp as [Hspeq]. rewrite <- Hspeq in Hvis, Hx, Hy, Hsz, Hdir, Hdr, Hrs.
  cbn in Hvis, Hx, Hy, Hsz, Hdir, Hdr, Hrs.
  cbn [to_name to_x to_y to_currentCostume to_layerOrder to_visible to_draggable
       to_size to_direction to_volume to_rotationStyle].
  rewrite Hn, Hcc, Hlo, Hvol, Hvis, Hx, Hy, Hsz, Hdir, Hdr, Hrs.
  fold t. rewrite !num_or_zero. cbn [opt_or].
  repeat (split; [reflexivity|]).
  split.
  { destruct (t_visible t) as [[|]|]; reflexivity. }
  split; [reflexivity|].
  split.
  { unfold zeroAsDefault. destruct (t_size t) as [n|]; simpl; [|reflexivity].
    destruct (n =? 0)%Z; reflexivity. }
  split.
  { unfold zeroAsDefault. destruct (t_direction t) as [n|]; simpl; [|reflexivity].
    destruct (n =? 0)%Z; reflexivity. }
  split.
  { unfold zeroAsDefault. destruct (t_volume t) as [n|]; simpl; [|reflexivity].
    destruct (n =? 0)%Z; reflexivity. }
  destruct (t_rotationStyle t) as [r|]; simpl; [|reflexivity].
  destruct (String.eqb r ""); reflexivity.
Qed.

End PresentationRoundTrip.

Lemma presentation_round_trip_witness :
  exists mt w1 sp out dw',
    buildSpriteTarget 0 Demo.upCompiled Demo.world0 = (Ok mt, w1)
    /\ mt_sprite mt = Some sp /\ sp_direction sp = 0%Z /\ sp_size sp = 0%Z
    /\ processSprite [] "out/assets" "out/scripts" tt [] Demo.sb3Up Demo.dworld0
       = (Ok ([] ++ [out]), dw')
    /\ to_x out = 10%Z
    /\ to_direction out = 90%Z /\ to_size out = 100%Z /\ to_volume out = 100%Z.
Proof.
  destruct (buildSpriteTarget (T := Demo.types) 0 Demo.upCompiled
              Demo.world0) as [[mt|e] w1] eqn:Hbuild;
    [|vm_compute in Hbuild; discriminate Hbuild].
  destruct (processSprite_ok (T := Demo.dtypes) (E := Demo.dexternals)
              [] "out/assets" "out/scripts" (fun _ _ => eq_refl) tt []
              Demo.sb3Up [] [] Demo.dworld0 eq_refl eq_refl)
    as (out & dw' & Hrun & _).
  assert (Hreads : readsTarget mt Demo.sb3Up /\ exists sp, mt_sprite mt = Some sp
                     /\ sp_direction sp = 0%Z /\ sp_size sp = 0%Z).
  { pose proof Hbuild as Hc. vm_compute in Hc. inversion Hc as [[Hmt Hw]].
    split.
    - unfold readsTarget. cbn. repeat (split; [reflexivity|]).
      eexists. split; [reflexivity|]. cbn. repeat (split; [reflexivity|]).
      reflexivity.
    - eexists. split; [reflexivity|]. split; reflexivity. }
  destruct Hreads as (Hreads & sp & Hsp & Hdir & Hsz).
  destruct (presentation_round_trip (T := Demo.types) (E := Demo.externals)
              (DT := Demo.dtypes) (DE := Demo.dexternals)
              0 Demo.upCompiled Demo.world0 w1 mt []
              "out/assets" "out/scripts" tt [] Demo.sb3Up Demo.dworld0 dw' out
              Hbuild Hreads Hrun)
    as (_ & Hx & _ & _ & _ & _ & _ & Hs & Hd & Hv & _).
  exists mt, w1, sp, out, dw'. split; [reflexivity|]. split; [exact Hsp|].
  split; [exact Hdir|]. split; [exact Hsz|]. split; [exact Hrun|].
  split; [exact Hx|]. split; [exact Hd|]. split; [exact Hs | exact Hv].
Defined.
